(** * Run-lifecycle and checkpoint-resumption logic of [pad_experiments.py]

    A shallow embedding of [resume_or_start] and of the part of [main] that
    restores the optimizer's learning rate from [lrs.txt], together with the
    Python primitives they rest on ([str.split], [str.strip], [int],
    [pathlib.Path], directory globbing, [mkdir]).  The embedding also covers
    [create_model_log_path], the way of [main] from its arguments to the
    resolved plan, and the data module [PADDataModule] of
    [utils/PAD_datamodule.py].

    Python strings are modelled as [string]; a character is a code point
    below 256.  Paths are taken as they are written: a component [..] is a
    component like any other and is not resolved against the file system.  Python exceptions are values of [exn]; a computation that may
    raise returns a [result]. *)

From Stdlib Require Import ZArith NArith String Ascii List Lia Bool Sorted.
From stdpp Require Import gmap strings list.

Local Open Scope string_scope.
Local Open Scope Z_scope.

(** ** Exceptions and results *)

Inductive exn : Type :=
  | ValueError
  | IndexError
  | KeyError
  | TypeError
  | AttributeError
  | UnboundLocalError (name : string)
  | FileNotFoundError
  | FileExistsError
  | NotADirectoryError
  | IsADirectoryError
  | SystemExit (code : Z).

Inductive result (A : Type) : Type :=
  | Ok (a : A)
  | Err (e : exn).
Arguments Ok {A} a.
Arguments Err {A} e.

Definition bind {A B : Type} (r : result A) (k : A -> result B) : result B :=
  match r with
  | Ok a => k a
  | Err e => Err e
  end.

Notation "'let*' x ':=' e 'in' k" := (bind e (fun x => k))
  (at level 10, x name, e at level 200, k at level 200).

Definition is_ok {A : Type} (r : result A) : bool :=
  match r with Ok _ => true | Err _ => false end.

(** [o is None] *)
Definition is_none {A : Type} (o : option A) : bool :=
  match o with Some _ => false | None => true end.

(** ** Python built-ins on strings and lists *)

Module Py.

(** [str.isspace] on code points below 256: TAB..CR, FS..US, space, NEL, NBSP. *)
Definition is_space (c : ascii) : bool :=
  let n := N_of_ascii c in
  (((9 <=? n) && (n <=? 13)) || ((28 <=? n) && (n <=? 32))
   || (n =? 133) || (n =? 160))%N.

Definition is_digit (c : ascii) : bool :=
  let n := N_of_ascii c in ((48 <=? n) && (n <=? 57))%N.

Definition digit_val (c : ascii) : Z := Z.of_N (N_of_ascii c) - 48.

Definition is_empty (s : string) : bool :=
  match s with EmptyString => true | String _ _ => false end.

Fixpoint lstrip (s : string) : string :=
  match s with
  | EmptyString => EmptyString
  | String c s' => if is_space c then lstrip s' else s
  end.

Fixpoint rstrip (s : string) : string :=
  match s with
  | EmptyString => EmptyString
  | String c s' =>
      let r := rstrip s' in
      if is_space c && is_empty r then EmptyString else String c r
  end.

(** [s.strip()] *)
Definition strip (s : string) : string := rstrip (lstrip s).

Fixpoint starts_with (p s : string) : bool :=
  match p with
  | EmptyString => true
  | String a p' =>
      match s with
      | EmptyString => false
      | String b s' => if Ascii.eqb a b then starts_with p' s' else false
      end
  end.

(** [split_aux sep skip s] is the first field of [s] and the list of the
    remaining ones, the first [skip] characters of [s] being the rest of a
    separator that has just been matched. *)
Fixpoint split_aux (sep : string) (skip : nat) (s : string) : string * list string :=
  match s with
  | EmptyString => (EmptyString, [])
  | String c s' =>
      match skip with
      | S k => split_aux sep k s'
      | O =>
          if starts_with sep s
          then (EmptyString,
                let '(f, r) := split_aux sep (Nat.pred (String.length sep)) s' in f :: r)
          else let '(f, r) := split_aux sep O s' in (String c f, r)
      end
  end.

(** [s.split(sep)] for a non-empty separator. *)
Definition split (sep s : string) : list string :=
  let '(f, r) := split_aux sep O s in f :: r.

(** [l[i]], negative indices counting from the end. *)
Definition index {A : Type} (l : list A) (i : Z) : result A :=
  let n := Z.of_nat (List.length l) in
  let j := if i <? 0 then n + i else i in
  if (j <? 0) || (n <=? j) then Err IndexError
  else match nth_error l (Z.to_nat j) with
       | Some a => Ok a
       | None => Err IndexError
       end.

(** Decimal digits with single underscores between digits. *)
Fixpoint parse_digits (acc : Z) (after_digit : bool) (s : string) : option Z :=
  match s with
  | EmptyString => if after_digit then Some acc else None
  | String c s' =>
      if is_digit c then parse_digits (10 * acc + digit_val c) true s'
      else if Ascii.eqb c "_" && after_digit then parse_digits acc false s'
      else None
  end.

Definition parse_int (s : string) : option Z :=
  match strip s with
  | String "+" r => parse_digits 0 false r
  | String "-" r => option_map Z.opp (parse_digits 0 false r)
  | t => parse_digits 0 false t
  end.

(** [int(s)] for a string [s]. *)
Definition int (s : string) : result Z :=
  match parse_int s with
  | Some z => Ok z
  | None => Err ValueError
  end.

(** [s.rfind(c)] *)
Fixpoint rfind (c : ascii) (s : string) : option nat :=
  match s with
  | EmptyString => None
  | String a s' =>
      match rfind c s' with
      | Some i => Some (S i)
      | None => if Ascii.eqb a c then Some O else None
      end
  end.

(** Stable insertion sort with the strict order [lt], as [sorted] is. *)
Fixpoint insert_sorted {A : Type} (lt : A -> A -> bool) (x : A) (l : list A) : list A :=
  match l with
  | [] => [x]
  | y :: l' => if lt y x then y :: insert_sorted lt x l' else x :: l
  end.

Fixpoint sorted {A : Type} (lt : A -> A -> bool) (l : list A) : list A :=
  match l with
  | [] => []
  | x :: l' => insert_sorted lt x (sorted lt l')
  end.

(** [fnmatch] for patterns made of literal characters and [*]. *)
Fixpoint fnmatch (pat name : string) : bool :=
  match pat with
  | EmptyString => is_empty name
  | String c pat' =>
      if Ascii.eqb c "*"
      then (fix any (n : string) : bool :=
              fnmatch pat' n
              || match n with
                 | EmptyString => false
                 | String _ n' => any n'
                 end) name
      else match name with
           | EmptyString => false
           | String d name' => Ascii.eqb c d && fnmatch pat' name'
           end
  end.

End Py.

(** ** [pathlib.Path] (POSIX flavour) *)

(** A path is its root (empty, ["/"] or ["//"]) and its components. *)
Record Path : Type := mkPath { root : string; parts : list string }.

#[global] Instance Path_eq_dec : EqDecision Path.
Proof. solve_decision. Defined.

Module PathLib.

Fixpoint lstrip_sep (s : string) : string :=
  match s with
  | String "/" s' => lstrip_sep s'
  | _ => s
  end.

(** The root of a path string: two leading slashes, and only two, are kept. *)
Definition splitroot (s : string) : string :=
  match s with
  | String "/" (String "/" (String "/" _)) => "/"
  | String "/" (String "/" _) => "//"
  | String "/" _ => "/"
  | _ => EmptyString
  end.

Definition keep_part (x : string) : bool :=
  negb (Py.is_empty x) && negb (String.eqb x ".").

(** [Path(s)] *)
Definition of_string (s : string) : Path :=
  {| root := splitroot s;
     parts := List.filter keep_part (Py.split "/" (lstrip_sep s)) |}.

(** [p.name] *)
Definition name (p : Path) : string := List.last (parts p) EmptyString.

(** [p.stem]: the name without its last suffix. *)
Definition stem (p : Path) : string :=
  let n := name p in
  match Py.rfind "." n with
  | Some i =>
      if (0 <? i)%nat && (i <? Nat.pred (String.length n))%nat
      then String.substring 0 i n
      else n
  | None => n
  end.

(** [p.parent] *)
Definition parent (p : Path) : Path :=
  {| root := root p; parts := List.removelast (parts p) |}.

(** [p / s] *)
Definition joinpath (p : Path) (s : string) : Path :=
  let q := of_string s in
  if Py.is_empty (root q)
  then {| root := root p; parts := (parts p ++ parts q)%list |}
  else q.

Fixpoint list_ltb (l1 l2 : list string) : bool :=
  match l1, l2 with
  | _, [] => false
  | [], _ :: _ => true
  | a :: l1', b :: l2' =>
      if String.ltb a b then true
      else if String.eqb a b then list_ltb l1' l2'
      else false
  end.

Definition cparts (p : Path) : list string :=
  if Py.is_empty (root p) then parts p else root p :: parts p.

(** [p < q]: paths compare as the lists of their components. *)
Definition ltb (p q : Path) : bool := list_ltb (cparts p) (cparts q).

End PathLib.

Notation "p // s" := (PathLib.joinpath p s) (at level 40, left associativity).

(** ** The file system and the clock *)

(** A text file is the list of lines that iterating over it yields. *)
Inductive node : Type :=
  | Dir
  | File (lines : list string).

(** [datetime.now()] *)
Record datetime : Type :=
  { year : nat; month : nat; day : nat; hour : nat; minute : nat; second : nat }.

(** The entries of the file system are kept in the order in which a
    directory scan enumerates them. *)
Record world : Type := mkWorld { fs : list (Path * node); now : datetime }.

Module FS.

Fixpoint find (l : list (Path * node)) (p : Path) : option node :=
  match l with
  | [] => None
  | (q, n) :: l' => if decide (q = p) then Some n else find l' p
  end.

(** The root and the current directory are always there. *)
Definition lookup (l : list (Path * node)) (p : Path) : option node :=
  match parts p with
  | [] => Some Dir
  | _ :: _ => find l p
  end.

Definition is_dir (l : list (Path * node)) (p : Path) : bool :=
  match lookup l p with
  | Some Dir => true
  | _ => false
  end.

Definition is_child (dir : Path) (pat : string) (e : Path * node) : bool :=
  let p := fst e in
  negb (Nat.eqb (List.length (parts p)) 0)
  && bool_decide (PathLib.parent p = dir)
  && Py.fnmatch pat (PathLib.name p).

(** [dir.glob(pat)] for a pattern without a slash. *)
Definition glob (l : list (Path * node)) (dir : Path) (pat : string) : list Path :=
  if is_dir l dir then List.map fst (List.filter (is_child dir pat) l) else [].

(** [os.mkdir(p)] *)
Definition os_mkdir (l : list (Path * node)) (p : Path) : result (list (Path * node)) :=
  match lookup l p with
  | Some _ => Err FileExistsError
  | None =>
      match lookup l (PathLib.parent p) with
      | None => Err FileNotFoundError
      | Some (File _) => Err NotADirectoryError
      | Some Dir => Ok (l ++ [(p, Dir)])%list
      end
  end.

(** [p.mkdir(exist_ok=True)] without [parents]. *)
Definition mkdir_exist_ok (l : list (Path * node)) (p : Path) : result (list (Path * node)) :=
  match os_mkdir l p with
  | Ok l' => Ok l'
  | Err e => if is_dir l p then Ok l else Err e
  end.

(** [p.mkdir(exist_ok=True, parents=True)]; [n] bounds the number of
    ancestors, a path without components being its own parent. *)
Fixpoint mkdir_parents (n : nat) (l : list (Path * node)) (p : Path) : result (list (Path * node)) :=
  match os_mkdir l p with
  | Ok l' => Ok l'
  | Err FileNotFoundError =>
      match n with
      | O => Err FileNotFoundError
      | S k =>
          let* l1 := mkdir_parents k l (PathLib.parent p) in
          mkdir_exist_ok l1 p
      end
  | Err e => if is_dir l p then Ok l else Err e
  end.

Definition mkdir (l : list (Path * node)) (p : Path) : result (list (Path * node)) :=
  mkdir_parents (List.length (parts p)) l p.

(** [open(p, 'r')] followed by iteration over the lines. *)
Definition read_lines (l : list (Path * node)) (p : Path) : result (list string) :=
  match lookup l p with
  | None => Err FileNotFoundError
  | Some Dir => Err IsADirectoryError
  | Some (File lines) => Ok lines
  end.

End FS.

(** [strftime] of the fields, zero padded. *)
Definition digit_char (n : nat) : ascii := ascii_of_nat (48 + n mod 10).

Definition two_digits (n : nat) : string :=
  String (digit_char (n / 10)) (String (digit_char n) EmptyString).

Definition four_digits (n : nat) : string :=
  String (digit_char (n / 1000)) (String (digit_char (n / 100))
    (String (digit_char (n / 10)) (String (digit_char n) EmptyString))).

(** [now.strftime("%Y%m%d%H%M%S")] *)
Definition strftime (d : datetime) : string :=
  four_digits (year d) +:+ two_digits (month d) +:+ two_digits (day d)
  +:+ two_digits (hour d) +:+ two_digits (minute d) +:+ two_digits (second d).

(** ** [resume_or_start] *)

(** [int(p.stem.split('=')[1].split('-')[0])]: the epoch of a checkpoint that
    the caller names, in the evaluate-only and explicit-resume branches. *)
Definition epoch_of_name (p : Path) : result Z :=
  let* a := Py.index (Py.split "=" (PathLib.stem p)) 1 in
  let* b := Py.index (Py.split "-" a) 0 in
  Py.int b.

(** [int(x.stem.split('=')[-1])]: the key under which the resume-last branch
    files an entry of the checkpoint directory. *)
Definition epoch_of_scan (x : Path) : result Z :=
  let* a := Py.index (Py.split "=" (PathLib.stem x)) (-1) in
  Py.int a.

(** [{int(x.stem.split('=')[-1]): x for x in xs}], added to [d]: a later
    entry takes the place of an earlier one with the same key. *)
Fixpoint epoch_ckpt_from (xs : list Path) (d : gmap Z Path) : result (gmap Z Path) :=
  match xs with
  | [] => Ok d
  | x :: xs' =>
      let* k := epoch_of_scan x in
      epoch_ckpt_from xs' (<[k := x]> d)
  end.

(** [d[k]] *)
Definition getitem (d : gmap Z Path) (k : Z) : result Path :=
  match d !! k with
  | Some x => Ok x
  | None => Err KeyError
  end.

Definition keys (d : gmap Z Path) : list Z := elements (dom d).

(** The result is the tuple
    [(run_path, resume_from_checkpoint, max_epoch, init_epoch)], together
    with the world the call leaves behind. *)
Definition resume_or_start (results_path : Path) (resume : option string)
    (train : bool) (num_epochs : Z) (load_checkpoint : option string)
    (w : world) : result (Path * option Path * Z * Z) * world :=
  if negb train then
    (match load_checkpoint with
     | None => Err TypeError
     | Some s =>
         let load_checkpoint := PathLib.of_string s in
         let run_path := PathLib.parent (PathLib.parent load_checkpoint) in
         let* init_epoch := epoch_of_name load_checkpoint in
         let max_epoch := init_epoch + 1 in
         Ok (run_path, Some load_checkpoint, max_epoch, init_epoch)
     end, w)
  else if bool_decide (resume = Some "last") then
    (let run_paths := Py.sorted PathLib.ltb (FS.glob (fs w) results_path "run_*") in
     let* run_path := Py.index run_paths (-1) in
     let* epoch_ckpt :=
       epoch_ckpt_from (FS.glob (fs w) (run_path // "checkpoints") "*") ∅ in
     let* init_epoch := Py.index (Py.sorted Z.ltb (keys epoch_ckpt)) (-1) in
     let* ckpt_path := getitem epoch_ckpt init_epoch in
     let max_epoch := init_epoch + num_epochs in
     Ok (run_path, Some ckpt_path, max_epoch, init_epoch), w)
  else
    match resume with
    | Some s =>
        (let resume := PathLib.of_string s in
         let run_path := PathLib.parent (PathLib.parent resume) in
         let* init_epoch := epoch_of_name resume in
         let max_epoch := init_epoch + num_epochs in
         Ok (run_path, Some resume, max_epoch, init_epoch), w)
    | None =>
        let run_ts := strftime (now w) in
        let run_path := results_path // ("run_" +:+ run_ts) in
        match FS.mkdir (fs w) run_path with
        | Err e => (Err e, w)
        | Ok fs' =>
            (Ok (run_path, None, num_epochs, 0), {| fs := fs'; now := now w |})
        end
    end.

(** ** The learning-rate ledger and the resolved plan in [main] *)

Inductive model : Type := convlstm | tempcnn | convstar | unet | utae | simvp.

(** The command-line arguments that the resolution reads. *)
Record args : Type :=
  { train : bool;
    resume : option string;
    model_name : model;
    load_checkpoint : option string;
    num_epochs : Z }.

Section Ledger.

(** The learning rate is a Python float; [float] stands for [float(s)],
    [None] for its [ValueError]. *)
Variable F : Type.
Variable float : string -> option F.

Definition py_float (s : string) : result F :=
  match float s with
  | Some v => Ok v
  | None => Err ValueError
  end.

(** The loop over the lines of [lrs.txt]; [init_learning_rate] is the
    binding of that variable so far, [None] while it is unbound. *)
Fixpoint restore_learning_rate (lines : list string) (init_epoch : Z)
    (init_learning_rate : option F) : result (option F) :=
  match lines with
  | [] => Ok init_learning_rate
  | line :: lines' =>
      let epoch_lr := Py.split ": " (Py.strip line) in
      let* e0 := Py.index epoch_lr 0 in
      let* k := Py.int e0 in
      if k =? init_epoch then
        let* e1 := Py.index epoch_lr 1 in
        let* v := py_float e1 in
        restore_learning_rate lines' init_epoch (Some v)
      else restore_learning_rate lines' init_epoch init_learning_rate
  end.

(** What the resolution hands to the construction of the model and to the
    trainer: the tuple of [resume_or_start] and the learning rate read back. *)
Record plan : Type :=
  { run_path : Path;
    checkpoint_to_load : option Path;
    start_epoch : Z;
    end_epoch : Z;
    restored_learning_rate : option F }.

(** The branch [if args.resume is not None: ... else: ...] of the models
    that restore the learning rate; reading the unbound variable raises. *)
Definition with_ledger (resume : option string) (l : list (Path * node))
    (t : Path * option Path * Z * Z) : result plan :=
  let '(run_path, resume_from_checkpoint, max_epoch, init_epoch) := t in
  match resume with
  | Some _ =>
      let* lines := FS.read_lines l (run_path // "lrs.txt") in
      let* lr := restore_learning_rate lines init_epoch None in
      match lr with
      | Some v =>
          Ok {| run_path := run_path; checkpoint_to_load := resume_from_checkpoint;
                start_epoch := init_epoch; end_epoch := max_epoch;
                restored_learning_rate := Some v |}
      | None => Err (UnboundLocalError "init_learning_rate")
      end
  | None =>
      Ok {| run_path := run_path; checkpoint_to_load := resume_from_checkpoint;
            start_epoch := init_epoch; end_epoch := max_epoch;
            restored_learning_rate := None |}
  end.

(** The branches of the models that never read the ledger. *)
Definition without_ledger (t : Path * option Path * Z * Z) : result plan :=
  let '(run_path, resume_from_checkpoint, max_epoch, init_epoch) := t in
  Ok {| run_path := run_path; checkpoint_to_load := resume_from_checkpoint;
        start_epoch := init_epoch; end_epoch := max_epoch;
        restored_learning_rate := None |}.

(** The branches of [main] on the model, once [resume_or_start] has
    returned [t].  The branch of [tempcnn] reads [args.window_len], which the
    parser never defines. *)
Definition dispatch (a : args) (l : list (Path * node))
    (t : Path * option Path * Z * Z) : result plan :=
  match model_name a with
  | convlstm | convstar | unet | utae => with_ledger (resume a) l t
  | tempcnn => Err AttributeError
  | simvp => without_ledger t
  end.

(** [main] from the check of the arguments to the arguments of the model's
    constructor, for the results directory [results_path] of the model. *)
Definition main_resolve (results_path : Path) (a : args) (w : world)
  : result plan * world :=
  if negb (train a) && is_none (load_checkpoint a)
  then (Err (SystemExit 1), w)
  else
    let '(r, w') :=
      resume_or_start results_path (resume a) (train a) (num_epochs a)
        (load_checkpoint a) w in
    (let* t := r in dispatch a (fs w') t, w').

End Ledger.

Arguments restore_learning_rate {F} float lines init_epoch init_learning_rate.
Arguments py_float {F} float s.
Arguments with_ledger {F} float resume l t.
Arguments without_ledger {F} t.
Arguments dispatch {F} float a l t.
Arguments main_resolve {F} float results_path a w.
Arguments run_path {F} p.
Arguments checkpoint_to_load {F} p.
Arguments start_epoch {F} p.
Arguments end_epoch {F} p.
Arguments restored_learning_rate {F} p.

(** ** Vocabulary of the statements *)

(** The epoch field of a ledger line, as the loop of [main] reads it. *)
Definition ledger_epoch (line : string) : result Z :=
  let* e0 := Py.index (Py.split ": " (Py.strip line)) 0 in
  Py.int e0.

(** A ledger line read in full: its epoch and its learning rate. *)
Definition ledger_entry {F : Type} (float : string -> option F) (line : string)
  : result (Z * F) :=
  let epoch_lr := Py.split ": " (Py.strip line) in
  let* e0 := Py.index epoch_lr 0 in
  let* k := Py.int e0 in
  let* e1 := Py.index epoch_lr 1 in
  let* v := py_float float e1 in
  Ok (k, v).

(** [x] is the last element of [l] that [f] sends to [k]. *)
Definition last_at {A : Type} (f : A -> result Z) (k : Z) (l : list A) (x : A) : Prop :=
  exists pre post,
    l = (pre ++ x :: post)%list /\ f x = Ok k /\ Forall (fun y => f y <> Ok k) post.

(** The lines of a ledger are entries for the epochs [0..N]. *)
Definition ledger_upto {F : Type} (float : string -> option F)
    (lines : list string) (N : Z) : Prop :=
  Forall (fun l => exists k v, ledger_entry float l = Ok (k, v) /\ 0 <= k <= N) lines
  /\ forall k, 0 <= k <= N -> exists l, l ∈ lines /\ ledger_epoch l = Ok k.

(** The models whose branch of [main] restores the learning rate. *)
Definition restores_lr (m : model) : bool :=
  match m with
  | convlstm | convstar | unet | utae => true
  | tempcnn | simvp => false
  end.

(** The run that the resume-last branch picks under [results_path]. *)
Definition latest_run (l : list (Path * node)) (results_path : Path) : result Path :=
  Py.index (Py.sorted PathLib.ltb (FS.glob l results_path "run_*")) (-1).

(** A float kept as the text it was read from, the empty text not being
    one; it instantiates [float] in the examples. *)
Definition float_text (s : string) : option string :=
  if Py.is_empty s then None else Some s.

Definition nl : string := String (ascii_of_nat 10) EmptyString.

(** Lines that the loop gets past: the epoch is read, and so is the
    learning rate when the epoch is the one looked for. *)
Definition readable {F : Type} (float : string -> option F) (e0 : Z)
    (line : string) : Prop :=
  exists k, ledger_epoch line = Ok k
            /\ (k = e0 -> exists v, ledger_entry float line = Ok (k, v)).

(** No character of [s] is [c]. *)
Fixpoint lacks (c : ascii) (s : string) : bool :=
  match s with
  | EmptyString => true
  | String a s' => negb (Ascii.eqb a c) && lacks c s'
  end.

(** Strings of decimal digits and their value. *)
Fixpoint all_digits (s : string) : bool :=
  match s with
  | EmptyString => true
  | String c s' => Py.is_digit c && all_digits s'
  end.

Fixpoint digits_value (acc : Z) (s : string) : Z :=
  match s with
  | EmptyString => acc
  | String c s' => digits_value (10 * acc + Py.digit_val c) s'
  end.

(** No character of [s] is a decimal digit. *)
Fixpoint no_digit (s : string) : bool :=
  match s with
  | EmptyString => true
  | String c s' => negb (Py.is_digit c) && no_digit s'
  end.

(** The name of [x] embeds the epoch [k] and nothing after it: its stem is
    [epoch=<digits>], the digits writing [k]. *)
Definition named_epoch (x : Path) (k : Z) : Prop :=
  exists ds,
    PathLib.stem x = "epoch=" +:+ ds
    /\ all_digits ds = true /\ ds <> EmptyString /\ digits_value 0 ds = k.

(** The name of [x] starts with the epoch [k]: its stem is [epoch=<digits>],
    alone or followed by a dash and anything else, as in
    [epoch=<digits>-step=<digits>]. *)
Definition starts_with_epoch (x : Path) (k : Z) : Prop :=
  exists ds rest,
    PathLib.stem x = "epoch=" +:+ ds +:+ rest
    /\ all_digits ds = true /\ ds <> EmptyString
    /\ (rest = EmptyString \/ exists r, rest = String "-" r)
    /\ digits_value 0 ds = k.

(** [x] is the last element of [l] that satisfies [P]. *)
Definition last_with {A : Type} (P : A -> Prop) (l : list A) (x : A) : Prop :=
  exists pre post, l = (pre ++ x :: post)%list /\ P x /\ Forall (fun y => ~ P y) post.

(** The entries [xs] of a checkpoint directory are checkpoints for the
    epochs [0..N], each named [epoch=<k>] after its epoch. *)
Definition checkpoints_upto (xs : list Path) (N : Z) : Prop :=
  Forall (fun x => exists k, named_epoch x k /\ 0 <= k <= N) xs
  /\ forall k, 0 <= k <= N -> exists x, x ∈ xs /\ named_epoch x k.

(** Every directory lies in a directory. *)
Definition fs_closed (l : list (Path * node)) : Prop :=
  forall p, FS.is_dir l p = true -> FS.is_dir l (PathLib.parent p) = true.

(** ** Example worlds *)

Definition clock0 : datetime :=
  {| year := 2024; month := 5; day := 17; hour := 9; minute := 30; second := 7 |}.

Definition results0 : Path := PathLib.of_string "logs/unet/exp".

(** A results directory without any run. *)
Definition world_empty : world :=
  {| fs := [(PathLib.of_string "logs", Dir);
            (PathLib.of_string "logs/unet", Dir);
            (results0, Dir)];
     now := clock0 |}.

Definition run_a : string := "logs/unet/exp/run_20240101000000".
Definition run_b : string := "logs/unet/exp/run_20240102120000".

(** Two runs; the later one holds the checkpoints of the epochs 0 and 1 and
    the ledger given as [ledger]. *)
Definition world_runs (ledger : list string) : world :=
  {| fs := [(PathLib.of_string "logs", Dir);
            (PathLib.of_string "logs/unet", Dir);
            (results0, Dir);
            (PathLib.of_string run_b, Dir);
            (PathLib.of_string run_a, Dir);
            (PathLib.of_string (run_b +:+ "/checkpoints"), Dir);
            (PathLib.of_string (run_b +:+ "/checkpoints/epoch=1.ckpt"), File []);
            (PathLib.of_string (run_b +:+ "/checkpoints/epoch=0.ckpt"), File []);
            (PathLib.of_string (run_b +:+ "/lrs.txt"), File ledger)];
     now := clock0 |}.

Definition ledger_full : list string :=
  ["0: 0.1" +:+ nl; "1: 0.05" +:+ nl].

Definition ledger_short : list string :=
  ["0: 0.1" +:+ nl].

Definition ledger_twice : list string :=
  ["0: 0.1" +:+ nl; "1: 0.05" +:+ nl; "1: 0.025" +:+ nl].

(** The later run also holds a checkpoint that carries no number. *)
Definition world_last_ckpt : world :=
  {| fs := (fs (world_runs ledger_full)
            ++ [(PathLib.of_string (run_b +:+ "/checkpoints/last.ckpt"), File [])])%list;
     now := clock0 |}.

(** The entries of the checkpoint directory of the later run, as they are
    enumerated. *)
Definition ckpts_b : list Path :=
  [PathLib.of_string (run_b +:+ "/checkpoints/epoch=1.ckpt");
   PathLib.of_string (run_b +:+ "/checkpoints/epoch=0.ckpt")].

(** The same with a checkpoint that carries no number. *)
Definition ckpts_b_last : list Path :=
  (ckpts_b ++ [PathLib.of_string (run_b +:+ "/checkpoints/last.ckpt")])%list.

(** A run whose checkpoints carry the epoch and the step in their names. *)
Definition world_steps : world :=
  {| fs := [(PathLib.of_string "logs", Dir);
            (PathLib.of_string "logs/unet", Dir);
            (results0, Dir);
            (PathLib.of_string run_b, Dir);
            (PathLib.of_string (run_b +:+ "/checkpoints"), Dir);
            (PathLib.of_string (run_b +:+ "/checkpoints/epoch=0-step=49.ckpt"), File []);
            (PathLib.of_string (run_b +:+ "/checkpoints/epoch=1-step=99.ckpt"), File []);
            (PathLib.of_string (run_b +:+ "/lrs.txt"), File ledger_full)];
     now := clock0 |}.

Definition args0 (m : model) (t : bool) (r c : option string) : args :=
  {| train := t; resume := r; model_name := m; load_checkpoint := c; num_epochs := 10 |}.

(** A results directory that holds a regular file named like a run and no
    run directory. *)
Definition run_notes : string := "logs/unet/exp/run_notes.txt".

Definition world_notes : world :=
  {| fs := (fs world_empty ++ [(PathLib.of_string run_notes, File [])])%list;
     now := clock0 |}.

(** ** [create_model_log_path] *)

(** The result is the path of the directory, together with the world the
    call leaves behind. *)
Definition create_model_log_path (log_path : Path) (prefix model : string)
    (w : world) : result Path * world :=
  let results_path := log_path // model // prefix in
  match FS.mkdir (fs w) results_path with
  | Err e => (Err e, w)
  | Ok fs' => (Ok results_path, {| fs := fs'; now := now w |})
  end.

(** ** [main] from the arguments to the resolved plan *)

(** [f'{args.model}'] *)
Definition model_str (m : model) : string :=
  match m with
  | convlstm => "convlstm"
  | tempcnn => "tempcnn"
  | convstar => "convstar"
  | unet => "unet"
  | utae => "utae"
  | simvp => "simvp"
  end.

(** [map(int, l)], consumed to the end. *)
Fixpoint map_int (l : list string) : result (list Z) :=
  match l with
  | [] => Ok []
  | x :: l' =>
      let* k := Py.int x in
      let* r := map_int l' in
      Ok (k :: r)
  end.

(** [args.img_size = tuple(map(int, args.img_size))] under the bare
    [except] that prints and exits; [None] is the default [(64, 64)]. *)
Definition check_img_size (img_size : option (list string)) : result (list Z) :=
  match img_size with
  | None => Ok [64; 64]
  | Some l =>
      match map_int l with
      | Ok r => Ok r
      | Err _ => Err (SystemExit 1)
      end
  end.

(** The prefix of the results directory: the time stamp unless a work
    directory is given. *)
Definition main_prefix (work_dir : option string) (w : world) : string :=
  match work_dir with
  | None => strftime (now w)
  | Some s => if Py.is_empty s then strftime (now w) else s
  end.

Section Main.

Variable F : Type.
Variable float : string -> option F.

(** The class tables that [main] builds from the configuration module
    stand between the prefix and the branch on the model; the module is not
    among the sources, and [tables] is what building them ends in. *)
Variable tables : result unit.

(** [main] up to the arguments of the model's constructor.  The clock is
    read once for the prefix and once more in [resume_or_start]; [later] is
    the time of the second reading. *)
Definition main (work_dir : option string) (img_size : option (list string))
    (a : args) (later : datetime) (w : world) : result (plan F) * world :=
  if negb (train a) && is_none (load_checkpoint a)
  then (Err (SystemExit 1), w)
  else
    match check_img_size img_size with
    | Err e => (Err e, w)
    | Ok _ =>
        let log_path := PathLib.of_string "logs" in
        match FS.mkdir (fs w) log_path with
        | Err e => (Err e, w)
        | Ok l1 =>
            let loaders_path := log_path // "loaders" in
            match FS.mkdir l1 loaders_path with
            | Err e => (Err e, {| fs := l1; now := now w |})
            | Ok l2 =>
                let w2 := {| fs := l2; now := now w |} in
                let prefix := main_prefix work_dir w2 in
                match tables with
                | Err e => (Err e, w2)
                | Ok _ =>
                    match create_model_log_path log_path prefix
                            (model_str (model_name a)) w2 with
                    | (Err e, w3) => (Err e, w3)
                    | (Ok results_path, w3) =>
                        let '(r, w4) :=
                          resume_or_start results_path (resume a) (train a)
                            (num_epochs a) (load_checkpoint a)
                            {| fs := fs w3; now := later |} in
                        (let* t := r in dispatch float a (fs w4) t, w4)
                    end
                end
            end
        end
    end.

End Main.

Arguments main {F} float tables work_dir img_size a later w.


(** ** [PADDataModule] *)

Module DataModule.

(** What a method of the module ends in: a value, or an exception; [X] is
    the type of the exceptions that the dataset and the loader raise. *)
Inductive error (X : Type) : Type :=
  | AssertionError
  | AttributeError (name : string)
  | Raised (x : X).
Arguments AssertionError {X}.
Arguments AttributeError {X} name.
Arguments Raised {X} x.

Inductive outcome (X A : Type) : Type :=
  | Done (a : A)
  | Raise (e : error X).
Arguments Done {X A} a.
Arguments Raise {X A} e.

(** The keyword arguments of a call of [NpyPADDataset]; [a_output_size_none]
    tells whether [output_size=None] is passed. *)
Record dataset_args : Type :=
  { a_root_dir : string;
    a_band_mode : string;
    a_start_month : Z;
    a_end_month : Z;
    a_output_size_none : bool;
    a_mode : string;
    a_return_parcels : bool;
    a_scenario : Z }.

(** The arguments of a call of [DataLoader]. *)
Record loader_args (D : Type) : Type :=
  { l_dataset : D;
    l_batch_size : Z;
    l_shuffle : bool;
    l_num_workers : Z;
    l_pin_memory : bool }.
Arguments l_dataset {D} l.
Arguments l_batch_size {D} l.
Arguments l_shuffle {D} l.
Arguments l_num_workers {D} l.
Arguments l_pin_memory {D} l.

(** The attributes of the module; a dataset attribute is [None] until
    [setup] has assigned it. *)
Record state (E I D : Type) : Type :=
  { root_dir : string;
    batch_size : Z;
    num_workers : Z;
    binary_labels : bool;
    band_mode : string;
    linear_encoder : option E;
    return_parcels : bool;
    start_month : Z;
    end_month : Z;
    scenario : Z;
    img_size : I;
    dataset_train : option D;
    dataset_eval : option D;
    dataset_test : option D }.
Arguments root_dir {E I D} s.
Arguments batch_size {E I D} s.
Arguments num_workers {E I D} s.
Arguments binary_labels {E I D} s.
Arguments band_mode {E I D} s.
Arguments linear_encoder {E I D} s.
Arguments return_parcels {E I D} s.
Arguments start_month {E I D} s.
Arguments end_month {E I D} s.
Arguments scenario {E I D} s.
Arguments img_size {E I D} s.
Arguments dataset_train {E I D} s.
Arguments dataset_eval {E I D} s.
Arguments dataset_test {E I D} s.

Section Methods.

(** [E] is the type of the label encoder and [I] that of the constant
    [IMG_SIZE] of the settings; [NpyPADDataset] and [DataLoader] are the
    constructors of the dataset and of the loader, which build a value or
    raise; the data on disk being what it is, what a constructor does is a
    function of its arguments. *)
Variables E I D L X : Type.
Variable IMG_SIZE : I.
Variable NpyPADDataset : dataset_args -> X + D.
Variable DataLoader : loader_args D -> X + L.

(** [__init__] *)
Definition init (root_dir : string) (scenario : Z) (band_mode : string)
    (linear_encoder : option E) (start_month end_month batch_size num_workers : Z)
    (binary_labels return_parcels : bool) : state E I D :=
  {| root_dir := root_dir;
     batch_size := batch_size;
     num_workers := num_workers;
     binary_labels := binary_labels;
     band_mode := band_mode;
     linear_encoder := linear_encoder;
     return_parcels := return_parcels;
     start_month := start_month;
     end_month := end_month;
     scenario := scenario;
     img_size := IMG_SIZE;
     dataset_train := None;
     dataset_eval := None;
     dataset_test := None |}.

Definition args_for (s : state E I D) (mode : string) (output_size_none : bool)
  : dataset_args :=
  {| a_root_dir := root_dir s;
     a_band_mode := band_mode s;
     a_start_month := start_month s;
     a_end_month := end_month s;
     a_output_size_none := output_size_none;
     a_mode := mode;
     a_return_parcels := return_parcels s;
     a_scenario := scenario s |}.

Definition set_train (s : state E I D) (d : D) : state E I D :=
  {| root_dir := root_dir s; batch_size := batch_size s;
     num_workers := num_workers s; binary_labels := binary_labels s;
     band_mode := band_mode s; linear_encoder := linear_encoder s;
     return_parcels := return_parcels s; start_month := start_month s;
     end_month := end_month s; scenario := scenario s; img_size := img_size s;
     dataset_train := Some d;
     dataset_eval := dataset_eval s;
     dataset_test := dataset_test s |}.

Definition set_eval (s : state E I D) (d : D) : state E I D :=
  {| root_dir := root_dir s; batch_size := batch_size s;
     num_workers := num_workers s; binary_labels := binary_labels s;
     band_mode := band_mode s; linear_encoder := linear_encoder s;
     return_parcels := return_parcels s; start_month := start_month s;
     end_month := end_month s; scenario := scenario s; img_size := img_size s;
     dataset_train := dataset_train s;
     dataset_eval := Some d;
     dataset_test := dataset_test s |}.

Definition set_test (s : state E I D) (d : D) : state E I D :=
  {| root_dir := root_dir s; batch_size := batch_size s;
     num_workers := num_workers s; binary_labels := binary_labels s;
     band_mode := band_mode s; linear_encoder := linear_encoder s;
     return_parcels := return_parcels s; start_month := start_month s;
     end_month := end_month s; scenario := scenario s; img_size := img_size s;
     dataset_train := dataset_train s;
     dataset_eval := dataset_eval s;
     dataset_test := Some d |}.

(** [setup(stage)]; [None] is the default [stage=None].  The result is
    the outcome together with the module as the call leaves it. *)
Definition setup (stage : option string) (s : state E I D)
  : outcome X unit * state E I D :=
  if bool_decide (stage = Some "fit") then
    match NpyPADDataset (args_for s "train" false) with
    | inl x => (Raise (Raised x), s)
    | inr d1 =>
        let s1 := set_train s d1 in
        match NpyPADDataset (args_for s1 "val" false) with
        | inl x => (Raise (Raised x), s1)
        | inr d2 => (Done tt, set_eval s1 d2)
        end
    end
  else if bool_decide (stage = Some "test") then
    match NpyPADDataset (args_for s "test" true) with
    | inl x => (Raise (Raised x), s)
    | inr d => (Done tt, set_test s d)
    end
  else (Raise AssertionError, s).

Definition load (d : D) (batch_size : Z) (shuffle : bool) (num_workers : Z)
  : outcome X L :=
  match DataLoader {| l_dataset := d; l_batch_size := batch_size;
                      l_shuffle := shuffle; l_num_workers := num_workers;
                      l_pin_memory := true |} with
  | inl x => Raise (Raised x)
  | inr l => Done l
  end.

(** [train_dataloader()] *)
Definition train_dataloader (s : state E I D) : outcome X L :=
  match dataset_train s with
  | None => Raise (AttributeError "dataset_train")
  | Some d => load d (batch_size s) true (num_workers s)
  end.

(** [val_dataloader()] *)
Definition val_dataloader (s : state E I D) : outcome X L :=
  match dataset_eval s with
  | None => Raise (AttributeError "dataset_eval")
  | Some d => load d (batch_size s) false (num_workers s)
  end.

(** [test_dataloader()] *)
Definition test_dataloader (s : state E I D) : outcome X L :=
  match dataset_test s with
  | None => Raise (AttributeError "dataset_test")
  | Some d => load d (batch_size s) false (num_workers s)
  end.

End Methods.

Arguments init {E I D} IMG_SIZE root_dir scenario band_mode linear_encoder
  start_month end_month batch_size num_workers binary_labels return_parcels.
Arguments args_for {E I D} s mode output_size_none.
Arguments set_train {E I D} s d.
Arguments set_eval {E I D} s d.
Arguments set_test {E I D} s d.
Arguments setup {E I D X} NpyPADDataset stage s.
Arguments load {D L X} DataLoader d batch_size shuffle num_workers.
Arguments train_dataloader {E I D L X} DataLoader s.
Arguments val_dataloader {E I D L X} DataLoader s.
Arguments test_dataloader {E I D L X} DataLoader s.

End DataModule.

(** An instance of the data module for the examples: a dataset is the
    arguments it was built from, a loader likewise, and the dataset of the
    mode [broken] cannot be built. *)
Definition dataset_or_fail (broken : string) (a : DataModule.dataset_args)
  : unit + DataModule.dataset_args :=
  if String.eqb (DataModule.a_mode a) broken then inl tt else inr a.

Definition loader_of (l : DataModule.loader_args DataModule.dataset_args)
  : unit + DataModule.loader_args DataModule.dataset_args := inr l.

Definition module0 (binary : bool)
  : DataModule.state unit unit DataModule.dataset_args :=
  DataModule.init (E := unit) (D := DataModule.dataset_args) tt
    "dataset" 1 "nrgb" None 4 10 4 6 binary false.

(** ** Time stamps in order *)

(** The fields of a [datetime] are in their ranges; the year has four
    digits. *)
Definition datetime_valid (d : datetime) : Prop :=
  1000 <= Z.of_nat (year d) <= 9999
  /\ (1 <= month d <= 12 /\ 1 <= day d <= 31
      /\ hour d <= 23 /\ minute d <= 59 /\ second d <= 59)%nat.

(** The fields of a [datetime], from the year to the second. *)
Definition datetime_fields (d : datetime) : list nat :=
  [year d; month d; day d; hour d; minute d; second d].

(** [d1 < d2] on lists of fields, the first difference deciding. *)
Fixpoint fields_ltb (l1 l2 : list nat) : bool :=
  match l1, l2 with
  | a :: l1', b :: l2' =>
      if (a <? b)%nat then true
      else if (a =? b)%nat then fields_ltb l1' l2'
      else false
  | _, _ => false
  end.

(** [d1 < d2] *)
Definition datetime_ltb (d1 d2 : datetime) : bool :=
  fields_ltb (datetime_fields d1) (datetime_fields d2).

(** A working directory that holds nothing yet. *)
Definition world_bare : world := {| fs := []; now := clock0 |}.

(** A regular file has the name of the results directory. *)
Definition world_blocked : world :=
  {| fs := [(PathLib.of_string "logs", Dir);
            (PathLib.of_string "logs/unet", Dir);
            (results0, File [])];
     now := clock0 |}.

(** The run of a fresh start at [clock0], before any checkpoint is written. *)
Definition run_0 : string := "logs/unet/exp/run_20240517093007".

Definition world_started : world :=
  {| fs := (fs world_empty ++ [(PathLib.of_string run_0, Dir)])%list;
     now := clock0 |}.

(** ** Facts about the Python primitives *)

Lemma index_last_app {A : Type} (l : list A) (x : A) :
  Py.index (l ++ [x])%list (-1) = Ok x.
Proof.
  unfold Py.index. rewrite length_app. simpl List.length.
  replace (Z.of_nat (List.length l + 1) + -1) with (Z.of_nat (List.length l)) by lia.
  replace (-1 <? 0) with true by reflexivity.
  destruct (Z.ltb_spec (Z.of_nat (List.length l)) 0); [lia|].
  destruct (Z.leb_spec (Z.of_nat (List.length l + 1)) (Z.of_nat (List.length l))); [lia|].
  simpl. rewrite Nat2Z.id.
  rewrite nth_error_app2 by lia. rewrite Nat.sub_diag. reflexivity.
Qed.

Lemma index_nil {A : Type} (i : Z) : Py.index (@nil A) i = Err IndexError.
Proof.
  unfold Py.index.
  destruct (_ || _); [reflexivity|].
  destruct (Z.to_nat _); reflexivity.
Qed.

Lemma index_cons_0 {A : Type} (x : A) (l : list A) : Py.index (x :: l) 0 = Ok x.
Proof.
  unfold Py.index. simpl List.length.
  replace (0 <? 0) with false by reflexivity.
  destruct (Z.leb_spec (Z.of_nat (S (List.length l))) 0); [lia|].
  reflexivity.
Qed.

Lemma index_last_ok {A : Type} (l : list A) :
  l <> [] -> exists l' x, l = (l' ++ [x])%list /\ Py.index l (-1) = Ok x.
Proof.
  intros H. destruct (exists_last H) as (l' & x & ->).
  exists l', x. split; [reflexivity | apply index_last_app].
Qed.

Lemma split_cons (sep s : string) :
  exists f r, Py.split sep s = f :: r.
Proof.
  unfold Py.split. destruct (Py.split_aux sep 0 s) as [f r]. eauto.
Qed.

Lemma index_split_0 (sep s : string) :
  exists f, Py.index (Py.split sep s) 0 = Ok f.
Proof.
  destruct (split_cons sep s) as (f & r & ->). exists f. apply index_cons_0.
Qed.

Lemma insert_sorted_perm {A : Type} (lt : A -> A -> bool) (x : A) (l : list A) :
  Py.insert_sorted lt x l ≡ₚ x :: l.
Proof.
  induction l as [|y l IH]; simpl; [reflexivity|].
  destruct (lt y x); [|reflexivity].
  rewrite IH. apply Permutation_swap.
Qed.

Lemma sorted_perm {A : Type} (lt : A -> A -> bool) (l : list A) :
  Py.sorted lt l ≡ₚ l.
Proof.
  induction l as [|x l IH]; simpl; [reflexivity|].
  rewrite insert_sorted_perm, IH. reflexivity.
Qed.

Lemma insert_sorted_Z (x : Z) (l : list Z) :
  StronglySorted Z.le l -> StronglySorted Z.le (Py.insert_sorted Z.ltb x l).
Proof.
  induction 1 as [|y l Hs IH Hall]; simpl.
  - repeat constructor.
  - destruct (Z.ltb_spec y x).
    + constructor; [exact IH|].
      rewrite insert_sorted_perm. constructor; [lia | exact Hall].
    + constructor; [constructor; assumption|].
      constructor; [assumption|].
      eapply Forall_impl; [exact Hall | intros; simpl in *; lia].
Qed.

Lemma sorted_Z (l : list Z) : StronglySorted Z.le (Py.sorted Z.ltb l).
Proof.
  induction l; simpl; [constructor | apply insert_sorted_Z; assumption].
Qed.

Lemma StronglySorted_last_max (l : list Z) (m : Z) :
  StronglySorted Z.le (l ++ [m]) -> Forall (fun x => x <= m) (l ++ [m]).
Proof.
  induction l as [|y l IH]; simpl; intros H.
  - repeat constructor. lia.
  - apply StronglySorted_inv in H as [Hs Hall].
    constructor; [| apply IH; exact Hs].
    rewrite Forall_app in Hall. destruct Hall as [_ Hm].
    inversion Hm; subst. assumption.
Qed.

(** [sorted(l)[-1]] is the greatest element of a non-empty list of integers. *)
Lemma sorted_last_max (l : list Z) :
  l <> [] ->
  exists m, Py.index (Py.sorted Z.ltb l) (-1) = Ok m
            /\ m ∈ l /\ Forall (fun x => x <= m) l.
Proof.
  intros Hne.
  assert (Hne' : Py.sorted Z.ltb l <> []).
  { intros E. apply Hne. apply Permutation_nil_r. rewrite <- E. symmetry. apply sorted_perm. }
  destruct (index_last_ok _ Hne') as (l' & m & El & Ei).
  exists m. split; [exact Ei|].
  pose proof (sorted_perm Z.ltb l) as Hp. rewrite El in Hp.
  split.
  - rewrite <- Hp. set_solver.
  - rewrite <- Hp. apply StronglySorted_last_max. rewrite <- El. apply sorted_Z.
Qed.

Lemma index_split_last (sep s : string) :
  exists f, Py.index (Py.split sep s) (-1) = Ok f.
Proof.
  destruct (split_cons sep s) as (f & r & E).
  destruct (index_last_ok (Py.split sep s)) as (l' & x & _ & Hi).
  - rewrite E. discriminate.
  - eauto.
Qed.

Lemma int_err (s : string) (e : exn) : Py.int s = Err e -> e = ValueError.
Proof. unfold Py.int. destruct (Py.parse_int s); congruence. Qed.

(** ** Facts about the names of checkpoints *)

Lemma digit_not_special (c : ascii) :
  Py.is_digit c = true ->
  Py.is_space c = false /\ Ascii.eqb c "=" = false /\ Ascii.eqb c "-" = false
  /\ Ascii.eqb c "+" = false.
Proof.
  destruct c as [[] [] [] [] [] [] [] []]; intros H; try discriminate H;
    repeat split; reflexivity.
Qed.

Lemma all_digits_lacks (c : ascii) (ds : string) :
  Py.is_digit c = false -> all_digits ds = true -> lacks c ds = true.
Proof.
  intros Hc. induction ds as [|a ds IH]; [reflexivity|].
  cbn [all_digits lacks]. intros H. apply andb_true_iff in H as [Ha Hds].
  rewrite (IH Hds), andb_true_r.
  destruct (Ascii.eqb_spec a c) as [->|]; [congruence | reflexivity].
Qed.

Lemma parse_digits_all (ds : string) (acc : Z) (b : bool) :
  all_digits ds = true -> (b = true \/ ds <> EmptyString) ->
  Py.parse_digits acc b ds = Some (digits_value acc ds).
Proof.
  revert acc b. induction ds as [|c ds IH]; intros acc b H Hb.
  - destruct Hb as [-> | Hne]; [reflexivity | contradiction].
  - cbn [all_digits] in H. apply andb_true_iff in H as [Hc Hds].
    cbn [Py.parse_digits digits_value]. rewrite Hc. apply IH; auto.
Qed.

Lemma rstrip_digits (ds : string) : all_digits ds = true -> Py.rstrip ds = ds.
Proof.
  induction ds as [|c ds IH]; [reflexivity|].
  cbn [all_digits Py.rstrip]. intros H. apply andb_true_iff in H as [Hc Hds].
  rewrite (IH Hds). destruct (digit_not_special c Hc) as (-> & _). reflexivity.
Qed.

Lemma strip_digits (ds : string) : all_digits ds = true -> Py.strip ds = ds.
Proof.
  intros H. unfold Py.strip.
  assert (E : Py.lstrip ds = ds).
  { destruct ds as [|c ds]; [reflexivity|].
    cbn [all_digits] in H. apply andb_true_iff in H as [Hc _].
    cbn [Py.lstrip]. destruct (digit_not_special c Hc) as (-> & _). reflexivity. }
  rewrite E. apply rstrip_digits, H.
Qed.

(** [int] of a non-empty string of digits is its decimal value. *)
Lemma int_digits (ds : string) :
  all_digits ds = true -> ds <> EmptyString ->
  Py.int ds = Ok (digits_value 0 ds).
Proof.
  intros H Hne. unfold Py.int, Py.parse_int. rewrite (strip_digits ds H).
  pose proof (parse_digits_all ds 0 false H (or_intror Hne)) as Hp.
  set (v := digits_value 0 ds) in *. clearbody v.
  destruct ds as [|c ds]; [contradiction|].
  cbn [all_digits] in H. apply andb_true_iff in H as [Hc _].
  destruct c as [[] [] [] [] [] [] [] []]; try discriminate Hc;
    cbn in Hp |- *; rewrite Hp; reflexivity.
Qed.

Lemma split_aux_lacks_app (c : ascii) (a b : string) :
  lacks c a = true ->
  Py.split_aux (String c EmptyString) 0 (a +:+ b)
  = (a +:+ fst (Py.split_aux (String c EmptyString) 0 b),
     snd (Py.split_aux (String c EmptyString) 0 b)).
Proof.
  induction a as [|x a IH]; intros H.
  - change (EmptyString +:+ b) with b.
    destruct (Py.split_aux _ 0 b); reflexivity.
  - cbn [lacks] in H. apply andb_true_iff in H as [Hx Ha].
    apply negb_true_iff in Hx. rewrite Ascii.eqb_sym in Hx.
    change (String x a +:+ b) with (String x (a +:+ b)).
    cbn [Py.split_aux Py.starts_with]. rewrite Hx, (IH Ha). reflexivity.
Qed.

Lemma append_empty_r (s : string) : s +:+ EmptyString = s.
Proof.
  induction s as [|c s IH]; [reflexivity|].
  change (String c s +:+ EmptyString) with (String c (s +:+ EmptyString)).
  rewrite IH. reflexivity.
Qed.

Lemma append_assoc (a b c : string) : (a +:+ b) +:+ c = a +:+ (b +:+ c).
Proof.
  induction a as [|x a IH]; [reflexivity|].
  change (String x a +:+ b) with (String x (a +:+ b)).
  change (String x (a +:+ b) +:+ c) with (String x ((a +:+ b) +:+ c)).
  rewrite IH. reflexivity.
Qed.

Lemma split_aux_sep (c : ascii) (b : string) :
  Py.split_aux (String c EmptyString) 0 (String c b)
  = (EmptyString, Py.split (String c EmptyString) b).
Proof.
  cbn [Py.split_aux Py.starts_with]. rewrite Ascii.eqb_refl.
  unfold Py.split. cbn [String.length Nat.pred].
  destruct (Py.split_aux _ 0 b). reflexivity.
Qed.

(** A field without the separator, followed by the separator, is the first
    field of the split. *)
Lemma split_field (c : ascii) (a b : string) :
  lacks c a = true ->
  Py.split (String c EmptyString) (a +:+ String c b)
  = a :: Py.split (String c EmptyString) b.
Proof.
  intros H. unfold Py.split at 1.
  rewrite (split_aux_lacks_app c a _ H), split_aux_sep. cbn [fst snd].
  rewrite append_empty_r. reflexivity.
Qed.

(** A string without the separator is its own and only field. *)
Lemma split_lacks (c : ascii) (a : string) :
  lacks c a = true -> Py.split (String c EmptyString) a = [a].
Proof.
  intros H. unfold Py.split.
  pose proof (split_aux_lacks_app c a EmptyString H) as E.
  rewrite append_empty_r in E. rewrite E. cbn. rewrite append_empty_r. reflexivity.
Qed.

(** The text after the last separator is the last field of the split. *)
Lemma split_last_field (c : ascii) (pre ds : string) :
  lacks c ds = true ->
  exists f l, Py.split (String c EmptyString) (pre +:+ String c ds)
              = (f :: l ++ [ds])%list.
Proof.
  intros H. induction pre as [|x pre (f & l & IH)].
  - change (EmptyString +:+ String c ds) with (String c ds).
    unfold Py.split. rewrite split_aux_sep, (split_lacks c ds H).
    exists EmptyString, []. reflexivity.
  - change (String x pre +:+ String c ds) with (String x (pre +:+ String c ds)).
    unfold Py.split in *. cbn [Py.split_aux Py.starts_with String.length Nat.pred].
    destruct (Py.split_aux (String c EmptyString) 0 (pre +:+ String c ds)) as [g r].
    inversion IH; subst.
    destruct (Ascii.eqb c x).
    + exists EmptyString, (f :: l). reflexivity.
    + exists (String x f), l. reflexivity.
Qed.

Lemma index_cons_1 {A : Type} (x y : A) (l : list A) : Py.index (x :: y :: l) 1 = Ok y.
Proof.
  unfold Py.index. cbn [List.length].
  replace (1 <? 0) with false by reflexivity.
  destruct (Z.leb_spec (Z.of_nat (S (S (List.length l)))) 1); [lia|]. reflexivity.
Qed.

(** The first field at a dash of [ds], or of [ds] followed by a dash and
    more, is [ds]. *)
Lemma split_dash_first (ds t : string) :
  lacks "-" ds = true ->
  (t = EmptyString \/ exists r, t = String "-" r) ->
  Py.index (Py.split "-" (ds +:+ t)) 0 = Ok ds.
Proof.
  intros H [-> | (r & ->)].
  - rewrite append_empty_r, (split_lacks "-" ds H). apply index_cons_0.
  - rewrite (split_field "-" ds r H). apply index_cons_0.
Qed.

(** A stem [epoch=<digits>], alone or followed by a dash and more, names
    the epoch [<digits>]. *)
Lemma epoch_of_name_token (p : Path) (ds rest : string) :
  PathLib.stem p = "epoch=" +:+ ds +:+ rest ->
  all_digits ds = true -> ds <> EmptyString ->
  (rest = EmptyString \/ exists r, rest = String "-" r) ->
  epoch_of_name p = Ok (digits_value 0 ds).
Proof.
  intros Hs Hd Hne Hrest. unfold epoch_of_name. rewrite Hs.
  change ("epoch=" +:+ ds +:+ rest) with ("epoch" +:+ String "=" (ds +:+ rest)).
  rewrite (split_field "=" "epoch" _ eq_refl).
  assert (Hf : exists t l, Py.split "=" (ds +:+ rest) = (ds +:+ t) :: l
                         /\ (t = EmptyString \/ exists r, t = String "-" r)).
  { assert (Heq : lacks "=" ds = true) by (apply all_digits_lacks; auto).
    unfold Py.split. rewrite (split_aux_lacks_app "=" ds rest Heq).
    destruct Hrest as [-> | (r & ->)].
    - exists EmptyString, []. split; [reflexivity | left; reflexivity].
    - cbn [Py.split_aux Py.starts_with]. 
      replace (Ascii.eqb "=" "-") with false by reflexivity.
      destruct (Py.split_aux "=" 0 r) as [g q]. cbn [fst snd].
      exists (String "-" g), q. split; [reflexivity | right; eauto]. }
  destruct Hf as (t & l & -> & Ht).
  rewrite index_cons_1. cbn [bind].
  rewrite (split_dash_first ds t); [| apply all_digits_lacks; auto | exact Ht].
  cbn [bind]. apply int_digits; assumption.
Qed.

(** The scan reads the digits after the last [=] of the stem. *)
Lemma epoch_of_scan_token (p : Path) (pre ds : string) :
  PathLib.stem p = pre +:+ String "=" ds ->
  all_digits ds = true -> ds <> EmptyString ->
  epoch_of_scan p = Ok (digits_value 0 ds).
Proof.
  intros Hs Hd Hne. unfold epoch_of_scan. rewrite Hs.
  destruct (split_last_field "=" pre ds) as (f & l & ->).
  { apply all_digits_lacks; auto. }
  change (f :: l ++ [ds])%list with ((f :: l) ++ [ds])%list.
  rewrite (index_last_app (f :: l) ds). cbn [bind]. apply int_digits; assumption.
Qed.

(** On a stem [epoch=<e>-step=<s>] the named branches read the epoch [<e>]
    and the scan reads the step [<s>]; on a stem [epoch=<e>] both read
    [<e>]. *)
Lemma epoch_rules_on_step_names (p : Path) (e s : string) :
  PathLib.stem p = "epoch=" +:+ e +:+ "-step=" +:+ s ->
  all_digits e = true -> e <> EmptyString ->
  all_digits s = true -> s <> EmptyString ->
  epoch_of_name p = Ok (digits_value 0 e)
  /\ epoch_of_scan p = Ok (digits_value 0 s).
Proof.
  intros Hs He Hne Hs' Hne'. split.
  - apply (epoch_of_name_token p e ("-step=" +:+ s)); auto.
    right. eexists. reflexivity.
  - apply (epoch_of_scan_token p ("epoch=" +:+ e +:+ "-step") s); auto.
    rewrite Hs.
    change ("epoch=" +:+ e +:+ "-step=" +:+ s)
      with ("epoch=" +:+ (e +:+ ("-step" +:+ String "=" s))).
    change (("epoch=" +:+ e +:+ "-step") +:+ String "=" s)
      with ("epoch=" +:+ ((e +:+ "-step") +:+ String "=" s)).
    rewrite append_assoc. reflexivity.
Qed.

Lemma epoch_rules_on_plain_names (p : Path) (e : string) :
  PathLib.stem p = "epoch=" +:+ e ->
  all_digits e = true -> e <> EmptyString ->
  epoch_of_name p = Ok (digits_value 0 e)
  /\ epoch_of_scan p = Ok (digits_value 0 e).
Proof.
  intros Hs He Hne. split.
  - apply (epoch_of_name_token p e EmptyString); auto.
    rewrite Hs, append_empty_r. reflexivity.
  - apply (epoch_of_scan_token p "epoch" e); auto.
Qed.

Lemma named_epoch_scan (x : Path) (k : Z) :
  named_epoch x k -> epoch_of_scan x = Ok k.
Proof.
  intros (ds & Hs & Hd & Hne & <-).
  apply (epoch_of_scan_token x "epoch" ds); assumption.
Qed.

Lemma starts_with_epoch_name (x : Path) (k : Z) :
  starts_with_epoch x k -> epoch_of_name x = Ok k.
Proof.
  intros (ds & rest & Hs & Hd & Hne & Hrest & <-).
  apply (epoch_of_name_token x ds rest); assumption.
Qed.

(** ** Facts about names without a number *)

Lemma index_In {A : Type} (l : list A) (i : Z) (a : A) :
  Py.index l i = Ok a -> In a l.
Proof.
  unfold Py.index. destruct (_ || _); [discriminate|].
  destruct (nth_error l _) as [b|] eqn:E; [|discriminate].
  intros H. inversion H; subst. eapply nth_error_In, E.
Qed.

Lemma index_err {A : Type} (l : list A) (i : Z) (e : exn) :
  Py.index l i = Err e -> e = IndexError.
Proof.
  unfold Py.index. destruct (_ || _); [congruence|].
  destruct (nth_error l _); congruence.
Qed.

Lemma split_aux_no_digit (sep : string) (s : string) (skip : nat) :
  no_digit s = true ->
  no_digit (fst (Py.split_aux sep skip s)) = true
  /\ Forall (fun f => no_digit f = true) (snd (Py.split_aux sep skip s)).
Proof.
  revert skip. induction s as [|c s IH]; intros skip H.
  - simpl. split; [reflexivity | constructor].
  - cbn [no_digit] in H. apply andb_true_iff in H as [Hc Hs].
    cbn [Py.split_aux]. destruct skip as [|k]; [|apply IH, Hs].
    destruct (Py.starts_with sep (String c s)).
    + destruct (IH (Nat.pred (String.length sep)) Hs) as [H1 H2].
      destruct (Py.split_aux sep (Nat.pred (String.length sep)) s) as [f r].
      cbn [fst snd] in *. split; [reflexivity | constructor; assumption].
    + destruct (IH O Hs) as [H1 H2].
      destruct (Py.split_aux sep 0 s) as [f r]. cbn [fst snd] in *.
      split; [|exact H2]. cbn [no_digit]. rewrite Hc, H1. reflexivity.
Qed.

Lemma split_no_digit (sep s : string) :
  no_digit s = true -> Forall (fun f => no_digit f = true) (Py.split sep s).
Proof.
  intros H. unfold Py.split.
  destruct (split_aux_no_digit sep s O H) as [H1 H2].
  destruct (Py.split_aux sep 0 s) as [f r]. constructor; assumption.
Qed.

Lemma lstrip_no_digit (s : string) :
  no_digit s = true -> no_digit (Py.lstrip s) = true.
Proof.
  induction s as [|c s IH]; intros H; [reflexivity|].
  cbn [Py.lstrip]. destruct (Py.is_space c); [|exact H].
  cbn [no_digit] in H. apply andb_true_iff in H as [_ Hs]. apply IH, Hs.
Qed.

Lemma rstrip_no_digit (s : string) :
  no_digit s = true -> no_digit (Py.rstrip s) = true.
Proof.
  induction s as [|c s IH]; intros H; [reflexivity|].
  cbn [no_digit] in H. apply andb_true_iff in H as [Hc Hs].
  cbn [Py.rstrip]. destruct (Py.is_space c && Py.is_empty (Py.rstrip s));
    [reflexivity|].
  cbn [no_digit]. rewrite Hc, (IH Hs). reflexivity.
Qed.

Lemma parse_digits_no_digit (s : string) (acc : Z) :
  no_digit s = true -> Py.parse_digits acc false s = None.
Proof.
  destruct s as [|c s]; intros H; [reflexivity|].
  cbn [no_digit] in H. apply andb_true_iff in H as [Hc _].
  apply negb_true_iff in Hc. cbn [Py.parse_digits]. rewrite Hc, andb_false_r.
  reflexivity.
Qed.

(** [int] needs a digit. *)
Lemma int_no_digit (s : string) : no_digit s = true -> Py.int s = Err ValueError.
Proof.
  intros H. unfold Py.int, Py.parse_int.
  assert (Ht : no_digit (Py.strip s) = true)
    by (apply rstrip_no_digit, lstrip_no_digit, H).
  assert (E : match Py.strip s with
              | String "+" r => Py.parse_digits 0 false r
              | String "-" r => option_map Z.opp (Py.parse_digits 0 false r)
              | t => Py.parse_digits 0 false t
              end = None).
  { destruct (Py.strip s) as [|c r]; [reflexivity|].
    pose proof (parse_digits_no_digit (String c r) 0 Ht) as Hall.
    cbn [no_digit] in Ht. apply andb_true_iff in Ht as [_ Hr].
    pose proof (parse_digits_no_digit r 0 Hr) as Hrest.
    destruct c as [[] [] [] [] [] [] [] []];
      first [exact Hall | rewrite Hrest; reflexivity]. }
  rewrite E. reflexivity.
Qed.

(** A stem without a digit yields no number. *)
Lemma epoch_of_scan_no_digit (x : Path) :
  no_digit (PathLib.stem x) = true -> epoch_of_scan x = Err ValueError.
Proof.
  intros H. unfold epoch_of_scan.
  destruct (Py.index (Py.split "=" (PathLib.stem x)) (-1)) as [f|e] eqn:E.
  - cbn [bind]. apply int_no_digit.
    apply index_In in E. pose proof (split_no_digit "=" _ H) as Hall.
    rewrite List.Forall_forall in Hall. apply Hall, E.
  - destruct (index_split_last "=" (PathLib.stem x)) as (f & Hf). congruence.
Qed.

(** ** Facts about the scan of a checkpoint directory *)

Lemma epoch_of_scan_err (x : Path) (e : exn) :
  epoch_of_scan x = Err e -> e = ValueError.
Proof.
  unfold epoch_of_scan.
  destruct (index_split_last "=" (PathLib.stem x)) as (f & ->). simpl.
  apply int_err.
Qed.

Lemma epoch_ckpt_from_ok (xs : list Path) (d : gmap Z Path) :
  Forall (fun x => is_ok (epoch_of_scan x) = true) xs ->
  exists d', epoch_ckpt_from xs d = Ok d'.
Proof.
  revert d. induction xs as [|x xs IH]; intros d H; simpl; [eauto|].
  inversion H as [|? ? Hx Hxs]; subst.
  destruct (epoch_of_scan x) as [k|e]; [|discriminate]. simpl. apply IH, Hxs.
Qed.

Lemma epoch_ckpt_from_err (xs : list Path) (d : gmap Z Path) :
  Exists (fun x => is_ok (epoch_of_scan x) = false) xs ->
  epoch_ckpt_from xs d = Err ValueError.
Proof.
  revert d. induction xs as [|x xs IH]; intros d H; simpl.
  - inversion H.
  - destruct (epoch_of_scan x) as [k|e] eqn:E; simpl.
    + apply IH. inversion H as [? ? Hx|? ? Hxs]; subst; [|exact Hxs].
      rewrite E in Hx. discriminate.
    + apply epoch_of_scan_err in E. congruence.
Qed.

(** Every key of the comprehension maps to the last entry filed under it. *)
Lemma epoch_ckpt_from_lookup (xs : list Path) (d d' : gmap Z Path) (k : Z) :
  epoch_ckpt_from xs d = Ok d' ->
  (exists x, last_at epoch_of_scan k xs x /\ d' !! k = Some x)
  \/ (Forall (fun y => epoch_of_scan y <> Ok k) xs /\ d' !! k = d !! k).
Proof.
  revert d. induction xs as [|x xs IH]; intros d H; simpl in H.
  - inversion H; subst. right. split; [constructor | reflexivity].
  - destruct (epoch_of_scan x) as [k0|e] eqn:E; simpl in H; [|discriminate].
    destruct (IH _ H) as [(y & (pre & post & -> & Hy & Hpost) & Hl) | [Hall Hl]].
    + left. exists y. split; [|exact Hl].
      exists (x :: pre), post. auto.
    + destruct (decide (k0 = k)) as [->|Hne].
      * left. exists x. rewrite lookup_insert_eq in Hl. split; [|exact Hl].
        exists [], xs. auto.
      * right. rewrite lookup_insert_ne in Hl by exact Hne.
        split; [|exact Hl]. constructor; [congruence | exact Hall].
Qed.

Lemma elem_of_keys (d : gmap Z Path) (k : Z) : k ∈ keys d <-> is_Some (d !! k).
Proof. unfold keys. rewrite elem_of_elements, elem_of_dom. reflexivity. Qed.

(** ** Facts about the ledger loop *)

Section LedgerFacts.

Context {F : Type} (float : string -> option F).

Lemma restore_learning_rate_cons (line : string) (lines : list string)
    (e0 : Z) (init : option F) :
  restore_learning_rate float (line :: lines) e0 init =
  match ledger_epoch line with
  | Err e => Err e
  | Ok k =>
      if k =? e0 then
        match ledger_entry float line with
        | Ok (_, v) => restore_learning_rate float lines e0 (Some v)
        | Err e => Err e
        end
      else restore_learning_rate float lines e0 init
  end.
Proof.
  simpl. unfold ledger_epoch, ledger_entry.
  destruct (Py.index (Py.split ": " (Py.strip line)) 0) as [f|e]; simpl; [|reflexivity].
  destruct (Py.int f) as [k|e]; simpl; [|reflexivity].
  destruct (k =? e0); [|reflexivity].
  destruct (Py.index (Py.split ": " (Py.strip line)) 1) as [g|e]; simpl; [|reflexivity].
  destruct (py_float float g); reflexivity.
Qed.

Lemma ledger_epoch_err (line : string) (e : exn) :
  ledger_epoch line = Err e -> e = ValueError.
Proof.
  unfold ledger_epoch.
  destruct (index_split_0 ": " (Py.strip line)) as (f & ->). simpl. apply int_err.
Qed.

Lemma ledger_entry_epoch (line : string) (k : Z) (v : F) :
  ledger_entry float line = Ok (k, v) -> ledger_epoch line = Ok k.
Proof.
  unfold ledger_entry, ledger_epoch.
  destruct (Py.index (Py.split ": " (Py.strip line)) 0) as [f|e]; simpl; [|discriminate].
  destruct (Py.int f) as [k'|e]; simpl; [|discriminate].
  destruct (Py.index (Py.split ": " (Py.strip line)) 1) as [g|e]; simpl; [|discriminate].
  destruct (py_float float g); simpl; congruence.
Qed.

(** Without a line for the epoch the binding is left as it was, unless a
    line cannot be read, which raises [ValueError]. *)
Lemma restore_no_match (lines : list string) (e0 : Z) (init : option F) :
  Forall (fun l => ledger_epoch l <> Ok e0) lines ->
  restore_learning_rate float lines e0 init = Ok init
  \/ restore_learning_rate float lines e0 init = Err ValueError.
Proof.
  induction 1 as [|line lines Hl Hall IH].
  - left. reflexivity.
  - rewrite restore_learning_rate_cons.
    destruct (ledger_epoch line) as [k|e] eqn:E.
    + destruct (Z.eqb_spec k e0) as [->|Hne]; [congruence | exact IH].
    + right. apply ledger_epoch_err in E. congruence.
Qed.

Lemma restore_no_match_ok (lines : list string) (e0 : Z) (init : option F) :
  Forall (fun l => ledger_epoch l <> Ok e0) lines ->
  Forall (fun l => is_ok (ledger_epoch l) = true) lines ->
  restore_learning_rate float lines e0 init = Ok init.
Proof.
  induction 1 as [|line lines Hl Hall IH]; intros Hok; [reflexivity|].
  inversion Hok as [|? ? H1 H2]; subst.
  rewrite restore_learning_rate_cons.
  destruct (ledger_epoch line) as [k|e] eqn:E; [|discriminate].
  destruct (Z.eqb_spec k e0) as [->|Hne]; [congruence | apply IH, H2].
Qed.

Lemma restore_last (pre post : list string) (line : string) (e0 : Z)
    (v : F) (init : option F) :
  Forall (readable float e0) pre ->
  ledger_entry float line = Ok (e0, v) ->
  Forall (fun l => exists k, ledger_epoch l = Ok k /\ k <> e0) post ->
  restore_learning_rate float (pre ++ line :: post) e0 init = Ok (Some v).
Proof.
  intros Hpre Hline Hpost. revert init.
  induction Hpre as [|l pre (k & Hk & Hv) _ IH]; intros init; simpl app.
  - rewrite restore_learning_rate_cons.
    rewrite (ledger_entry_epoch _ _ _ Hline), Z.eqb_refl, Hline.
    clear Hline. revert Hpost. generalize (Some v) as cur.
    induction post as [|l post IH]; intros cur Hpost; [reflexivity|].
    inversion Hpost as [|? ? (k & Hk & Hne) Hrest]; subst.
    rewrite restore_learning_rate_cons, Hk.
    destruct (Z.eqb_spec k e0); [contradiction | apply IH, Hrest].
  - rewrite restore_learning_rate_cons, Hk.
    destruct (Z.eqb_spec k e0) as [->|Hne]; [|apply IH].
    destruct (Hv eq_refl) as (v' & ->). apply IH.
Qed.

(** What the loop has bound at its end comes from the last line of the
    epoch, or is the binding it started with. *)
Lemma restore_sound (lines : list string) (e0 : Z) (init : option F) (v : F) :
  restore_learning_rate float lines e0 init = Ok (Some v) ->
  (exists line, last_at ledger_epoch e0 lines line
                /\ ledger_entry float line = Ok (e0, v))
  \/ (init = Some v /\ Forall (fun l => ledger_epoch l <> Ok e0) lines).
Proof.
  revert init. induction lines as [|line lines IH]; intros init H.
  - simpl in H. right. split; [congruence | constructor].
  - rewrite restore_learning_rate_cons in H.
    destruct (ledger_epoch line) as [k|e] eqn:E; [|discriminate].
    destruct (Z.eqb_spec k e0) as [->|Hne].
    + destruct (ledger_entry float line) as [[k' v']|e] eqn:E'; [|discriminate].
      pose proof (ledger_entry_epoch _ _ _ E') as E''.
      assert (k' = e0) by congruence. subst k'.
      destruct (IH _ H) as [(l & (pre & post & -> & Hl & Hpost) & Hv) | [Hi Hall]].
      * left. exists l. split; [|exact Hv]. exists (line :: pre), post. auto.
      * left. exists line. split; [|congruence]. exists [], lines. auto.
    + destruct (IH _ H) as [(l & (pre & post & -> & Hl & Hpost) & Hv) | [Hi Hall]].
      * left. exists l. split; [|exact Hv]. exists (line :: pre), post. auto.
      * right. split; [exact Hi|]. constructor; [congruence | exact Hall].
Qed.

End LedgerFacts.

(** ** Facts about paths and the file system *)

Lemma fnmatch_star (n : string) : Py.fnmatch "*" n = true.
Proof.
  simpl. induction n as [|c n IH]; [reflexivity|].
  simpl. exact IH.
Qed.

Lemma digit_char_not_sep (n : nat) : Ascii.eqb (digit_char n) "/" = false.
Proof.
  unfold digit_char.
  pose proof (Nat.mod_upper_bound n 10 ltac:(lia)) as H.
  destruct (n mod 10)%nat as [|k]; [reflexivity|].
  do 9 (destruct k as [|k]; [reflexivity|]). lia.
Qed.

Lemma lacks_app (c : ascii) (a b : string) :
  lacks c (a +:+ b) = lacks c a && lacks c b.
Proof.
  induction a as [|x a IH]; [reflexivity|].
  change (String x a +:+ b) with (String x (a +:+ b)).
  cbn [lacks]. rewrite IH. apply andb_assoc.
Qed.

Lemma strftime_lacks_sep (d : datetime) : lacks "/" (strftime d) = true.
Proof.
  unfold strftime, four_digits, two_digits.
  rewrite !lacks_app. cbn [lacks]. rewrite !digit_char_not_sep. reflexivity.
Qed.

(** [Path] of [run_] and a time stamp has the one component [run_<ts>]. *)
Lemma of_string_run (d : datetime) :
  PathLib.of_string ("run_" +:+ strftime d)
  = {| root := EmptyString; parts := ["run_" +:+ strftime d] |}.
Proof.
  unfold PathLib.of_string.
  change ("run_" +:+ strftime d) with
    (String "r" (String "u" (String "n" (String "_" (strftime d))))).
  cbn [PathLib.splitroot PathLib.lstrip_sep].
  rewrite split_lacks.
  - reflexivity.
  - cbn [lacks]. rewrite strftime_lacks_sep. reflexivity.
Qed.

Lemma joinpath_run (p : Path) (d : datetime) :
  p // ("run_" +:+ strftime d)
  = {| root := root p; parts := (parts p ++ ["run_" +:+ strftime d])%list |}.
Proof. unfold PathLib.joinpath. rewrite of_string_run. reflexivity. Qed.

Lemma parent_snoc (r : string) (l : list string) (x : string) :
  PathLib.parent {| root := r; parts := (l ++ [x])%list |} = {| root := r; parts := l |}.
Proof. unfold PathLib.parent. simpl. rewrite removelast_last. reflexivity. Qed.

Lemma name_snoc (r : string) (l : list string) (x : string) :
  PathLib.name {| root := r; parts := (l ++ [x])%list |} = x.
Proof. unfold PathLib.name. simpl. apply last_last. Qed.

(** In a directory without entries no path below it is present. *)
Lemma find_in_empty_dir (l : list (Path * node)) (dir p : Path) :
  List.filter (FS.is_child dir "*") l = [] ->
  parts p <> [] -> PathLib.parent p = dir ->
  FS.find l p = None.
Proof.
  intros Hf Hp Hd. induction l as [|[q n] l IH]; simpl; [reflexivity|].
  simpl in Hf.
  destruct (FS.is_child dir "*" (q, n)) eqn:E; [discriminate|].
  destruct (decide (q = p)) as [->|Hne]; [|apply IH, Hf].
  exfalso. unfold FS.is_child in E. simpl in E.
  rewrite fnmatch_star, andb_true_r in E.
  rewrite bool_decide_eq_true_2 in E by exact Hd. rewrite andb_true_r in E.
  apply negb_false_iff, Nat.eqb_eq in E.
  destruct (parts p); [congruence | discriminate].
Qed.

Lemma mkdir_parents_fresh (n : nat) (l : list (Path * node)) (p : Path) :
  FS.os_mkdir l p = Ok (l ++ [(p, Dir)])%list ->
  FS.mkdir_parents n l p = Ok (l ++ [(p, Dir)])%list.
Proof. intros H. destruct n; simpl; rewrite H; reflexivity. Qed.

(** ** The branches of [resume_or_start] *)

Lemma resume_or_start_evaluate (results_path : Path) (resume : option string)
    (n : Z) (s : string) (w : world) :
  resume_or_start results_path resume false n (Some s) w =
  (let* init_epoch := epoch_of_name (PathLib.of_string s) in
   Ok (PathLib.parent (PathLib.parent (PathLib.of_string s)),
       Some (PathLib.of_string s), init_epoch + 1, init_epoch), w).
Proof. reflexivity. Qed.

Lemma resume_or_start_last (results_path : Path) (n : Z) (c : option string)
    (w : world) :
  resume_or_start results_path (Some "last") true n c w =
  (let* run_path := latest_run (fs w) results_path in
   let* epoch_ckpt :=
     epoch_ckpt_from (FS.glob (fs w) (run_path // "checkpoints") "*") ∅ in
   let* init_epoch := Py.index (Py.sorted Z.ltb (keys epoch_ckpt)) (-1) in
   let* ckpt_path := getitem epoch_ckpt init_epoch in
   Ok (run_path, Some ckpt_path, init_epoch + n, init_epoch), w).
Proof. reflexivity. Qed.

Lemma resume_or_start_named (results_path : Path) (s : string) (n : Z)
    (c : option string) (w : world) :
  s <> "last" ->
  resume_or_start results_path (Some s) true n c w =
  (let* init_epoch := epoch_of_name (PathLib.of_string s) in
   Ok (PathLib.parent (PathLib.parent (PathLib.of_string s)),
       Some (PathLib.of_string s), init_epoch + n, init_epoch), w).
Proof.
  intros H. unfold resume_or_start. simpl negb. cbv iota.
  rewrite bool_decide_eq_false_2 by congruence. reflexivity.
Qed.

(** Only a fresh start touches the world. *)
Lemma resume_or_start_world (results_path : Path) (resume : option string)
    (train : bool) (n : Z) (c : option string) (w : world) :
  train = false \/ resume <> None ->
  snd (resume_or_start results_path resume train n c w) = w.
Proof.
  intros H. unfold resume_or_start.
  destruct train; simpl negb; cbv iota; [|reflexivity].
  destruct (bool_decide (resume = Some "last")); [reflexivity|].
  destruct resume; [reflexivity|]. destruct H; congruence.
Qed.

(** ** Facts about the resolution in [main] *)

Lemma exists_last_at {A : Type} (f : A -> result Z) (k : Z) (l : list A) :
  (exists x, x ∈ l /\ f x = Ok k) -> exists x, last_at f k l x.
Proof.
  induction l as [|y l IH]; intros (x & Hin & Hx).
  - inversion Hin.
  - assert (Hdec : (exists z, z ∈ l /\ f z = Ok k)
                   \/ Forall (fun z => f z <> Ok k) l).
    { clear. induction l as [|z l [(u & Hu & Hfu) | Hall]].
      - right. constructor.
      - left. exists u. split; [right; exact Hu | exact Hfu].
      - destruct (f z) as [k'|e] eqn:E.
        + destruct (decide (k' = k)) as [->|Hne].
          * left. exists z. split; [left | exact E].
          * right. constructor; [congruence | exact Hall].
        + right. constructor; [congruence | exact Hall]. }
    destruct Hdec as [Hex | Hall].
    + destruct (IH Hex) as (z & pre & post & -> & Hz & Hpost).
      exists z, (y :: pre), post. auto.
    + exists y, [], l. split; [reflexivity|]. split; [|exact Hall].
      inversion Hin; subst; [exact Hx|].
      exfalso. rewrite Forall_forall in Hall. eapply Hall; eauto.
Qed.

Section MainFacts.

Context {F : Type} (float : string -> option F).

Lemma with_ledger_inv (r : option string) (l : list (Path * node))
    (run : Path) (ck : option Path) (mx e0 : Z) (p : plan F) :
  with_ledger float r l (run, ck, mx, e0) = Ok p ->
  run_path p = run /\ checkpoint_to_load p = ck
  /\ start_epoch p = e0 /\ end_epoch p = mx
  /\ ((r = None /\ restored_learning_rate p = None)
      \/ exists s lines v,
           r = Some s
           /\ FS.read_lines l (run // "lrs.txt") = Ok lines
           /\ restore_learning_rate float lines e0 None = Ok (Some v)
           /\ restored_learning_rate p = Some v).
Proof.
  unfold with_ledger. destruct r as [s|].
  - destruct (FS.read_lines l (run // "lrs.txt")) as [lines|e] eqn:El; simpl; [|discriminate].
    destruct (restore_learning_rate float lines e0 None) as [[v|]|e] eqn:Er;
      simpl; try discriminate.
    intros H. inversion H; subst; simpl. repeat split.
    right. exists s, lines, v. auto.
  - intros H. inversion H; subst; simpl. repeat split. left. auto.
Qed.

Lemma without_ledger_inv (run : Path) (ck : option Path) (mx e0 : Z) (p : plan F) :
  without_ledger (run, ck, mx, e0) = Ok p ->
  run_path p = run /\ checkpoint_to_load p = ck
  /\ start_epoch p = e0 /\ end_epoch p = mx /\ restored_learning_rate p = None.
Proof. unfold without_ledger. intros H. inversion H; subst; simpl. auto. Qed.

Lemma main_resolve_step (results_path : Path) (a : args) (w w' : world)
    (r : result (Path * option Path * Z * Z)) :
  negb (train a) && is_none (load_checkpoint a) = false ->
  resume_or_start results_path (resume a) (train a) (num_epochs a)
    (load_checkpoint a) w = (r, w') ->
  main_resolve float results_path a w
  = ((let* t := r in dispatch float a (fs w') t), w').
Proof.
  intros Hc Hr. unfold main_resolve. rewrite Hc, Hr. reflexivity.
Qed.

Lemma main_resolve_inv (results_path : Path) (a : args) (w w' : world) (p : plan F) :
  main_resolve float results_path a w = (Ok p, w') ->
  exists t,
    resume_or_start results_path (resume a) (train a) (num_epochs a)
      (load_checkpoint a) w = (Ok t, w')
    /\ dispatch float a (fs w') t = Ok p.
Proof.
  unfold main_resolve.
  destruct (negb (train a) && is_none (load_checkpoint a)); [discriminate|].
  destruct (resume_or_start _ _ _ _ _ _) as [[t|e] w1]; simpl; intros H.
  - exists t. inversion H; subst. split; reflexivity.
  - discriminate.
Qed.

Lemma dispatch_restores (a : args) (l : list (Path * node))
    (t : Path * option Path * Z * Z) :
  restores_lr (model_name a) = true ->
  dispatch float a l t = with_ledger float (resume a) l t.
Proof. unfold dispatch. destruct (model_name a); simpl; congruence. Qed.

End MainFacts.

(** The checkpoint directory of the later run of [world_runs] lists [ckpts_b]. *)
Lemma glob_ckpts_b (ledger : list string) :
  FS.glob (fs (world_runs ledger)) (PathLib.of_string run_b // "checkpoints") "*"
  = ckpts_b.
Proof. vm_compute. reflexivity. Qed.

(** ** The claims *)

(** C1. The epoch-parsing rule is not one shared rule: on the name
    [epoch=1-step=99.ckpt] the scan of the resume-last branch reads 99, the
    number after the last [=], where the evaluate-only and explicit-resume
    branches read the epoch 1.  On a run that holds this checkpoint as its
    latest, resume-last starts at epoch 99 and an explicit resume from the
    same file starts at epoch 1. *)
Theorem scan_and_named_epoch_differ :
  epoch_of_scan (PathLib.of_string (run_b +:+ "/checkpoints/epoch=1-step=99.ckpt"))
  = Ok 99
  /\ epoch_of_name (PathLib.of_string (run_b +:+ "/checkpoints/epoch=1-step=99.ckpt"))
     = Ok 1
  /\ resume_or_start results0 (Some "last") true 10 None world_steps
     = (Ok (PathLib.of_string run_b,
            Some (PathLib.of_string (run_b +:+ "/checkpoints/epoch=1-step=99.ckpt")),
            109, 99), world_steps)
  /\ resume_or_start results0
       (Some (run_b +:+ "/checkpoints/epoch=1-step=99.ckpt")) true 10 None world_steps
     = (Ok (PathLib.of_string run_b,
            Some (PathLib.of_string (run_b +:+ "/checkpoints/epoch=1-step=99.ckpt")),
            11, 1), world_steps)
  /\ resume_or_start results0 (Some "last") false 10
       (Some (run_b +:+ "/checkpoints/epoch=1-step=99.ckpt")) world_steps
     = (Ok (PathLib.of_string run_b,
            Some (PathLib.of_string (run_b +:+ "/checkpoints/epoch=1-step=99.ckpt")),
            2, 1), world_steps).
Proof. repeat split; vm_compute; reflexivity. Qed.

(** C2 as stated fails: with the model simvp a resume-last whose start
    epoch 1 has no line in the ledger resolves all the same; the ledger is
    not read and the learning rate is the constant of that branch. *)
Lemma simvp_resumes_without_ledger_entry :
  main_resolve float_text results0 (args0 simvp true (Some "last") None)
    (world_runs ledger_short)
  = (Ok {| run_path := PathLib.of_string run_b;
           checkpoint_to_load :=
             Some (PathLib.of_string (run_b +:+ "/checkpoints/epoch=1.ckpt"));
           start_epoch := 1; end_epoch := 11;
           restored_learning_rate := None |},
     world_runs ledger_short)
  /\ Forall (fun l => ledger_epoch l <> Ok 1) ledger_short.
Proof.
  split; [vm_compute; reflexivity|].
  unfold ledger_short. constructor; [vm_compute; discriminate | constructor].
Qed.

(** C2, amended. For the models whose branch restores the learning rate
    (convlstm, convstar, unet, utae), a mid-training resume whose start
    epoch has no line in the ledger never yields a plan: the resolution
    raises, and when the ledger is there and every line of it starts with a
    number, what it raises is the [UnboundLocalError] of the variable
    [init_learning_rate], which stands for the error that the specification
    calls [LearningRateNotFoundError].  No default and no neighbouring entry
    is used. *)
Theorem missing_ledger_entry_is_fatal {F : Type} (float : string -> option F)
    (results_path : Path) (a : args)
    (w w' : world) (run : Path) (ck : option Path) (mx e0 : Z) :
  train a = true -> resume a <> None -> restores_lr (model_name a) = true ->
  resume_or_start results_path (resume a) (train a) (num_epochs a)
    (load_checkpoint a) w = (Ok (run, ck, mx, e0), w') ->
  (forall lines, FS.read_lines (fs w') (run // "lrs.txt") = Ok lines ->
                 Forall (fun l => ledger_epoch l <> Ok e0) lines) ->
  (exists e, main_resolve float results_path a w = (Err e, w'))
  /\ (forall lines,
        FS.read_lines (fs w') (run // "lrs.txt") = Ok lines ->
        Forall (fun l => is_ok (ledger_epoch l) = true) lines ->
        main_resolve float results_path a w
        = (Err (UnboundLocalError "init_learning_rate"), w')).
Proof.
  intros Ht Hr Hm Hres Hno.
  assert (Hc : negb (train a) && is_none (load_checkpoint a) = false)
    by (rewrite Ht; reflexivity).
  rewrite (main_resolve_step float _ _ _ _ _ Hc Hres). simpl bind.
  rewrite (dispatch_restores float _ _ _ Hm). unfold with_ledger.
  destruct (resume a) as [s|]; [|congruence].
  destruct (FS.read_lines (fs w') (run // "lrs.txt")) as [lines|e] eqn:El; simpl.
  - specialize (Hno lines eq_refl). split.
    + destruct (restore_no_match float lines e0 None Hno) as [-> | ->]; simpl; eauto.
    + intros lines' E Hok. inversion E; subst lines'.
      rewrite (restore_no_match_ok float lines e0 None Hno Hok). reflexivity.
  - split; [eauto | intros lines E; discriminate].
Qed.

Lemma missing_ledger_entry_is_fatal_witness :
  main_resolve float_text results0 (args0 unet true (Some "last") None)
    (world_runs ledger_short)
  = (Err (UnboundLocalError "init_learning_rate"), world_runs ledger_short).
Proof.
  assert (E : FS.read_lines (fs (world_runs ledger_short))
                (PathLib.of_string run_b // "lrs.txt") = Ok ledger_short)
    by (vm_compute; reflexivity).
  refine (proj2 (missing_ledger_entry_is_fatal float_text results0
                   (args0 unet true (Some "last") None)
                   (world_runs ledger_short) (world_runs ledger_short)
                   (PathLib.of_string run_b)
                   (Some (PathLib.of_string (run_b +:+ "/checkpoints/epoch=1.ckpt")))
                   11 1 _ _ _ _ _) ledger_short E _).
  - reflexivity.
  - discriminate.
  - reflexivity.
  - vm_compute. reflexivity.
  - intros lines H. rewrite E in H. inversion H; subst lines.
    unfold ledger_short. constructor; [vm_compute; discriminate | constructor].
  - unfold ledger_short. constructor; [vm_compute; reflexivity | constructor].
Defined.

(** C3 as stated fails, in two ways.  With the model simvp a resume-last on
    a run with checkpoints and ledger entries for the epochs 0 and 1
    resolves to a plan without a restored learning rate, though the ledger
    has 0.05 for epoch 1.  And on a run whose checkpoints for the epochs 0
    and 1 carry the step in their names, [epoch=0-step=49.ckpt] and
    [epoch=1-step=99.ckpt], the scan files them under 49 and 99: resume-last
    starts at 99, not at 1, and the branch of unet finds no ledger line for
    that number. *)
Lemma resume_last_simvp_and_step_names :
  (main_resolve float_text results0 (args0 simvp true (Some "last") None)
     (world_runs ledger_full)
   = (Ok {| run_path := PathLib.of_string run_b;
            checkpoint_to_load :=
              Some (PathLib.of_string (run_b +:+ "/checkpoints/epoch=1.ckpt"));
            start_epoch := 1; end_epoch := 11;
            restored_learning_rate := None |},
      world_runs ledger_full)
   /\ ledger_entry float_text ("1: 0.05" +:+ nl) = Ok (1, "0.05"))
  /\ (resume_or_start results0 (Some "last") true 10 None world_steps
      = (Ok (PathLib.of_string run_b,
             Some (PathLib.of_string (run_b +:+ "/checkpoints/epoch=1-step=99.ckpt")),
             109, 99), world_steps)
      /\ main_resolve float_text results0 (args0 unet true (Some "last") None)
           world_steps
         = (Err (UnboundLocalError "init_learning_rate"), world_steps)).
Proof. repeat split; vm_compute; reflexivity. Qed.

(** C3, amended. A resume-last invocation whose latest run holds
    checkpoints for the epochs [0..N], each named [epoch=<k>] after its
    epoch, and ledger entries for the epochs [0..N] resolves, for every model
    but tempcnn, to the latest run, start epoch [N], end epoch
    [N + num_epochs] and the last entry of the checkpoint directory that is
    named after [N]; the plan carries the learning rate of the last ledger
    line of epoch [N] for the models whose branch restores it, and none for
    simvp. *)
Theorem resume_last_plan {F : Type} (float : string -> option F)
    (results_path : Path) (a : args) (w : world)
    (run : Path) (lines : list string) (N : Z) :
  train a = true -> resume a = Some "last" -> model_name a <> tempcnn ->
  latest_run (fs w) results_path = Ok run ->
  checkpoints_upto (FS.glob (fs w) (run // "checkpoints") "*") N ->
  FS.read_lines (fs w) (run // "lrs.txt") = Ok lines ->
  ledger_upto float lines N ->
  0 <= N ->
  exists ckpt line v,
    last_with (fun x => named_epoch x N)
      (FS.glob (fs w) (run // "checkpoints") "*") ckpt
    /\ last_at ledger_epoch N lines line
    /\ ledger_entry float line = Ok (N, v)
    /\ main_resolve float results_path a w
       = (Ok {| run_path := run; checkpoint_to_load := Some ckpt;
                start_epoch := N; end_epoch := N + num_epochs a;
                restored_learning_rate :=
                  if restores_lr (model_name a) then Some v else None |}, w).
Proof.
  intros Ht Hr Hm Hrun [Hall Hcov] Hlines [Lall Lcov] HN.
  set (xs := FS.glob (fs w) (run // "checkpoints") "*") in *.
  (* the scan *)
  assert (Hscan : Forall (fun x => exists k, epoch_of_scan x = Ok k /\ 0 <= k <= N) xs).
  { eapply Forall_impl; [exact Hall|]. intros x (k & Hk & Hb).
    exists k. split; [apply named_epoch_scan, Hk | exact Hb]. }
  destruct (epoch_ckpt_from_ok xs ∅) as (d & Hd).
  { eapply Forall_impl; [exact Hscan|]. intros x (k & -> & _). reflexivity. }
  assert (Hkeys : forall k, k ∈ keys d -> 0 <= k <= N).
  { intros k Hk. apply elem_of_keys in Hk as [x Hx].
    destruct (epoch_ckpt_from_lookup xs ∅ d k Hd)
      as [(y & (pre & post & E & Hy & _) & _) | [_ Hl]].
    - rewrite Forall_forall in Hscan.
      destruct (Hscan y) as (k' & Hk' & Hb).
      + rewrite E. apply elem_of_app. right. left.
      + congruence.
    - rewrite lookup_empty in Hl. congruence. }
  destruct (Hcov N ltac:(lia)) as (x0 & Hx0 & Hs0).
  apply named_epoch_scan in Hs0.
  destruct (epoch_ckpt_from_lookup xs ∅ d N Hd) as [(ckpt & Hlast & Hl) | [Hnone _]].
  2:{ exfalso. rewrite Forall_forall in Hnone. exact (Hnone x0 Hx0 Hs0). }
  assert (HNk : N ∈ keys d) by (apply elem_of_keys; eauto).
  destruct (sorted_last_max (keys d)) as (m & Hi & Hm1 & Hm2).
  { intros E. rewrite E in HNk. inversion HNk. }
  assert (m = N).
  { rewrite Forall_forall in Hm2. specialize (Hm2 N).
    pose proof (Hkeys m Hm1).
    assert (N <= m) by (apply Hm2; exact HNk). lia. }
  subst m.
  assert (Hres : resume_or_start results_path (resume a) (train a) (num_epochs a)
                   (load_checkpoint a) w
                 = (Ok (run, Some ckpt, N + num_epochs a, N), w)).
  { rewrite Ht, Hr, resume_or_start_last, Hrun. simpl bind. fold xs.
    rewrite Hd. simpl bind. rewrite Hi. simpl bind.
    unfold getitem. rewrite Hl. reflexivity. }
  (* the entry picked, by its name *)
  assert (Hnamed : last_with (fun x => named_epoch x N) xs ckpt).
  { destruct Hlast as (pre & post & E & Hck & Hpost).
    exists pre, post. split; [exact E|]. split.
    - rewrite Forall_forall in Hall.
      destruct (Hall ckpt) as (k & Hk & _);
        [rewrite E; apply elem_of_app; right; left|].
      pose proof (named_epoch_scan _ _ Hk). congruence.
    - eapply Forall_impl; [exact Hpost|]. intros y Hy Hn.
      apply Hy, named_epoch_scan, Hn. }
  (* the ledger *)
  destruct (Lcov N ltac:(lia)) as (l0 & Hl0 & He0).
  destruct (exists_last_at ledger_epoch N lines) as (line & pre & post & E & Hline & Hpost);
    [eauto|].
  subst lines. apply Forall_app in Lall as [Lpre Lrest].
  inversion Lrest as [|? ? (k1 & v & Hent & _) Lpost]; subst.
  assert (k1 = N).
  { pose proof (ledger_entry_epoch float _ _ _ Hent). congruence. }
  subst k1.
  exists ckpt, line, v. split; [exact Hnamed|].
  split; [exists pre, post; auto|]. split; [exact Hent|].
  assert (Hc : negb (train a) && is_none (load_checkpoint a) = false)
    by (rewrite Ht; reflexivity).
  rewrite (main_resolve_step float _ _ _ _ _ Hc Hres). simpl bind.
  destruct (restores_lr (model_name a)) eqn:Hlr.
  - rewrite (dispatch_restores float _ _ _ Hlr). unfold with_ledger.
    rewrite Hr, Hlines. simpl bind.
    rewrite (restore_last float pre post line N v None); [reflexivity | | exact Hent |].
    + eapply Forall_impl; [exact Lpre|]. intros l (k & u & Hu & _).
      exists k. split; [eapply ledger_entry_epoch; exact Hu|]. eauto.
    + apply Forall_forall. intros l Hin.
      rewrite Forall_forall in Lpost. destruct (Lpost l Hin) as (k & u & Hu & _).
      exists k. pose proof (ledger_entry_epoch float _ _ _ Hu) as Hk.
      split; [exact Hk|]. intros ->.
      rewrite Forall_forall in Hpost. exact (Hpost l Hin Hk).
  - unfold dispatch. destruct (model_name a); try discriminate Hlr; [congruence|].
    reflexivity.
Qed.

Lemma resume_last_plan_witness :
  exists ckpt line v,
    last_with (fun x => named_epoch x 1)
      (FS.glob (fs (world_runs ledger_full))
         (PathLib.of_string run_b // "checkpoints") "*") ckpt
    /\ last_at ledger_epoch 1 ledger_full line
    /\ ledger_entry float_text line = Ok (1, v)
    /\ main_resolve float_text results0 (args0 unet true (Some "last") None)
         (world_runs ledger_full)
       = (Ok {| run_path := PathLib.of_string run_b;
                checkpoint_to_load := Some ckpt;
                start_epoch := 1; end_epoch := 1 + 10;
                restored_learning_rate := Some v |}, world_runs ledger_full).
Proof.
  apply (resume_last_plan float_text results0 (args0 unet true (Some "last") None)
           (world_runs ledger_full) (PathLib.of_string run_b) ledger_full 1).
  - reflexivity.
  - reflexivity.
  - discriminate.
  - vm_compute. reflexivity.
  - rewrite glob_ckpts_b. unfold ckpts_b. split.
    + constructor; [|constructor; [|constructor]].
      * exists 1. split; [|lia]. exists "1". repeat split; vm_compute; congruence.
      * exists 0. split; [|lia]. exists "0". repeat split; vm_compute; congruence.
    + intros k Hk. assert (Hk' : k = 0 \/ k = 1) by lia.
      destruct Hk' as [-> | ->].
      * exists (PathLib.of_string (run_b +:+ "/checkpoints/epoch=0.ckpt")).
        split; [repeat constructor|].
        exists "0". repeat split; vm_compute; congruence.
      * exists (PathLib.of_string (run_b +:+ "/checkpoints/epoch=1.ckpt")).
        split; [repeat constructor|].
        exists "1". repeat split; vm_compute; congruence.
  - vm_compute. reflexivity.
  - unfold ledger_full. split.
    + repeat (constructor; [eexists; eexists; split; [vm_compute; reflexivity | lia]|]).
      constructor.
    + intros k Hk. assert (Hk' : k = 0 \/ k = 1) by lia.
      destruct Hk' as [-> | ->].
      * exists ("0: 0.1" +:+ nl). split; [repeat constructor | vm_compute; reflexivity].
      * exists ("1: 0.05" +:+ nl). split; [repeat constructor | vm_compute; reflexivity].
  - lia.
Defined.

(** C4 as stated fails: an evaluate-only invocation that also gives a
    resume argument reads the ledger and carries the learning rate of the
    epoch of its checkpoint. *)
Lemma evaluate_only_with_resume_restores_rate :
  main_resolve float_text results0
    (args0 unet false (Some "last") (Some (run_b +:+ "/checkpoints/epoch=0.ckpt")))
    (world_runs ledger_full)
  = (Ok {| run_path := PathLib.of_string run_b;
           checkpoint_to_load :=
             Some (PathLib.of_string (run_b +:+ "/checkpoints/epoch=0.ckpt"));
           start_epoch := 0; end_epoch := 1;
           restored_learning_rate := Some "0.1" |},
     world_runs ledger_full).
Proof. vm_compute. reflexivity. Qed.

(** C4, amended. A resolved plan carries a restored learning rate exactly
    when a resume argument was given and the model is one whose branch
    restores the learning rate, whether or not the invocation trains: it is
    absent for every fresh start and for an evaluate-only invocation
    without a resume argument, and present for an evaluate-only invocation
    with one. *)
Theorem restored_rate_iff_resume_given {F : Type} (float : string -> option F)
    (results_path : Path) (a : args)
    (w w' : world) (p : plan F) :
  main_resolve float results_path a w = (Ok p, w') ->
  (restored_learning_rate p <> None
   <-> resume a <> None /\ restores_lr (model_name a) = true).
Proof.
  intros H. apply main_resolve_inv in H as ([[[run ck] mx] e0] & _ & Hd).
  destruct (restores_lr (model_name a)) eqn:Em.
  - rewrite (dispatch_restores float _ _ _ Em) in Hd.
    apply with_ledger_inv in Hd
      as (_ & _ & _ & _ & [[Hr Hp] | (s & lines & v & Hr & _ & _ & Hp)]);
      rewrite Hr, Hp.
    + split; [congruence | intros [? _]; congruence].
    + split; [intros _; split; [discriminate | reflexivity] | intros _; discriminate].
  - unfold dispatch in Hd.
    destruct (model_name a); simpl in Em; try discriminate Em; try discriminate Hd.
    apply without_ledger_inv in Hd as (_ & _ & _ & _ & Hp). rewrite Hp.
    split; [congruence | intros [_ ?]; discriminate].
Qed.

Lemma restored_rate_iff_resume_given_witness :
  restored_learning_rate
    {| run_path := PathLib.of_string run_b;
       checkpoint_to_load :=
         Some (PathLib.of_string (run_b +:+ "/checkpoints/epoch=1.ckpt"));
       start_epoch := 1; end_epoch := 11;
       restored_learning_rate := Some "0.05" |} <> None
  <-> resume (args0 unet true (Some "last") None) <> None
      /\ restores_lr (model_name (args0 unet true (Some "last") None)) = true.
Proof.
  apply (restored_rate_iff_resume_given float_text results0
           (args0 unet true (Some "last") None)
           (world_runs ledger_full) (world_runs ledger_full)).
  vm_compute. reflexivity.
Defined.

(** C5 as stated fails: after a fresh start in an empty results directory
    the new run directory has no [checkpoints] subdirectory. *)
Lemma fresh_start_leaves_no_checkpoint_dir :
  fst (resume_or_start results0 None true 10 None world_empty)
  = Ok (results0 // "run_20240517093007", None, 10, 0)
  /\ FS.lookup (fs (snd (resume_or_start results0 None true 10 None world_empty)))
       (results0 // "run_20240517093007" // "checkpoints") = None
  /\ FS.glob (fs (snd (resume_or_start results0 None true 10 None world_empty)))
       (results0 // "run_20240517093007") "*" = [].
Proof. repeat split; vm_compute; reflexivity. Qed.

(** C5, amended. A fresh start in an existing, empty results directory
    yields start epoch 0, end epoch [num_epochs] and no checkpoint, and adds
    to the file system exactly one entry: the run directory, a child of the
    results directory named [run_] followed by the time stamp to the
    second.  No [checkpoints] subdirectory is created. *)
Theorem fresh_start_plan (results_path : Path) (n : Z) (c : option string)
    (w : world) :
  FS.is_dir (fs w) results_path = true ->
  FS.glob (fs w) results_path "*" = [] ->
  let run := results_path // ("run_" +:+ strftime (now w)) in
  resume_or_start results_path None true n c w
  = (Ok (run, None, n, 0), {| fs := (fs w ++ [(run, Dir)])%list; now := now w |})
  /\ PathLib.parent run = results_path
  /\ PathLib.name run = "run_" +:+ strftime (now w).
Proof.
  intros Hd Hg run.
  assert (Er : run = {| root := root results_path;
                        parts := (parts results_path ++ ["run_" +:+ strftime (now w)])%list |})
    by apply joinpath_run.
  assert (Hpar : PathLib.parent run = results_path).
  { rewrite Er, parent_snoc. destruct results_path; reflexivity. }
  split; [|split; [exact Hpar | rewrite Er; apply name_snoc]].
  unfold resume_or_start. simpl negb. cbv iota.
  rewrite bool_decide_eq_false_2 by discriminate.
  fold run.
  assert (Hparts : parts run <> []).
  { rewrite Er. simpl. destruct (parts results_path); discriminate. }
  assert (Hfind : FS.find (fs w) run = None).
  { apply (find_in_empty_dir _ results_path); [|exact Hparts|exact Hpar].
    unfold FS.glob in Hg. rewrite Hd in Hg.
    destruct (List.filter _ _); [reflexivity | discriminate]. }
  assert (Hmk : FS.os_mkdir (fs w) run = Ok (fs w ++ [(run, Dir)])%list).
  { unfold FS.os_mkdir, FS.lookup at 1.
    destruct (parts run) eqn:E; [contradiction|].
    rewrite Hfind, Hpar.
    unfold FS.is_dir in Hd.
    destruct (FS.lookup (fs w) results_path) as [[|]|]; try discriminate. reflexivity. }
  unfold FS.mkdir. rewrite (mkdir_parents_fresh _ _ _ Hmk). reflexivity.
Qed.

Lemma fresh_start_plan_witness :
  resume_or_start results0 None true 10 None world_empty
  = (Ok (results0 // "run_20240517093007", None, 10, 0),
     {| fs := (fs world_empty ++ [(results0 // "run_20240517093007", Dir)])%list;
        now := clock0 |})
  /\ PathLib.parent (results0 // "run_20240517093007") = results0
  /\ PathLib.name (results0 // "run_20240517093007") = "run_20240517093007".
Proof.
  apply (fresh_start_plan results0 10 None world_empty); vm_compute; reflexivity.
Defined.

(** C6 as stated fails, in two ways.  An evaluate-only invocation of
    convlstm that also names a checkpoint to resume from carries the
    learning rate 0.05 of epoch 1, and raises when the ledger has no line
    for that epoch.  And the epoch is the number after the first [=] of the
    stem, whatever stands before it: the name [step=99-epoch=3.ckpt] embeds
    the epoch 3 and the invocation starts at 99. *)
Lemma evaluate_only_ledger_and_first_number :
  (main_resolve float_text results0
     (args0 convlstm false (Some (run_b +:+ "/checkpoints/epoch=1.ckpt"))
        (Some (run_b +:+ "/checkpoints/epoch=1.ckpt")))
     (world_runs ledger_full)
   = (Ok {| run_path := PathLib.of_string run_b;
            checkpoint_to_load :=
              Some (PathLib.of_string (run_b +:+ "/checkpoints/epoch=1.ckpt"));
            start_epoch := 1; end_epoch := 2;
            restored_learning_rate := Some "0.05" |},
      world_runs ledger_full)
   /\ main_resolve float_text results0
        (args0 convlstm false (Some (run_b +:+ "/checkpoints/epoch=1.ckpt"))
           (Some (run_b +:+ "/checkpoints/epoch=1.ckpt")))
        (world_runs ledger_short)
      = (Err (UnboundLocalError "init_learning_rate"), world_runs ledger_short))
  /\ main_resolve float_text results0
       (args0 unet false None (Some (run_b +:+ "/checkpoints/step=99-epoch=3.ckpt")))
       (world_runs ledger_full)
     = (Ok {| run_path := PathLib.of_string run_b;
              checkpoint_to_load :=
                Some (PathLib.of_string (run_b +:+ "/checkpoints/step=99-epoch=3.ckpt"));
              start_epoch := 99; end_epoch := 100;
              restored_learning_rate := None |},
        world_runs ledger_full).
Proof. repeat split; vm_compute; reflexivity. Qed.

(** C6, amended. An evaluate-only invocation with a checkpoint whose name
    starts with the epoch [N] ([epoch=<N>], alone or followed by a dash and
    more) makes [resume_or_start] return the parent of the parent of the
    checkpoint, the checkpoint itself, end epoch [N + 1] and start epoch
    [N], in every world, and every plan resolved from it has these four
    values.  Without a resume argument the models other than tempcnn resolve
    to that plan, with no restored learning rate.  With a resume argument
    the branches that restore the learning rate read the ledger of that run
    at epoch [N]: the plan carries what the loop finds there, and the
    resolution raises when it finds nothing or cannot read the ledger; simvp
    restores nothing. *)
Theorem evaluate_only_plan {F : Type} (float : string -> option F)
    (results_path : Path) (a : args) (w : world)
    (s : string) (N : Z) :
  train a = false -> load_checkpoint a = Some s ->
  starts_with_epoch (PathLib.of_string s) N ->
  let ck := PathLib.of_string s in
  let run := PathLib.parent (PathLib.parent ck) in
  let plan_with := fun lr =>
    {| run_path := run; checkpoint_to_load := Some ck;
       start_epoch := N; end_epoch := N + 1;
       restored_learning_rate := lr |} in
  resume_or_start results_path (resume a) (train a) (num_epochs a)
    (load_checkpoint a) w = (Ok (run, Some ck, N + 1, N), w)
  /\ (forall p w', main_resolve float results_path a w = (Ok p, w') ->
                   run_path p = run /\ checkpoint_to_load p = Some ck
                   /\ start_epoch p = N /\ end_epoch p = N + 1 /\ w' = w)
  /\ (resume a = None -> model_name a <> tempcnn ->
      main_resolve float results_path a w = (Ok (plan_with None), w))
  /\ (resume a <> None -> restores_lr (model_name a) = true ->
      main_resolve float results_path a w
      = (match FS.read_lines (fs w) (run // "lrs.txt") with
         | Err e => Err e
         | Ok lines =>
             match restore_learning_rate float lines N None with
             | Err e => Err e
             | Ok None => Err (UnboundLocalError "init_learning_rate")
             | Ok (Some v) => Ok (plan_with (Some v))
             end
         end, w))
  /\ (model_name a = simvp ->
      main_resolve float results_path a w = (Ok (plan_with None), w)).
Proof.
  intros Ht Hc HN ck run plan_with.
  apply starts_with_epoch_name in HN. fold ck in HN.
  assert (Hres : resume_or_start results_path (resume a) (train a) (num_epochs a)
                   (load_checkpoint a) w = (Ok (run, Some ck, N + 1, N), w)).
  { rewrite Ht, Hc, resume_or_start_evaluate. fold ck. rewrite HN. reflexivity. }
  assert (Hchk : negb (train a) && is_none (load_checkpoint a) = false)
    by (rewrite Hc; apply andb_false_r).
  split; [exact Hres|]. split; [|split; [|split]].
  - intros p w' H. apply main_resolve_inv in H as (t & Ht' & Hd).
    rewrite Hres in Ht'. inversion Ht'; subst t w'.
    unfold dispatch in Hd.
    destruct (model_name a); try discriminate Hd;
      try (apply with_ledger_inv in Hd as (? & ? & ? & ? & _); auto).
    apply without_ledger_inv in Hd as (? & ? & ? & ? & _). auto.
  - intros Hr Hm.
    rewrite (main_resolve_step float _ _ _ _ _ Hchk Hres). simpl bind.
    unfold dispatch, with_ledger, without_ledger. rewrite Hr.
    destruct (model_name a); try reflexivity. congruence.
  - intros Hr Hm.
    rewrite (main_resolve_step float _ _ _ _ _ Hchk Hres). simpl bind.
    rewrite (dispatch_restores float _ _ _ Hm). unfold with_ledger.
    destruct (resume a) as [r|]; [|congruence].
    destruct (FS.read_lines (fs w) (run // "lrs.txt")) as [lines|e]; [|reflexivity].
    simpl bind.
    destruct (restore_learning_rate float lines N None) as [[v|]|e]; reflexivity.
  - intros Hm.
    rewrite (main_resolve_step float _ _ _ _ _ Hchk Hres). simpl bind.
    unfold dispatch. rewrite Hm. reflexivity.
Qed.

Lemma evaluate_only_plan_witness :
  main_resolve float_text results0
    (args0 unet false None (Some (run_b +:+ "/checkpoints/epoch=1-step=99.ckpt")))
    (world_runs ledger_full)
  = (Ok {| run_path :=
             PathLib.parent (PathLib.parent
               (PathLib.of_string (run_b +:+ "/checkpoints/epoch=1-step=99.ckpt")));
           checkpoint_to_load :=
             Some (PathLib.of_string (run_b +:+ "/checkpoints/epoch=1-step=99.ckpt"));
           start_epoch := 1; end_epoch := 1 + 1;
           restored_learning_rate := None |},
     world_runs ledger_full).
Proof.
  refine (proj1 (proj2 (proj2 (evaluate_only_plan float_text results0
            (args0 unet false None
               (Some (run_b +:+ "/checkpoints/epoch=1-step=99.ckpt")))
            (world_runs ledger_full) (run_b +:+ "/checkpoints/epoch=1-step=99.ckpt") 1
            _ _ _))) _ _).
  - reflexivity.
  - reflexivity.
  - exists "1", "-step=99". split; [vm_compute; reflexivity|].
    split; [reflexivity|]. split; [discriminate|].
    split; [right; eexists; reflexivity | reflexivity].
  - reflexivity.
  - discriminate.
Defined.

(** C7 as stated fails: a checkpoint directory that also holds [last.ckpt]
    makes the scan, and with it the resume-last resolution, raise
    [ValueError]. *)
Lemma scan_raises_on_last_ckpt :
  epoch_of_scan (PathLib.of_string (run_b +:+ "/checkpoints/last.ckpt")) = Err ValueError
  /\ resume_or_start results0 (Some "last") true 10 None world_last_ckpt
     = (Err ValueError, world_last_ckpt).
Proof. split; vm_compute; reflexivity. Qed.

(** C7, amended. In a resume-last resolution the scan of the checkpoint
    directory of the latest run is all or nothing.  When every entry yields
    a number, the scan maps each number to the last entry enumerated under
    it, and, the directory not being empty, the resolution starts from an
    entry of that mapping.  As soon as one entry yields none, as every entry
    does whose stem holds no digit, the scan raises [ValueError] and so does
    the resolution, for every model, leaving the world as it is: nothing is
    skipped. *)
Theorem scan_all_or_nothing {F : Type} (float : string -> option F)
    (results_path : Path) (a : args) (w : world) (run : Path) :
  train a = true -> resume a = Some "last" ->
  latest_run (fs w) results_path = Ok run ->
  let xs := FS.glob (fs w) (run // "checkpoints") "*" in
  let resolved :=
    resume_or_start results_path (resume a) (train a) (num_epochs a)
      (load_checkpoint a) w in
  (Forall (fun x => is_ok (epoch_of_scan x) = true) xs ->
   exists d,
     epoch_ckpt_from xs ∅ = Ok d
     /\ (forall k, (exists x, last_at epoch_of_scan k xs x /\ d !! k = Some x)
                   \/ (Forall (fun y => epoch_of_scan y <> Ok k) xs /\ d !! k = None))
     /\ (xs <> [] ->
         exists N ckpt,
           d !! N = Some ckpt
           /\ resolved = (Ok (run, Some ckpt, N + num_epochs a, N), w)))
  /\ (Exists (fun x => is_ok (epoch_of_scan x) = false) xs ->
      epoch_ckpt_from xs ∅ = Err ValueError
      /\ resolved = (Err ValueError, w)
      /\ main_resolve float results_path a w = (Err ValueError, w))
  /\ (Exists (fun x => no_digit (PathLib.stem x) = true) xs ->
      resolved = (Err ValueError, w)
      /\ main_resolve float results_path a w = (Err ValueError, w)).
Proof.
  intros Ht Hr Hrun xs resolved.
  assert (Hfail : Exists (fun x => is_ok (epoch_of_scan x) = false) xs ->
                  epoch_ckpt_from xs ∅ = Err ValueError
                  /\ resolved = (Err ValueError, w)
                  /\ main_resolve float results_path a w = (Err ValueError, w)).
  { intros H. pose proof (epoch_ckpt_from_err xs ∅ H) as Hd.
    assert (Hres : resolved = (Err ValueError, w)).
    { unfold resolved. rewrite Ht, Hr, resume_or_start_last, Hrun. cbn [bind].
      fold xs. rewrite Hd. reflexivity. }
    split; [exact Hd|]. split; [exact Hres|].
    unfold main_resolve. fold resolved. rewrite Hres, Ht. reflexivity. }
  split; [|split; [exact Hfail|]].
  - intros H. destruct (epoch_ckpt_from_ok xs ∅ H) as (d & Hd).
    exists d. split; [exact Hd|]. split.
    + intros k.
      destruct (epoch_ckpt_from_lookup xs ∅ d k Hd) as [Hl | [Hall Hl]];
        [left; exact Hl|].
      right. split; [exact Hall|]. rewrite Hl. apply lookup_empty.
    + intros Hne.
      assert (Hk0 : keys d <> []).
      { destruct xs as [|x0 xs0] eqn:Exs; [contradiction|].
        inversion H as [|? ? H0 _]; subst.
        destruct (epoch_of_scan x0) as [k0|] eqn:E0; [|discriminate].
        destruct (epoch_ckpt_from_lookup (x0 :: xs0) ∅ d k0 Hd)
          as [(y & _ & Hy) | [Hno _]].
        - intros E. assert (Hm : k0 ∈ keys d) by (apply elem_of_keys; eauto).
          rewrite E in Hm. inversion Hm.
        - exfalso. inversion Hno; subst. congruence. }
      destruct (sorted_last_max (keys d) Hk0) as (N & Hi & HN & _).
      apply elem_of_keys in HN as [ckpt Hck].
      exists N, ckpt. split; [exact Hck|].
      unfold resolved. rewrite Ht, Hr, resume_or_start_last, Hrun. cbn [bind].
      fold xs. rewrite Hd. cbn [bind]. rewrite Hi. cbn [bind].
      unfold getitem. rewrite Hck. reflexivity.
  - intros H. apply Hfail.
    apply Exists_exists in H as (x & Hx & Hn). apply Exists_exists.
    exists x. split; [exact Hx|].
    rewrite (epoch_of_scan_no_digit x Hn). reflexivity.
Qed.

Lemma scan_all_or_nothing_witness :
  epoch_ckpt_from
    (FS.glob (fs world_last_ckpt) (PathLib.of_string run_b // "checkpoints") "*") ∅
  = Err ValueError
  /\ resume_or_start results0 (Some "last") true 10 None world_last_ckpt
     = (Err ValueError, world_last_ckpt)
  /\ main_resolve float_text results0 (args0 unet true (Some "last") None)
       world_last_ckpt
     = (Err ValueError, world_last_ckpt).
Proof.
  refine (proj1 (proj2 (scan_all_or_nothing float_text results0
            (args0 unet true (Some "last") None) world_last_ckpt
            (PathLib.of_string run_b) _ _ _)) _).
  - reflexivity.
  - reflexivity.
  - vm_compute. reflexivity.
  - replace (FS.glob (fs world_last_ckpt) (PathLib.of_string run_b // "checkpoints") "*")
      with ckpts_b_last by (vm_compute; reflexivity).
    unfold ckpts_b_last, ckpts_b. simpl app.
    apply Exists_cons_tl, Exists_cons_tl, Exists_cons_hd. vm_compute. reflexivity.
Defined.

Lemma fs_closed_world_notes : fs_closed (fs world_notes).
Proof.
  intros p H. unfold FS.is_dir, FS.lookup in H.
  destruct (parts p) as [|x r] eqn:Ep.
  - unfold FS.is_dir, FS.lookup, PathLib.parent. cbn [parts]. rewrite Ep. reflexivity.
  - cbn [world_notes world_empty fs app FS.find] in H.
    repeat match type of H with
    | context [decide (?q = p)] =>
        destruct (decide (q = p)) as [<-|_]; [vm_compute; reflexivity|]
    end.
    discriminate H.
Qed.

(** C8 as stated fails: the code has no error of its own for a results
    directory without runs, and it does not ask whether an entry is a
    directory.  In a results directory that holds the file [run_notes.txt]
    and no run directory, the latest run is found, it is that file, and the
    resolution fails only when it finds no checkpoint in it: with the
    [IndexError] that a run directory without checkpoints gives as well. *)
Lemma run_file_taken_for_a_run :
  Forall (fun x => FS.is_dir (fs world_notes) x = false)
    (FS.glob (fs world_notes) results0 "run_*")
  /\ latest_run (fs world_notes) results0 = Ok (PathLib.of_string run_notes)
  /\ resume_or_start results0 (Some "last") true 10 None world_notes
     = (Err IndexError, world_notes)
  /\ resume_or_start results0 (Some "last") true 10 None world_started
     = (Err IndexError, world_started).
Proof.
  split; [|repeat split; vm_compute; reflexivity].
  replace (FS.glob (fs world_notes) results0 "run_*")
    with [PathLib.of_string run_notes] by (vm_compute; reflexivity).
  repeat constructor.
Qed.

(** C8, amended. A resume-last invocation against a results directory that
    holds no run directory fails with [IndexError], for every model, and
    leaves the world as it is: nothing is created and there is no fresh
    start.  This is so when no entry matches [run_*], and also, in a file
    system where every directory lies in a directory, when the entries that
    match are regular files. *)
Theorem resume_last_without_runs {F : Type} (float : string -> option F)
    (results_path : Path) (a : args) (w : world) :
  train a = true -> resume a = Some "last" ->
  FS.glob (fs w) results_path "run_*" = []
  \/ (fs_closed (fs w)
      /\ Forall (fun x => FS.is_dir (fs w) x = false)
           (FS.glob (fs w) results_path "run_*")) ->
  resume_or_start results_path (resume a) (train a) (num_epochs a) (load_checkpoint a) w
    = (Err IndexError, w)
  /\ main_resolve float results_path a w = (Err IndexError, w).
Proof.
  intros Ht Hr Hg.
  assert (E : resume_or_start results_path (resume a) (train a) (num_epochs a)
                (load_checkpoint a) w = (Err IndexError, w)).
  { rewrite Ht, Hr, resume_or_start_last.
    destruct Hg as [Hg | [Hclosed Hfiles]].
    { unfold latest_run. rewrite Hg. reflexivity. }
    destruct (latest_run (fs w) results_path) as [run|e] eqn:Hrun; cbn [bind].
    2:{ apply index_err in Hrun. rewrite Hrun. reflexivity. }
    assert (Hin : run ∈ FS.glob (fs w) results_path "run_*").
    { unfold latest_run in Hrun. apply index_In, list_elem_of_In in Hrun.
      rewrite sorted_perm in Hrun. exact Hrun. }
    rewrite Forall_forall in Hfiles. specialize (Hfiles run Hin).
    assert (Hck : FS.is_dir (fs w) (run // "checkpoints") = false).
    { destruct (FS.is_dir (fs w) (run // "checkpoints")) eqn:Ed; [|reflexivity].
      apply Hclosed in Ed.
      replace (PathLib.parent (run // "checkpoints")) with run in Ed; [congruence|].
      destruct run as [r ps]. unfold PathLib.parent.
      change (parts ({| root := r; parts := ps |} // "checkpoints"))
        with (ps ++ ["checkpoints"])%list.
      rewrite removelast_last. reflexivity. }
    unfold FS.glob at 1. rewrite Hck. cbn [epoch_ckpt_from bind].
    replace (keys ∅) with (@nil Z)
      by (unfold keys; rewrite dom_empty_L, elements_empty; reflexivity).
    reflexivity. }
  split; [exact E|].
  unfold main_resolve. rewrite E. rewrite Ht. reflexivity.
Qed.

Lemma resume_last_without_runs_witness :
  resume_or_start results0 (Some "last") true 10 None world_notes
  = (Err IndexError, world_notes)
  /\ main_resolve float_text results0 (args0 unet true (Some "last") None) world_notes
     = (Err IndexError, world_notes).
Proof.
  apply (resume_last_without_runs float_text results0
           (args0 unet true (Some "last") None) world_notes).
  - reflexivity.
  - reflexivity.
  - right. split; [exact fs_closed_world_notes|].
    replace (FS.glob (fs world_notes) results0 "run_*")
      with [PathLib.of_string run_notes] by (vm_compute; reflexivity).
    repeat constructor.
Defined.

(** C9 as stated fails: the explicit-resume branch reads the number after
    the first [=] of the stem, whatever stands before it.  The name
    [step=99-epoch=7.ckpt] embeds the epoch 7, and a resume from it starts
    at 99. *)
Lemma explicit_resume_reads_first_number :
  resume_or_start results0
    (Some (run_b +:+ "/checkpoints/step=99-epoch=7.ckpt")) true 10 None
    (world_runs ledger_full)
  = (Ok (PathLib.of_string run_b,
         Some (PathLib.of_string (run_b +:+ "/checkpoints/step=99-epoch=7.ckpt")),
         109, 99), world_runs ledger_full).
Proof. vm_compute. reflexivity. Qed.

(** C9, amended. An explicit resume from a checkpoint whose name starts
    with the epoch [N] ([epoch=<N>], alone or followed by a dash and more)
    takes the start epoch [N] from that name, in every world, whatever the
    run holds; the run is the parent of the parent of the checkpoint, the
    end epoch is [N] plus the requested number of epochs, and every plan
    resolved from the invocation has these values. *)
Theorem explicit_resume_plan {F : Type} (float : string -> option F)
    (results_path : Path) (a : args) (w : world) (s : string) (N : Z) :
  train a = true -> resume a = Some s ->
  starts_with_epoch (PathLib.of_string s) N ->
  let ck := PathLib.of_string s in
  let run := PathLib.parent (PathLib.parent ck) in
  resume_or_start results_path (resume a) (train a) (num_epochs a)
    (load_checkpoint a) w = (Ok (run, Some ck, N + num_epochs a, N), w)
  /\ (forall p w', main_resolve float results_path a w = (Ok p, w') ->
                   run_path p = run /\ checkpoint_to_load p = Some ck
                   /\ start_epoch p = N /\ end_epoch p = N + num_epochs a
                   /\ w' = w).
Proof.
  intros Ht Hr HN ck run.
  assert (Hs : s <> "last").
  { intros ->. destruct HN as (ds & rest & Hs & _). vm_compute in Hs. discriminate Hs. }
  apply starts_with_epoch_name in HN. fold ck in HN.
  assert (Hres : resume_or_start results_path (resume a) (train a) (num_epochs a)
                   (load_checkpoint a) w
                 = (Ok (run, Some ck, N + num_epochs a, N), w)).
  { rewrite Ht, Hr, resume_or_start_named by exact Hs. fold ck. rewrite HN.
    reflexivity. }
  split; [exact Hres|].
  intros p w' H. apply main_resolve_inv in H as (t & Ht' & Hd).
  rewrite Hres in Ht'. inversion Ht'; subst t w'.
  unfold dispatch in Hd.
  destruct (model_name a); try discriminate Hd;
    try (apply with_ledger_inv in Hd as (? & ? & ? & ? & _); auto).
  apply without_ledger_inv in Hd as (? & ? & ? & ? & _). auto.
Qed.

Lemma explicit_resume_plan_witness :
  let ck := PathLib.of_string (run_b +:+ "/checkpoints/epoch=7-step=99.ckpt") in
  resume_or_start results0
    (Some (run_b +:+ "/checkpoints/epoch=7-step=99.ckpt")) true 10 None
    (world_runs ledger_full)
  = (Ok (PathLib.parent (PathLib.parent ck), Some ck, 7 + 10, 7),
     world_runs ledger_full)
  /\ (forall p w',
        main_resolve float_text results0
          (args0 simvp true (Some (run_b +:+ "/checkpoints/epoch=7-step=99.ckpt")) None)
          (world_runs ledger_full) = (Ok p, w') ->
        run_path p = PathLib.parent (PathLib.parent ck)
        /\ checkpoint_to_load p = Some ck
        /\ start_epoch p = 7 /\ end_epoch p = 7 + 10
        /\ w' = world_runs ledger_full).
Proof.
  apply (explicit_resume_plan float_text results0
           (args0 simvp true (Some (run_b +:+ "/checkpoints/epoch=7-step=99.ckpt")) None)
           (world_runs ledger_full)
           (run_b +:+ "/checkpoints/epoch=7-step=99.ckpt") 7).
  - reflexivity.
  - reflexivity.
  - exists "7", "-step=99". split; [vm_compute; reflexivity|].
    split; [reflexivity|]. split; [discriminate|].
    split; [right; eexists; reflexivity | reflexivity].
Defined.

(** C10 as stated fails for the model simvp: its branch never opens the
    ledger, so a mid-training resume on a ledger with two lines for the
    start epoch 1 restores neither of them. *)
Lemma simvp_ignores_repeated_ledger_lines :
  main_resolve float_text results0 (args0 simvp true (Some "last") None)
    (world_runs ledger_twice)
  = (Ok {| run_path := PathLib.of_string run_b;
           checkpoint_to_load :=
             Some (PathLib.of_string (run_b +:+ "/checkpoints/epoch=1.ckpt"));
           start_epoch := 1; end_epoch := 11;
           restored_learning_rate := None |},
     world_runs ledger_twice)
  /\ ledger_entry float_text ("1: 0.05" +:+ nl) = Ok (1, "0.05")
  /\ ledger_entry float_text ("1: 0.025" +:+ nl) = Ok (1, "0.025").
Proof. repeat split; vm_compute; reflexivity. Qed.

(** C10, amended. Whenever a plan carries a restored learning rate, it is
    the value on the last line of the ledger, in file order, whose epoch
    field is the start epoch; and for a mid-training resume of a model whose
    branch restores the learning rate (convlstm, convstar, unet, utae), a
    ledger in which that line is preceded by readable lines, other lines of
    the same epoch among them, and followed by lines of other epochs does
    resolve to the plan with the value of that line.  A plan of simvp
    carries no restored learning rate, whatever the ledger holds. *)
Theorem restored_rate_is_last_entry {F : Type} (float : string -> option F)
    (results_path : Path) (a : args) (w : world) :
  (forall p w' v,
      main_resolve float results_path a w = (Ok p, w') ->
      restored_learning_rate p = Some v ->
      exists lines line,
        FS.read_lines (fs w') (run_path p // "lrs.txt") = Ok lines
        /\ last_at ledger_epoch (start_epoch p) lines line
        /\ ledger_entry float line = Ok (start_epoch p, v))
  /\ (forall run ck mx e0 w' pre line post v,
        train a = true -> resume a <> None ->
        restores_lr (model_name a) = true ->
        resume_or_start results_path (resume a) (train a) (num_epochs a)
          (load_checkpoint a) w = (Ok (run, ck, mx, e0), w') ->
        FS.read_lines (fs w') (run // "lrs.txt") = Ok (pre ++ line :: post)%list ->
        Forall (readable float e0) pre ->
        ledger_entry float line = Ok (e0, v) ->
        Forall (fun l => exists k, ledger_epoch l = Ok k /\ k <> e0) post ->
        main_resolve float results_path a w
        = (Ok {| run_path := run; checkpoint_to_load := ck;
                 start_epoch := e0; end_epoch := mx;
                 restored_learning_rate := Some v |}, w'))
  /\ (model_name a = simvp ->
      forall p w', main_resolve float results_path a w = (Ok p, w') ->
                   restored_learning_rate p = None).
Proof.
  split; [|split].
  - intros p w' v H Hv.
    apply main_resolve_inv in H as ([[[run ck] mx] e0] & _ & Hd).
    unfold dispatch in Hd.
    assert (Hw : with_ledger float (resume a) (fs w') (run, ck, mx, e0) = Ok p
                 \/ restored_learning_rate p = None).
    { destruct (model_name a); try discriminate Hd; auto.
      right. apply without_ledger_inv in Hd as (_ & _ & _ & _ & Hp). exact Hp. }
    destruct Hw as [Hw | Hn]; [|congruence].
    apply with_ledger_inv in Hw
      as (Hrun & _ & Hst & _ & [[_ Hp] | (s & lines & v' & _ & Hl & Hr & Hp)]);
      [congruence|].
    assert (v' = v) by congruence. subst v'.
    destruct (restore_sound float lines e0 None v Hr) as [(line & Hlast & Hent) | [Hi _]];
      [|discriminate].
    exists lines, line. rewrite Hrun, Hst. auto.
  - intros run ck mx e0 w' pre line post v Ht Hr Hm Hres Hl Hpre Hent Hpost.
    assert (Hc : negb (train a) && is_none (load_checkpoint a) = false)
      by (rewrite Ht; reflexivity).
    rewrite (main_resolve_step float _ _ _ _ _ Hc Hres). simpl bind.
    rewrite (dispatch_restores float _ _ _ Hm). unfold with_ledger.
    destruct (resume a) as [s|]; [|congruence].
    rewrite Hl. simpl bind.
    rewrite (restore_last float pre post line e0 v None Hpre Hent Hpost).
    reflexivity.
  - intros Hm p w' H.
    apply main_resolve_inv in H as ([[[run ck] mx] e0] & _ & Hd).
    unfold dispatch in Hd. rewrite Hm in Hd.
    apply without_ledger_inv in Hd as (_ & _ & _ & _ & Hp). exact Hp.
Qed.

Lemma restored_rate_is_last_entry_witness :
  main_resolve float_text results0 (args0 unet true (Some "last") None)
    (world_runs ledger_twice)
  = (Ok {| run_path := PathLib.of_string run_b;
           checkpoint_to_load :=
             Some (PathLib.of_string (run_b +:+ "/checkpoints/epoch=1.ckpt"));
           start_epoch := 1; end_epoch := 11;
           restored_learning_rate := Some "0.025" |},
     world_runs ledger_twice).
Proof.
  refine (proj1 (proj2 (restored_rate_is_last_entry float_text results0
                   (args0 unet true (Some "last") None) (world_runs ledger_twice)))
            (PathLib.of_string run_b)
            (Some (PathLib.of_string (run_b +:+ "/checkpoints/epoch=1.ckpt")))
            11 1 (world_runs ledger_twice)
            ["0: 0.1" +:+ nl; "1: 0.05" +:+ nl] ("1: 0.025" +:+ nl) [] "0.025"
            _ _ _ _ _ _ _ _).
  - reflexivity.
  - discriminate.
  - reflexivity.
  - vm_compute. reflexivity.
  - vm_compute. reflexivity.
  - constructor; [|constructor; [|constructor]].
    + exists 0. split; [vm_compute; reflexivity | intros; lia].
    + exists 1. split; [vm_compute; reflexivity|].
      intros _. eexists. vm_compute. reflexivity.
  - vm_compute. reflexivity.
  - constructor.
Defined.

(** * Further properties of the code *)

(** ** Facts about [mkdir] *)

Lemma find_app_old (l a : list (Path * node)) (q : Path) (n : node) :
  FS.find l q = Some n -> FS.find (l ++ a) q = Some n.
Proof.
  induction l as [|[p m] l IH]; simpl; [discriminate|].
  destruct (decide (p = q)); [auto | exact IH].
Qed.

Lemma find_app_new (l a : list (Path * node)) (q : Path) :
  FS.find l q = None -> FS.find (l ++ a) q = FS.find a q.
Proof.
  induction l as [|[p m] l IH]; simpl; [reflexivity|].
  destruct (decide (p = q)); [discriminate | exact IH].
Qed.

Lemma lookup_app_old (l a : list (Path * node)) (q : Path) (n : node) :
  FS.lookup l q = Some n -> FS.lookup (l ++ a) q = Some n.
Proof.
  unfold FS.lookup. destruct (parts q); [auto | apply find_app_old].
Qed.

Lemma lookup_app_new (l : list (Path * node)) (p : Path) (n : node) :
  FS.lookup l p = None -> FS.lookup (l ++ [(p, n)]) p = Some n.
Proof.
  unfold FS.lookup. destruct (parts p); [discriminate|].
  intros H. rewrite (find_app_new _ _ _ H). simpl.
  destruct (decide (p = p)); [reflexivity | contradiction].
Qed.

Lemma is_dir_app (l a : list (Path * node)) (q : Path) :
  FS.is_dir l q = true -> FS.is_dir (l ++ a) q = true.
Proof.
  unfold FS.is_dir. destruct (FS.lookup l q) as [[|c]|] eqn:E; try discriminate.
  rewrite (lookup_app_old _ a _ _ E). reflexivity.
Qed.

Lemma os_mkdir_ok (l l' : list (Path * node)) (p : Path) :
  FS.os_mkdir l p = Ok l' ->
  l' = (l ++ [(p, Dir)])%list /\ FS.lookup l p = None
  /\ FS.is_dir l (PathLib.parent p) = true.
Proof.
  unfold FS.os_mkdir, FS.is_dir.
  destruct (FS.lookup l p); [discriminate|].
  destruct (FS.lookup l (PathLib.parent p)) as [[|c]|]; try discriminate.
  intros H. inversion H. auto.
Qed.

Lemma os_mkdir_exists (l : list (Path * node)) (p : Path) (n : node) :
  FS.lookup l p = Some n -> FS.os_mkdir l p = Err FileExistsError.
Proof. unfold FS.os_mkdir. intros ->. reflexivity. Qed.

Lemma length_parts_parent (p : Path) :
  (List.length (parts (PathLib.parent p)) <= List.length (parts p))%nat.
Proof.
  unfold PathLib.parent. simpl. destruct (parts p) as [|x l] using rev_ind.
  - simpl. lia.
  - rewrite removelast_last, length_app. lia.
Qed.

(** What a successful [mkdir] has done: it has appended directories, none
    deeper than [p], and [p] is a directory afterwards. *)
Lemma mkdir_parents_ok (n : nat) (l l' : list (Path * node)) (p : Path) :
  FS.mkdir_parents n l p = Ok l' ->
  exists added,
    l' = (l ++ added)%list
    /\ Forall (fun e => snd e = Dir
                        /\ (List.length (parts (fst e)) <= List.length (parts p))%nat)
         added
    /\ FS.is_dir l' p = true.
Proof.
  revert l l' p. induction n as [|k IH]; intros l l' p H; simpl in H.
  - destruct (FS.os_mkdir l p) as [l1|e] eqn:E.
    + inversion H; subst l1. apply os_mkdir_ok in E as (-> & Hl & _).
      exists [(p, Dir)]. split; [reflexivity|]. split.
      * constructor; [simpl; split; [reflexivity | lia] | constructor].
      * unfold FS.is_dir. rewrite (lookup_app_new _ _ _ Hl). reflexivity.
    + destruct e; try (destruct (FS.is_dir l p) eqn:Ed; [|discriminate];
                       inversion H; subst l'; exists [];
                       rewrite app_nil_r; repeat split; [constructor | exact Ed]).
      discriminate.
  - destruct (FS.os_mkdir l p) as [l1|e] eqn:E.
    + inversion H; subst l1. apply os_mkdir_ok in E as (-> & Hl & _).
      exists [(p, Dir)]. split; [reflexivity|]. split.
      * constructor; [simpl; split; [reflexivity | lia] | constructor].
      * unfold FS.is_dir. rewrite (lookup_app_new _ _ _ Hl). reflexivity.
    + destruct e; try (destruct (FS.is_dir l p) eqn:Ed; [|discriminate];
                       inversion H; subst l'; exists [];
                       rewrite app_nil_r; repeat split; [constructor | exact Ed]).
      destruct (FS.mkdir_parents k l (PathLib.parent p)) as [l1|e] eqn:Ep;
        simpl in H; [|discriminate].
      destruct (IH _ _ _ Ep) as (a1 & -> & Ha1 & _).
      assert (Ha1' : Forall (fun e => snd e = Dir
                        /\ (List.length (parts (fst e)) <= List.length (parts p))%nat) a1).
      { eapply Forall_impl; [exact Ha1|]. intros e [? ?]. split; [assumption|].
        pose proof (length_parts_parent p). lia. }
      unfold FS.mkdir_exist_ok in H.
      destruct (FS.os_mkdir (l ++ a1) p) as [l2|e] eqn:E2.
      * inversion H; subst l2. apply os_mkdir_ok in E2 as (-> & Hl & _).
        exists (a1 ++ [(p, Dir)])%list. split; [symmetry; apply app_assoc|]. split.
        -- apply Forall_app. split; [exact Ha1'|].
           constructor; [simpl; split; [reflexivity | lia] | constructor].
        -- unfold FS.is_dir. rewrite (lookup_app_new _ _ _ Hl). reflexivity.
      * destruct (FS.is_dir (l ++ a1) p) eqn:Ed; [|discriminate].
        inversion H; subst l'. exists a1. auto.
Qed.

Lemma mkdir_parents_existing (n : nat) (l : list (Path * node)) (p : Path) :
  FS.is_dir l p = true -> FS.mkdir_parents n l p = Ok l.
Proof.
  intros H.
  assert (E : FS.os_mkdir l p = Err FileExistsError).
  { unfold FS.is_dir in H. destruct (FS.lookup l p) as [m|] eqn:El; [|discriminate].
    apply (os_mkdir_exists _ _ _ El). }
  destruct n; simpl; rewrite E, H; reflexivity.
Qed.

Lemma mkdir_parents_file (n : nat) (l : list (Path * node)) (p : Path)
    (c : list string) :
  FS.lookup l p = Some (File c) -> FS.mkdir_parents n l p = Err FileExistsError.
Proof.
  intros H.
  assert (Hd : FS.is_dir l p = false) by (unfold FS.is_dir; rewrite H; reflexivity).
  destruct n; simpl; rewrite (os_mkdir_exists _ _ _ H), Hd; reflexivity.
Qed.

Lemma world_eta (w : world) : {| fs := fs w; now := now w |} = w.
Proof. destruct w; reflexivity. Qed.

(** ** Further properties: directories *)

(** X1. [create_model_log_path] is idempotent: once it has succeeded, the
    path it returns is a directory, and calling it again returns the same
    path and leaves the file system as it is. *)
Theorem create_model_log_path_idempotent (log_path : Path) (prefix model : string)
    (w w1 : world) (p : Path) :
  create_model_log_path log_path prefix model w = (Ok p, w1) ->
  p = log_path // model // prefix
  /\ FS.is_dir (fs w1) p = true
  /\ create_model_log_path log_path prefix model w1 = (Ok p, w1).
Proof.
  unfold create_model_log_path.
  destruct (FS.mkdir (fs w) (log_path // model // prefix)) as [l'|e] eqn:E;
    [|discriminate].
  intros H. inversion H; subst p w1. clear H. simpl.
  destruct (mkdir_parents_ok _ _ _ _ E) as (added & _ & _ & Hd).
  split; [reflexivity|]. split; [exact Hd|].
  unfold FS.mkdir. rewrite (mkdir_parents_existing _ _ _ Hd). reflexivity.
Qed.

Lemma create_model_log_path_idempotent_witness :
  results0 = PathLib.of_string "logs" // "unet" // "exp"
  /\ FS.is_dir (fs world_empty) results0 = true
  /\ create_model_log_path (PathLib.of_string "logs") "exp" "unet" world_empty
     = (Ok results0, world_empty).
Proof.
  apply (create_model_log_path_idempotent (PathLib.of_string "logs") "exp" "unet"
           world_bare world_empty results0).
  vm_compute. reflexivity.
Defined.

(** X2. [create_model_log_path] never removes or replaces an entry: whatever
    was in the file system before a successful call is there afterwards,
    every entry it adds is a directory, and the clock is not touched. *)
Theorem create_model_log_path_preserves (log_path : Path) (prefix model : string)
    (w w1 : world) (p : Path) :
  create_model_log_path log_path prefix model w = (Ok p, w1) ->
  (forall q n, FS.lookup (fs w) q = Some n -> FS.lookup (fs w1) q = Some n)
  /\ (exists added, fs w1 = (fs w ++ added)%list
                    /\ Forall (fun e => snd e = Dir) added)
  /\ now w1 = now w.
Proof.
  unfold create_model_log_path.
  destruct (FS.mkdir (fs w) (log_path // model // prefix)) as [l'|e] eqn:E;
    [|discriminate].
  intros H. inversion H; subst p w1. clear H. simpl.
  destruct (mkdir_parents_ok _ _ _ _ E) as (added & -> & Ha & _).
  split; [|split; [|reflexivity]].
  - intros q n Hq. apply lookup_app_old, Hq.
  - exists added. split; [reflexivity|].
    eapply Forall_impl; [exact Ha|]. intros e [? _]. assumption.
Qed.

Lemma create_model_log_path_preserves_witness :
  (forall q n, FS.lookup (fs world_bare) q = Some n ->
               FS.lookup (fs world_empty) q = Some n)
  /\ (exists added, fs world_empty = (fs world_bare ++ added)%list
                    /\ Forall (fun e => snd e = Dir) added)
  /\ now world_empty = now world_bare.
Proof.
  apply (create_model_log_path_preserves (PathLib.of_string "logs") "exp" "unet"
           world_bare world_empty results0).
  vm_compute. reflexivity.
Defined.

(** X3. When a regular file already has the name of the directory,
    [create_model_log_path] raises [FileExistsError] and changes nothing. *)
Theorem create_model_log_path_blocked (log_path : Path) (prefix model : string)
    (w : world) (c : list string) :
  FS.lookup (fs w) (log_path // model // prefix) = Some (File c) ->
  create_model_log_path log_path prefix model w = (Err FileExistsError, w).
Proof.
  intros H. unfold create_model_log_path, FS.mkdir.
  rewrite (mkdir_parents_file _ _ _ _ H). reflexivity.
Qed.

Lemma create_model_log_path_blocked_witness :
  create_model_log_path (PathLib.of_string "logs") "exp" "unet" world_blocked
  = (Err FileExistsError, world_blocked).
Proof.
  apply (create_model_log_path_blocked (PathLib.of_string "logs") "exp" "unet"
           world_blocked []).
  vm_compute. reflexivity.
Defined.

(** X4. An absolute prefix takes the directory out of [log_path]: the path
    that is created and returned is the prefix itself, whatever the log
    path and the model. *)
Theorem create_model_log_path_absolute (log_path : Path) (prefix model : string)
    (w w1 : world) (p : Path) :
  Py.is_empty (root (PathLib.of_string prefix)) = false ->
  create_model_log_path log_path prefix model w = (Ok p, w1) ->
  p = PathLib.of_string prefix /\ FS.is_dir (fs w1) (PathLib.of_string prefix) = true.
Proof.
  intros Hr H.
  assert (E : log_path // model // prefix = PathLib.of_string prefix).
  { unfold PathLib.joinpath at 1. rewrite Hr. reflexivity. }
  unfold create_model_log_path in H. rewrite E in H.
  destruct (FS.mkdir (fs w) (PathLib.of_string prefix)) as [l'|e] eqn:Em;
    [|discriminate].
  inversion H; subst p w1. split; [reflexivity|]. simpl.
  destruct (mkdir_parents_ok _ _ _ _ Em) as (_ & _ & _ & Hd). exact Hd.
Qed.

Lemma create_model_log_path_absolute_witness :
  PathLib.of_string "/data/exp" = PathLib.of_string "/data/exp"
  /\ FS.is_dir [(PathLib.of_string "/data", Dir); (PathLib.of_string "/data/exp", Dir)]
       (PathLib.of_string "/data/exp") = true.
Proof.
  apply (create_model_log_path_absolute (PathLib.of_string "logs") "/data/exp" "unet"
           world_bare
           {| fs := [(PathLib.of_string "/data", Dir);
                     (PathLib.of_string "/data/exp", Dir)];
              now := clock0 |}
           (PathLib.of_string "/data/exp"));
    vm_compute; reflexivity.
Defined.


(** ** Facts about a fresh start *)

Lemma resume_or_start_fresh (results_path : Path) (n : Z) (c : option string)
    (w : world) :
  resume_or_start results_path None true n c w =
  match FS.mkdir (fs w) (results_path // ("run_" +:+ strftime (now w))) with
  | Err e => (Err e, w)
  | Ok fs' =>
      (Ok (results_path // ("run_" +:+ strftime (now w)), None, n, 0),
       {| fs := fs'; now := now w |})
  end.
Proof. reflexivity. Qed.

Lemma parent_run (results_path : Path) (d : datetime) :
  PathLib.parent (results_path // ("run_" +:+ strftime d)) = results_path.
Proof. rewrite joinpath_run, parent_snoc. destruct results_path; reflexivity. Qed.

Lemma parts_run (results_path : Path) (d : datetime) :
  parts (results_path // ("run_" +:+ strftime d))
  = (parts results_path ++ ["run_" +:+ strftime d])%list.
Proof. rewrite joinpath_run. reflexivity. Qed.

Lemma fnmatch_run (x : string) : Py.fnmatch "run_*" ("run_" +:+ x) = true.
Proof.
  change ("run_" +:+ x) with (String "r" (String "u" (String "n" (String "_" x)))).
  cbn [Py.fnmatch]. 
  replace (Ascii.eqb "r" "*") with false by reflexivity.
  replace (Ascii.eqb "u" "*") with false by reflexivity.
  replace (Ascii.eqb "n" "*") with false by reflexivity.
  replace (Ascii.eqb "_" "*") with false by reflexivity.
  rewrite !Ascii.eqb_refl. simpl andb.
  apply (fnmatch_star x).
Qed.

(** A fresh start in an existing results directory that has no entry of the
    new name appends the run directory and nothing else. *)
Lemma fresh_start_new_run (results_path : Path) (n : Z) (c : option string)
    (w : world) :
  FS.is_dir (fs w) results_path = true ->
  FS.lookup (fs w) (results_path // ("run_" +:+ strftime (now w))) = None ->
  resume_or_start results_path None true n c w
  = (Ok (results_path // ("run_" +:+ strftime (now w)), None, n, 0),
     {| fs := (fs w ++ [(results_path // ("run_" +:+ strftime (now w)), Dir)])%list;
        now := now w |}).
Proof.
  intros Hd Hl. rewrite resume_or_start_fresh.
  assert (Hmk : FS.os_mkdir (fs w) (results_path // ("run_" +:+ strftime (now w)))
                = Ok (fs w ++ [(results_path // ("run_" +:+ strftime (now w)), Dir)])%list).
  { unfold FS.os_mkdir. rewrite Hl, parent_run.
    unfold FS.is_dir in Hd.
    destruct (FS.lookup (fs w) results_path) as [[|]|]; try discriminate. reflexivity. }
  unfold FS.mkdir. rewrite (mkdir_parents_fresh _ _ _ Hmk). reflexivity.
Qed.

Lemma glob_app_new (l : list (Path * node)) (dir p : Path) (pat : string) :
  FS.is_dir l dir = true ->
  FS.is_child dir pat (p, Dir) = true ->
  FS.glob (l ++ [(p, Dir)]) dir pat = (FS.glob l dir pat ++ [p])%list.
Proof.
  intros Hd Hc. unfold FS.glob. rewrite (is_dir_app _ _ _ Hd), Hd.
  rewrite List.filter_app, List.map_app. simpl. rewrite Hc. reflexivity.
Qed.

Lemma insert_sorted_keeps_last {A : Type} (lt : A -> A -> bool) (x new : A)
    (l : list A) :
  lt new x = false ->
  exists l', Py.insert_sorted lt x (l ++ [new]) = (l' ++ [new])%list.
Proof.
  intros H. induction l as [|y l (l' & IH)]; simpl.
  - rewrite H. exists [x]. reflexivity.
  - destruct (lt y x).
    + rewrite IH. exists (y :: l'). reflexivity.
    + exists (x :: y :: l). reflexivity.
Qed.

(** Sorting keeps at the end an element that none of the others exceeds. *)
Lemma sorted_keeps_last {A : Type} (lt : A -> A -> bool) (new : A) (l : list A) :
  Forall (fun x => lt new x = false) l ->
  exists l', Py.sorted lt (l ++ [new]) = (l' ++ [new])%list.
Proof.
  induction 1 as [|x l Hx _ (l' & IH)]; simpl.
  - exists []. reflexivity.
  - rewrite IH. apply insert_sorted_keeps_last, Hx.
Qed.

Lemma latest_run_after_fresh (results_path : Path) (w : world) :
  FS.is_dir (fs w) results_path = true ->
  Forall (fun x => PathLib.ltb (results_path // ("run_" +:+ strftime (now w))) x = false)
    (FS.glob (fs w) results_path "run_*") ->
  latest_run (fs w ++ [(results_path // ("run_" +:+ strftime (now w)), Dir)])
    results_path
  = Ok (results_path // ("run_" +:+ strftime (now w))).
Proof.
  intros Hd Hall. unfold latest_run.
  rewrite glob_app_new; [|exact Hd|].
  - destruct (sorted_keeps_last PathLib.ltb _ _ Hall) as (l' & ->).
    apply index_last_app.
  - unfold FS.is_child. cbn [fst].
    rewrite parts_run, parent_run, joinpath_run, name_snoc, fnmatch_run.
    rewrite bool_decide_eq_true_2 by reflexivity.
    rewrite length_app. simpl.
    replace (List.length (parts results_path) + 1 =? 0)%nat with false; [reflexivity|].
    symmetry. apply Nat.eqb_neq. lia.
Qed.

Lemma parts_checkpoints (p : Path) :
  parts (p // "checkpoints") = (parts p ++ ["checkpoints"])%list.
Proof. reflexivity. Qed.

Lemma keys_empty : keys ∅ = [].
Proof. unfold keys. rewrite dom_empty_L. apply elements_empty. Qed.

(** Without an entry in the checkpoint directory of the latest run the
    resume-last branch has no key to index. *)
Lemma resume_last_no_entries (results_path : Path) (n : Z) (c : option string)
    (w : world) (run : Path) :
  latest_run (fs w) results_path = Ok run ->
  FS.glob (fs w) (run // "checkpoints") "*" = [] ->
  resume_or_start results_path (Some "last") true n c w = (Err IndexError, w).
Proof.
  intros Hrun Hg. rewrite resume_or_start_last, Hrun. simpl bind.
  rewrite Hg. simpl. rewrite keys_empty. reflexivity.
Qed.

(** ** Further properties: fresh start *)

(** X5. A fresh start is idempotent within one clock second: after a
    successful fresh start, another one at the same time returns the same run
    directory and leaves the file system as it is, so two invocations in the
    same second share a run directory. *)
Theorem fresh_start_same_second (results_path : Path) (n n' : Z)
    (c c' : option string) (w w' : world) (t : Path * option Path * Z * Z) :
  resume_or_start results_path None true n c w = (Ok t, w') ->
  t = (results_path // ("run_" +:+ strftime (now w)), None, n, 0)
  /\ resume_or_start results_path None true n' c' w'
     = (Ok (results_path // ("run_" +:+ strftime (now w)), None, n', 0), w').
Proof.
  rewrite resume_or_start_fresh.
  destruct (FS.mkdir (fs w) _) as [l'|e] eqn:E; [|discriminate].
  intros H. inversion H; subst t w'. clear H. split; [reflexivity|].
  destruct (mkdir_parents_ok _ _ _ _ E) as (_ & _ & _ & Hd).
  rewrite resume_or_start_fresh. cbn [fs now].
  unfold FS.mkdir. rewrite (mkdir_parents_existing _ _ _ Hd). reflexivity.
Qed.

Lemma fresh_start_same_second_witness :
  (PathLib.of_string run_0, @None Path, 10, 0)
  = (results0 // ("run_" +:+ strftime (now world_empty)), None, 10, 0)
  /\ resume_or_start results0 None true 3 None world_started
     = (Ok (results0 // ("run_" +:+ strftime (now world_empty)), None, 3, 0),
        world_started).
Proof.
  apply (fresh_start_same_second results0 10 3 None None world_empty world_started
           (PathLib.of_string run_0, None, 10, 0)).
  vm_compute. reflexivity.
Defined.

(** X6. Whatever the file system holds, a fresh start that succeeds leaves
    the run directory in place as a directory, keeps every entry that was
    there, adds directories only, and does not touch the clock; the results
    directory need not exist beforehand. *)
Theorem fresh_start_postcondition (results_path : Path) (n : Z)
    (c : option string) (w w' : world) (t : Path * option Path * Z * Z) :
  resume_or_start results_path None true n c w = (Ok t, w') ->
  FS.is_dir (fs w') (results_path // ("run_" +:+ strftime (now w))) = true
  /\ (forall q m, FS.lookup (fs w) q = Some m -> FS.lookup (fs w') q = Some m)
  /\ (exists added, fs w' = (fs w ++ added)%list
                    /\ Forall (fun e => snd e = Dir) added)
  /\ now w' = now w.
Proof.
  rewrite resume_or_start_fresh.
  destruct (FS.mkdir (fs w) _) as [l'|e] eqn:E; [|discriminate].
  intros H. inversion H; subst t w'. clear H. cbn [fs now].
  destruct (mkdir_parents_ok _ _ _ _ E) as (added & -> & Ha & Hd).
  split; [exact Hd|]. split; [|split; [|reflexivity]].
  - intros q m Hq. apply lookup_app_old, Hq.
  - exists added. split; [reflexivity|].
    eapply Forall_impl; [exact Ha|]. intros e [? _]. assumption.
Qed.

Lemma fresh_start_postcondition_witness :
  FS.is_dir (fs world_started) (results0 // ("run_" +:+ strftime (now world_empty))) = true
  /\ (forall q m, FS.lookup (fs world_empty) q = Some m ->
                  FS.lookup (fs world_started) q = Some m)
  /\ (exists added, fs world_started = (fs world_empty ++ added)%list
                    /\ Forall (fun e => snd e = Dir) added)
  /\ now world_started = now world_empty.
Proof.
  apply (fresh_start_postcondition results0 10 None world_empty world_started
           (PathLib.of_string run_0, None, 10, 0)).
  vm_compute. reflexivity.
Defined.

(** X7. A resume-last that follows a fresh start before any checkpoint is
    written fails: the run just created is picked, it has no [checkpoints]
    directory, and indexing the empty list of epochs raises [IndexError]. *)
Theorem resume_last_right_after_fresh_start (results_path : Path) (n n' : Z)
    (c c' : option string) (w : world) :
  FS.is_dir (fs w) results_path = true ->
  FS.lookup (fs w) (results_path // ("run_" +:+ strftime (now w))) = None ->
  FS.lookup (fs w)
    (results_path // ("run_" +:+ strftime (now w)) // "checkpoints") = None ->
  Forall (fun x => PathLib.ltb (results_path // ("run_" +:+ strftime (now w))) x = false)
    (FS.glob (fs w) results_path "run_*") ->
  let w' := snd (resume_or_start results_path None true n c w) in
  resume_or_start results_path (Some "last") true n' c' w' = (Err IndexError, w').
Proof.
  intros Hd Hl Hck Hall w'. subst w'.
  rewrite (fresh_start_new_run _ _ _ _ Hd Hl). cbn [snd].
  apply (resume_last_no_entries _ _ _ _ (results_path // ("run_" +:+ strftime (now w)))).
  - cbn [fs]. apply latest_run_after_fresh; assumption.
  - cbn [fs]. unfold FS.glob.
    assert (E : FS.is_dir
                  (fs w ++ [(results_path // ("run_" +:+ strftime (now w)), Dir)])
                  (results_path // ("run_" +:+ strftime (now w)) // "checkpoints")
                = false).
    { unfold FS.is_dir, FS.lookup in *.
      destruct (parts (results_path // ("run_" +:+ strftime (now w)) // "checkpoints"))
        eqn:Ep; [discriminate|].
      rewrite (find_app_new _ _ _ Hck). simpl.
      destruct (decide _) as [Heq|]; [|reflexivity].
      exfalso. apply (f_equal (fun p => List.length (parts p))) in Heq.
      cbv beta in Heq. rewrite parts_checkpoints, length_app in Heq.
      cbn [List.length] in Heq. lia. }
    rewrite E. reflexivity.
Qed.

Lemma resume_last_right_after_fresh_start_witness :
  let w' := snd (resume_or_start results0 None true 10 None world_empty) in
  resume_or_start results0 (Some "last") true 10 None w' = (Err IndexError, w').
Proof.
  apply (resume_last_right_after_fresh_start results0 10 10 None None world_empty).
  - vm_compute. reflexivity.
  - vm_compute. reflexivity.
  - vm_compute. reflexivity.
  - replace (FS.glob (fs world_empty) results0 "run_*") with (@nil Path)
      by (vm_compute; reflexivity).
    constructor.
Defined.

(** ** Further properties: resume-last and named checkpoints *)

(** X8. When the latest run holds no checkpoint entry (no [checkpoints]
    directory, or an empty one) resume-last raises [IndexError] and changes
    nothing; an older run that does hold checkpoints is never used instead. *)
Theorem resume_last_without_checkpoints (results_path : Path) (n : Z)
    (c : option string) (w : world) (run : Path) :
  latest_run (fs w) results_path = Ok run ->
  FS.glob (fs w) (run // "checkpoints") "*" = [] ->
  resume_or_start results_path (Some "last") true n c w = (Err IndexError, w).
Proof.
  intros Hrun Hg. rewrite resume_or_start_last, Hrun. cbn [bind].
  rewrite Hg. cbn [epoch_ckpt_from bind]. rewrite keys_empty. reflexivity.
Qed.

(** X9. Resume-last in general: when every entry of the checkpoint
    directory of the latest run yields a number, the start epoch is the
    greatest of these numbers, the checkpoint is the last entry enumerated
    under it (of two entries with the same number the later one is taken),
    and the end epoch is the start epoch plus the requested number. *)
Theorem resume_last_greatest_epoch (results_path : Path) (n : Z)
    (c : option string) (w : world) (run : Path) :
  latest_run (fs w) results_path = Ok run ->
  FS.glob (fs w) (run // "checkpoints") "*" <> [] ->
  Forall (fun x => is_ok (epoch_of_scan x) = true)
    (FS.glob (fs w) (run // "checkpoints") "*") ->
  exists N ckpt,
    resume_or_start results_path (Some "last") true n c w
    = (Ok (run, Some ckpt, N + n, N), w)
    /\ last_at epoch_of_scan N (FS.glob (fs w) (run // "checkpoints") "*") ckpt
    /\ Forall (fun x => exists k, epoch_of_scan x = Ok k /\ k <= N)
         (FS.glob (fs w) (run // "checkpoints") "*").
Proof.
  intros Hrun Hne Hall.
  set (xs := FS.glob (fs w) (run // "checkpoints") "*") in *.
  destruct (epoch_ckpt_from_ok xs ∅ Hall) as (d & Hd).
  assert (Hin : forall x k, x ∈ xs -> epoch_of_scan x = Ok k -> k ∈ keys d).
  { intros x k Hx Hk. apply elem_of_keys.
    destruct (epoch_ckpt_from_lookup xs ∅ d k Hd) as [(y & _ & Hy) | [Hno _]]; [eauto|].
    exfalso. rewrite Forall_forall in Hno. exact (Hno x Hx Hk). }
  assert (Hk0 : keys d <> []).
  { destruct xs as [|x0 xs0] eqn:Exs; [contradiction|].
    inversion Hall as [|? ? H0 _]; subst.
    destruct (epoch_of_scan x0) as [k0|] eqn:E0; [|discriminate].
    intros E. assert (Hm : k0 ∈ keys d) by (apply (Hin x0); [left | exact E0]).
    rewrite E in Hm. inversion Hm. }
  destruct (sorted_last_max (keys d) Hk0) as (N & Hi & HN & Hmax).
  apply elem_of_keys in HN as [ck0 Hck0].
  destruct (epoch_ckpt_from_lookup xs ∅ d N Hd) as [(ckpt & Hlast & Hl) | [_ Hl]].
  2:{ rewrite lookup_empty in Hl. congruence. }
  exists N, ckpt. split; [|split; [exact Hlast|]].
  - rewrite resume_or_start_last, Hrun. simpl bind. fold xs.
    rewrite Hd. simpl bind. rewrite Hi. simpl bind.
    unfold getitem. rewrite Hl. reflexivity.
  - apply Forall_forall. intros x Hx.
    rewrite Forall_forall in Hall. specialize (Hall x Hx).
    destruct (epoch_of_scan x) as [k|] eqn:Ek; [|discriminate].
    exists k. split; [reflexivity|].
    rewrite Forall_forall in Hmax. apply Hmax, (Hin x); [exact Hx | exact Ek].
Qed.

Lemma resume_last_greatest_epoch_witness :
  exists N ckpt,
    resume_or_start results0 (Some "last") true 10 None (world_runs ledger_full)
    = (Ok (PathLib.of_string run_b, Some ckpt, N + 10, N), world_runs ledger_full)
    /\ last_at epoch_of_scan N
         (FS.glob (fs (world_runs ledger_full))
            (PathLib.of_string run_b // "checkpoints") "*") ckpt
    /\ Forall (fun x => exists k, epoch_of_scan x = Ok k /\ k <= N)
         (FS.glob (fs (world_runs ledger_full))
            (PathLib.of_string run_b // "checkpoints") "*").
Proof.
  apply (resume_last_greatest_epoch results0 10 None (world_runs ledger_full)
           (PathLib.of_string run_b)).
  - vm_compute. reflexivity.
  - rewrite glob_ckpts_b. discriminate.
  - rewrite glob_ckpts_b. unfold ckpts_b.
    repeat constructor; vm_compute; reflexivity.
Defined.

Lemma resume_last_without_checkpoints_witness :
  resume_or_start results0 (Some "last") true 10 None world_started
  = (Err IndexError, world_started).
Proof.
  apply (resume_last_without_checkpoints results0 10 None world_started
           (PathLib.of_string run_0));
    vm_compute; reflexivity.
Defined.

Lemma index_singleton_1 {A : Type} (x : A) : Py.index [x] 1 = Err IndexError.
Proof. reflexivity. Qed.

Lemma epoch_of_name_no_marker (p : Path) :
  lacks "=" (PathLib.stem p) = true -> epoch_of_name p = Err IndexError.
Proof.
  intros H. unfold epoch_of_name. rewrite (split_lacks "=" _ H).
  rewrite index_singleton_1. reflexivity.
Qed.

(** X10. A checkpoint named by the caller must carry an [=] in its stem: on
    a name without one, such as [last.ckpt], both the evaluate-only branch
    and the explicit-resume branch raise [IndexError], in every world and
    without touching it. *)
Theorem named_checkpoint_without_marker (s : string) :
  lacks "=" (PathLib.stem (PathLib.of_string s)) = true ->
  (forall results_path resume n w,
      resume_or_start results_path resume false n (Some s) w = (Err IndexError, w))
  /\ (s <> "last" ->
      forall results_path n c w,
        resume_or_start results_path (Some s) true n c w = (Err IndexError, w)).
Proof.
  intros H. split.
  - intros. rewrite resume_or_start_evaluate, (epoch_of_name_no_marker _ H). reflexivity.
  - intros Hs. intros. rewrite (resume_or_start_named _ _ _ _ _ Hs).
    rewrite (epoch_of_name_no_marker _ H). reflexivity.
Qed.

Lemma named_checkpoint_without_marker_witness :
  (forall results_path resume n w,
      resume_or_start results_path resume false n
        (Some (run_b +:+ "/checkpoints/last.ckpt")) w = (Err IndexError, w))
  /\ (run_b +:+ "/checkpoints/last.ckpt" <> "last" ->
      forall results_path n c w,
        resume_or_start results_path (Some (run_b +:+ "/checkpoints/last.ckpt"))
          true n c w = (Err IndexError, w)).
Proof.
  apply (named_checkpoint_without_marker (run_b +:+ "/checkpoints/last.ckpt")).
  vm_compute. reflexivity.
Defined.

(** X11. The shape of every result of [resume_or_start]: a checkpoint is
    returned in every mode but the fresh start; the epoch window has the
    requested length when training and length one when evaluating, whatever
    number of epochs was requested; a fresh start begins at epoch 0; and only
    a fresh start changes the world. *)
Theorem resume_or_start_shape (results_path : Path) (resume : option string)
    (train : bool) (n : Z) (c : option string) (w w' : world)
    (run : Path) (ck : option Path) (mx e0 : Z) :
  resume_or_start results_path resume train n c w = (Ok (run, ck, mx, e0), w') ->
  (ck = None <-> train = true /\ resume = None)
  /\ mx - e0 = (if train then n else 1)
  /\ (train = true -> resume = None -> e0 = 0)
  /\ (train = false \/ resume <> None -> w' = w).
Proof.
  intros H.
  destruct train.
  - destruct resume as [s|].
    + destruct (decide (s = "last")) as [->|Hs].
      * rewrite resume_or_start_last in H.
        destruct (latest_run (fs w) results_path) as [r|]; simpl in H; [|discriminate].
        destruct (epoch_ckpt_from _ _) as [d|]; simpl in H; [|discriminate].
        destruct (Py.index _ _) as [k|]; simpl in H; [|discriminate].
        destruct (getitem d k) as [x|]; simpl in H; [|discriminate].
        inversion H; subst.
        split; [split; [discriminate | intros [_ ?]; discriminate]|].
        split; [lia|]. split; [discriminate | reflexivity].
      * rewrite (resume_or_start_named _ _ _ _ _ Hs) in H.
        destruct (epoch_of_name _) as [k|]; simpl in H; [|discriminate].
        inversion H; subst.
        split; [split; [discriminate | intros [_ ?]; discriminate]|].
        split; [lia|]. split; [discriminate | reflexivity].
    + rewrite resume_or_start_fresh in H.
      destruct (FS.mkdir _ _) as [l'|]; [|discriminate].
      inversion H; subst.
      split; [split; [auto | reflexivity]|].
      split; [lia|]. split; [reflexivity | intros [?|?]; congruence].
  - destruct c as [s|]; [|discriminate].
    rewrite resume_or_start_evaluate in H.
    destruct (epoch_of_name _) as [k|]; simpl in H; [|discriminate].
    inversion H; subst.
    split; [split; [discriminate | intros [? _]; discriminate]|].
    split; [lia|]. split; [discriminate | reflexivity].
Qed.

Lemma resume_or_start_shape_witness :
  let ck := PathLib.of_string (run_b +:+ "/checkpoints/epoch=1.ckpt") in
  (Some ck = None <-> false = true /\ @None string = None)
  /\ 2 - 1 = (if false then 10 else 1)
  /\ (false = true -> @None string = None -> 1 = 0)
  /\ (false = false \/ @None string <> None ->
      world_runs ledger_full = world_runs ledger_full).
Proof.
  apply (resume_or_start_shape results0 None false 10
           (Some (run_b +:+ "/checkpoints/epoch=1.ckpt"))
           (world_runs ledger_full) (world_runs ledger_full)
           (PathLib.of_string run_b)
           (Some (PathLib.of_string (run_b +:+ "/checkpoints/epoch=1.ckpt"))) 2 1).
  vm_compute. reflexivity.
Defined.

(** ** Further properties: the ledger *)

Section LedgerExtras.

Context {F : Type} (float : string -> option F).

Lemma restore_ok_readable (lines : list string) (e0 : Z) (init r : option F) :
  restore_learning_rate float lines e0 init = Ok r ->
  Forall (readable float e0) lines.
Proof.
  revert init. induction lines as [|line lines IH]; intros init H; [constructor|].
  rewrite restore_learning_rate_cons in H.
  destruct (ledger_epoch line) as [k|] eqn:Ek; [|discriminate].
  destruct (Z.eqb_spec k e0) as [->|Hne].
  - destruct (ledger_entry float line) as [[k' v]|] eqn:Ee; [|discriminate].
    constructor; [|eapply IH; exact H].
    exists e0. split; [exact Ek|]. intros _. exists v.
    pose proof (ledger_entry_epoch float _ _ _ Ee). congruence.
  - constructor; [|eapply IH; exact H].
    exists k. split; [exact Ek | intros; contradiction].
Qed.

Lemma restore_readable_ok (lines : list string) (e0 : Z) (init : option F) :
  Forall (readable float e0) lines ->
  exists r, restore_learning_rate float lines e0 init = Ok r.
Proof.
  intros H. revert init. induction H as [|line lines (k & Hk & Hv) _ IH]; intros init.
  - exists init. reflexivity.
  - rewrite restore_learning_rate_cons, Hk.
    destruct (Z.eqb_spec k e0) as [->|Hne]; [|apply IH].
    destruct (Hv eq_refl) as (v & ->). apply IH.
Qed.

Lemma restore_err_kind (lines : list string) (e0 : Z) (init : option F) (e : exn) :
  restore_learning_rate float lines e0 init = Err e ->
  e = ValueError \/ e = IndexError.
Proof.
  revert init. induction lines as [|line lines IH]; intros init H; [discriminate|].
  simpl in H.
  destruct (Py.index (Py.split ": " (Py.strip line)) 0) as [f|e1] eqn:E0; simpl in H.
  2:{ destruct (index_split_0 ": " (Py.strip line)) as (f & Hf). congruence. }
  destruct (Py.int f) as [k|e1] eqn:Ei; simpl in H.
  2:{ apply int_err in Ei. left. congruence. }
  destruct (k =? e0); [|eapply IH; exact H].
  destruct (Py.index (Py.split ": " (Py.strip line)) 1) as [g|e1] eqn:E1; simpl in H.
  2:{ unfold Py.index in E1. right.
      destruct (_ || _); [congruence|]. destruct (nth_error _ _); congruence. }
  unfold py_float in H. destruct (float g); simpl in H; [eapply IH; exact H|].
  left. congruence.
Qed.

(** X12. The ledger is read all or nothing: the loop of [main] gets to the
    end of [lrs.txt] exactly when every line has an integer before the first
    colon-space and every line of the epoch looked for has a float after it.
    One line that is not of this form, a blank line for instance, wherever
    it stands, makes the loop raise, and what it raises is [ValueError] or
    [IndexError]. *)
Theorem ledger_read_all_or_nothing (lines : list string) (e0 : Z)
    (init : option F) :
  (is_ok (restore_learning_rate float lines e0 init) = true
   <-> Forall (readable float e0) lines)
  /\ (forall e, restore_learning_rate float lines e0 init = Err e ->
                e = ValueError \/ e = IndexError).
Proof.
  split; [split|].
  - destruct (restore_learning_rate float lines e0 init) as [r|] eqn:E; [|discriminate].
    intros _. exact (restore_ok_readable _ _ _ _ E).
  - intros H. destruct (restore_readable_ok lines e0 init H) as (r & ->). reflexivity.
  - apply restore_err_kind.
Qed.

(** X13. When the ledger is read at all (a model whose branch restores the
    learning rate, a resume argument given), the resolution yields a plan
    exactly when the ledger is readable throughout and has a line for the
    start epoch. *)
Theorem ledger_resolution_succeeds_iff (results_path : Path) (a : args)
    (w w' : world) (run : Path) (ck : option Path) (mx e0 : Z)
    (lines : list string) :
  negb (train a) && is_none (load_checkpoint a) = false ->
  resume a <> None -> restores_lr (model_name a) = true ->
  resume_or_start results_path (resume a) (train a) (num_epochs a)
    (load_checkpoint a) w = (Ok (run, ck, mx, e0), w') ->
  FS.read_lines (fs w') (run // "lrs.txt") = Ok lines ->
  (is_ok (fst (main_resolve float results_path a w)) = true
   <-> Forall (readable float e0) lines
       /\ Exists (fun l => ledger_epoch l = Ok e0) lines).
Proof.
  intros Hc Hr Hm Hres Hl.
  rewrite (main_resolve_step float _ _ _ _ _ Hc Hres). cbn [fst bind].
  rewrite (dispatch_restores float _ _ _ Hm). unfold with_ledger.
  destruct (resume a) as [s|]; [|congruence].
  rewrite Hl. cbn [bind]. split.
  - destruct (restore_learning_rate float lines e0 None) as [[v|]|] eqn:E;
      try discriminate.
    intros _. split; [exact (restore_ok_readable _ _ _ _ E)|].
    destruct (restore_sound float lines e0 None v E)
      as [(line & (pre & post & -> & Hline & _) & _) | [? _]]; [|discriminate].
    apply Exists_app. right. left. exact Hline.
  - intros [Hall Hex].
    destruct (exists_last_at ledger_epoch e0 lines)
      as (line & pre & post & -> & Hline & Hpost).
    { apply Exists_exists in Hex. exact Hex. }
    apply Forall_app in Hall as [Hpre Hrest].
    inversion Hrest as [|? ? (k & Hk & Hv) Hpost']; subst.
    assert (k = e0) by congruence. subst k.
    destruct (Hv eq_refl) as (v & Hent).
    rewrite (restore_last float pre post line e0 v None Hpre Hent); [reflexivity|].
    apply Forall_forall. intros l Hin.
    rewrite Forall_forall in Hpost'. destruct (Hpost' l Hin) as (k & Hk' & _).
    exists k. split; [exact Hk'|]. intros ->.
    rewrite Forall_forall in Hpost. exact (Hpost l Hin Hk').
Qed.

(** X14. The model tempcnn cannot be resolved: whatever the arguments and
    the world, its branch of [main] ends in an error, and on a fresh start in
    an existing results directory that error is the [AttributeError] of
    [args.window_len], raised after the run directory has been created. *)
Theorem tempcnn_never_resolves (results_path : Path) (a : args) (w : world) :
  model_name a = tempcnn ->
  is_ok (fst (main_resolve float results_path a w)) = false
  /\ (train a = true -> resume a = None ->
      FS.is_dir (fs w) results_path = true ->
      FS.lookup (fs w) (results_path // ("run_" +:+ strftime (now w))) = None ->
      main_resolve float results_path a w
      = (Err AttributeError,
         {| fs := (fs w ++ [(results_path // ("run_" +:+ strftime (now w)), Dir)])%list;
            now := now w |})).
Proof.
  intros Hm. split.
  - unfold main_resolve.
    destruct (negb (train a) && is_none (load_checkpoint a)); [reflexivity|].
    destruct (resume_or_start _ _ _ _ _ _) as [[t|e] w1]; [|reflexivity].
    cbn [fst bind]. unfold dispatch. rewrite Hm. reflexivity.
  - intros Ht Hr Hd Hl.
    assert (Hc : negb (train a) && is_none (load_checkpoint a) = false)
      by (rewrite Ht; reflexivity).
    assert (Hres : resume_or_start results_path (resume a) (train a) (num_epochs a)
                     (load_checkpoint a) w
                   = (Ok (results_path // ("run_" +:+ strftime (now w)), None,
                          num_epochs a, 0),
                      {| fs := (fs w ++ [(results_path // ("run_" +:+ strftime (now w)),
                                          Dir)])%list;
                         now := now w |}))
      by (rewrite Ht, Hr; apply fresh_start_new_run; assumption).
    rewrite (main_resolve_step float _ _ _ _ _ Hc Hres). cbn [bind].
    unfold dispatch. rewrite Hm. reflexivity.
Qed.

End LedgerExtras.

Lemma ledger_resolution_succeeds_iff_witness :
  is_ok (fst (main_resolve float_text results0 (args0 unet true (Some "last") None)
                (world_runs ledger_full))) = true
  <-> Forall (readable float_text 1) ledger_full
      /\ Exists (fun l => ledger_epoch l = Ok 1) ledger_full.
Proof.
  apply (ledger_resolution_succeeds_iff float_text results0
           (args0 unet true (Some "last") None)
           (world_runs ledger_full) (world_runs ledger_full)
           (PathLib.of_string run_b)
           (Some (PathLib.of_string (run_b +:+ "/checkpoints/epoch=1.ckpt"))) 11 1
           ledger_full).
  - reflexivity.
  - discriminate.
  - reflexivity.
  - vm_compute. reflexivity.
  - vm_compute. reflexivity.
Defined.

Lemma tempcnn_never_resolves_witness :
  is_ok (fst (main_resolve float_text results0 (args0 tempcnn true None None)
                world_empty)) = false
  /\ (train (args0 tempcnn true None None) = true ->
      resume (args0 tempcnn true None None) = None ->
      FS.is_dir (fs world_empty) results0 = true ->
      FS.lookup (fs world_empty)
        (results0 // ("run_" +:+ strftime (now world_empty))) = None ->
      main_resolve float_text results0 (args0 tempcnn true None None) world_empty
      = (Err AttributeError,
         {| fs := (fs world_empty
                   ++ [(results0 // ("run_" +:+ strftime (now world_empty)), Dir)])%list;
            now := now world_empty |})).
Proof.
  apply (tempcnn_never_resolves float_text results0 (args0 tempcnn true None None)
           world_empty).
  reflexivity.
Defined.

(** ** Facts about the order of paths *)

Lemma ascii_compare_refl (a : ascii) : Ascii.compare a a = Eq.
Proof. unfold Ascii.compare. apply N.compare_refl. Qed.

Lemma ascii_compare_lt_trans (a b c : ascii) :
  Ascii.compare a b = Lt -> Ascii.compare b c = Lt -> Ascii.compare a c = Lt.
Proof.
  unfold Ascii.compare. rewrite !N.compare_lt_iff. lia.
Qed.

Lemma string_compare_refl (s : string) : String.compare s s = Eq.
Proof.
  induction s as [|c s IH]; [reflexivity|].
  simpl. rewrite ascii_compare_refl. exact IH.
Qed.

Lemma string_compare_lt_trans (a b c : string) :
  String.compare a b = Lt -> String.compare b c = Lt -> String.compare a c = Lt.
Proof.
  revert b c. induction a as [|x a IH]; intros [|y b] [|z c]; simpl;
    try discriminate; try reflexivity.
  destruct (Ascii.compare x y) eqn:Exy; try discriminate;
    destruct (Ascii.compare y z) eqn:Eyz; try discriminate; intros H1 H2.
  - apply Ascii.compare_eq_iff in Exy, Eyz. subst.
    rewrite ascii_compare_refl. eapply IH; eassumption.
  - apply Ascii.compare_eq_iff in Exy. subst. rewrite Eyz. reflexivity.
  - apply Ascii.compare_eq_iff in Eyz. subst. rewrite Exy. reflexivity.
  - rewrite (ascii_compare_lt_trans _ _ _ Exy Eyz). reflexivity.
Qed.

Lemma string_ltb_irrefl (s : string) : String.ltb s s = false.
Proof. unfold String.ltb. rewrite string_compare_refl. reflexivity. Qed.

Lemma string_ltb_trans (a b c : string) :
  String.ltb a b = true -> String.ltb b c = true -> String.ltb a c = true.
Proof.
  unfold String.ltb.
  destruct (String.compare a b) eqn:E1; try discriminate.
  destruct (String.compare b c) eqn:E2; try discriminate.
  intros _ _. rewrite (string_compare_lt_trans _ _ _ E1 E2). reflexivity.
Qed.

Lemma string_ltb_total (a b : string) :
  String.ltb a b = false -> String.ltb b a = false -> a = b.
Proof.
  unfold String.ltb. rewrite (String.compare_antisym b a).
  destruct (String.compare a b) eqn:E; simpl; try discriminate.
  intros _ _. apply String.compare_eq_iff, E.
Qed.

Lemma list_ltb_irrefl (l : list string) : PathLib.list_ltb l l = false.
Proof.
  induction l as [|a l IH]; [reflexivity|].
  simpl. rewrite string_ltb_irrefl, String.eqb_refl. exact IH.
Qed.

Lemma list_ltb_trans (a b c : list string) :
  PathLib.list_ltb a b = true -> PathLib.list_ltb b c = true ->
  PathLib.list_ltb a c = true.
Proof.
  revert b c. induction a as [|x a IH]; intros [|y b] [|z c]; simpl;
    try discriminate; try reflexivity.
  destruct (String.ltb x y) eqn:Exy.
  - intros _. destruct (String.ltb y z) eqn:Eyz.
    + intros _. rewrite (string_ltb_trans _ _ _ Exy Eyz). reflexivity.
    + destruct (String.eqb_spec y z) as [->|]; [|discriminate].
      intros _. rewrite Exy. reflexivity.
  - destruct (String.eqb_spec x y) as [->|]; [|discriminate].
    intros Hab. destruct (String.ltb y z); [reflexivity|].
    destruct (String.eqb y z); [|discriminate].
    apply IH, Hab.
Qed.

Lemma list_ltb_total (a b : list string) :
  PathLib.list_ltb a b = false -> PathLib.list_ltb b a = false -> a = b.
Proof.
  revert b. induction a as [|x a IH]; intros [|y b]; simpl;
    try discriminate; try reflexivity.
  destruct (String.ltb x y) eqn:Exy; [discriminate|].
  destruct (String.ltb y x) eqn:Eyx; [discriminate|].
  pose proof (string_ltb_total _ _ Exy Eyx). subst y.
  rewrite String.eqb_refl. intros H1 H2. f_equal. apply IH; assumption.
Qed.

(** Sorting with a strict order whose incomparable elements are
    interchangeable puts a greatest element last. *)
Section SortedMax.

Context {A : Type} (lt : A -> A -> bool).
Hypothesis lt_irrefl : forall x, lt x x = false.
Hypothesis lt_trans : forall x y z, lt x y = true -> lt y z = true -> lt x z = true.
Hypothesis lt_equiv : forall x y z,
    lt x y = false -> lt y x = false -> lt z x = lt z y.

Lemma insert_sorted_strongly (x : A) (l : list A) :
  StronglySorted (fun a b => lt b a = false) l ->
  StronglySorted (fun a b => lt b a = false) (Py.insert_sorted lt x l).
Proof.
  induction 1 as [|y l Hs IH Hall]; simpl.
  - repeat constructor.
  - destruct (lt y x) eqn:Eyx.
    + constructor; [exact IH|].
      rewrite insert_sorted_perm. constructor; [|exact Hall].
      destruct (lt x y) eqn:Exy; [|reflexivity].
      rewrite <- (lt_irrefl y). symmetry. eapply lt_trans; eassumption.
    + constructor; [constructor; assumption|].
      constructor; [exact Eyx|].
      eapply Forall_impl; [exact Hall|]. intros z Hz. simpl in Hz.
      destruct (lt z x) eqn:Ezx; [|reflexivity].
      destruct (lt x y) eqn:Exy.
      * rewrite <- Hz. symmetry. eapply lt_trans; eassumption.
      * rewrite (lt_equiv x y z Exy Eyx) in Ezx. congruence.
Qed.

Lemma sorted_strongly (l : list A) :
  StronglySorted (fun a b => lt b a = false) (Py.sorted lt l).
Proof.
  induction l; simpl; [constructor | apply insert_sorted_strongly; assumption].
Qed.

Lemma strongly_sorted_last (l : list A) (m : A) :
  StronglySorted (fun a b => lt b a = false) (l ++ [m]) ->
  Forall (fun x => lt m x = false) (l ++ [m]).
Proof.
  induction l as [|y l IH]; simpl; intros H.
  - repeat constructor. apply lt_irrefl.
  - apply StronglySorted_inv in H as [Hs Hall].
    constructor; [|apply IH; exact Hs].
    rewrite Forall_app in Hall. destruct Hall as [_ Hm].
    inversion Hm; subst. assumption.
Qed.

Lemma sorted_last_greatest (l : list A) :
  l <> [] ->
  exists m, Py.index (Py.sorted lt l) (-1) = Ok m
            /\ m ∈ l /\ Forall (fun x => lt m x = false) l.
Proof.
  intros Hne.
  assert (Hne' : Py.sorted lt l <> []).
  { intros E. apply Hne. apply Permutation_nil_r. rewrite <- E.
    symmetry. apply sorted_perm. }
  destruct (index_last_ok _ Hne') as (l' & m & El & Ei).
  exists m. split; [exact Ei|].
  pose proof (sorted_perm lt l) as Hp. rewrite El in Hp.
  split.
  - rewrite <- Hp. set_solver.
  - rewrite <- Hp. apply strongly_sorted_last. rewrite <- El. apply sorted_strongly.
Qed.

End SortedMax.

Lemma path_ltb_irrefl (p : Path) : PathLib.ltb p p = false.
Proof. apply list_ltb_irrefl. Qed.

Lemma path_ltb_trans (p q r : Path) :
  PathLib.ltb p q = true -> PathLib.ltb q r = true -> PathLib.ltb p r = true.
Proof. apply list_ltb_trans. Qed.

Lemma path_ltb_equiv (p q r : Path) :
  PathLib.ltb p q = false -> PathLib.ltb q p = false ->
  PathLib.ltb r p = PathLib.ltb r q.
Proof.
  unfold PathLib.ltb. intros H1 H2. rewrite (list_ltb_total _ _ H1 H2). reflexivity.
Qed.

Lemma elem_of_glob (l : list (Path * node)) (dir : Path) (pat : string) (x : Path) :
  x ∈ FS.glob l dir pat ->
  PathLib.parent x = dir /\ parts x <> [] /\ Py.fnmatch pat (PathLib.name x) = true.
Proof.
  unfold FS.glob. destruct (FS.is_dir l dir); [|intros H; inversion H].
  intros H. apply list_elem_of_In, in_map_iff in H as ([p n] & <- & Hin).
  apply filter_In in Hin as [_ Hc]. unfold FS.is_child in Hc. simpl in *.
  apply andb_true_iff in Hc as [Hc Hf]. apply andb_true_iff in Hc as [Hn Hp].
  apply bool_decide_eq_true in Hp.
  split; [exact Hp|]. split; [|exact Hf].
  intros E. rewrite E in Hn. discriminate.
Qed.

(** Two entries of one directory that compare equal are the same path. *)
Lemma siblings_equal (x y : Path) :
  PathLib.parent x = PathLib.parent y -> parts x <> [] -> parts y <> [] ->
  PathLib.ltb x y = false -> PathLib.ltb y x = false -> x = y.
Proof.
  intros Hp Hx Hy H1 H2.
  pose proof (list_ltb_total _ _ H1 H2) as Hc.
  assert (Hr : root x = root y).
  { apply (f_equal root) in Hp. exact Hp. }
  destruct x as [rx px], y as [ry py]. simpl in *. subst ry.
  unfold PathLib.cparts in Hc. simpl in Hc.
  destruct (Py.is_empty rx); [congruence|]. inversion Hc. reflexivity.
Qed.

(** Siblings compare as their names do. *)
Lemma list_ltb_common_prefix (pre : list string) (a b : string) :
  PathLib.list_ltb (pre ++ [a]) (pre ++ [b]) = String.ltb a b.
Proof.
  induction pre as [|c pre IH]; simpl.
  - destruct (String.ltb a b); [reflexivity|]. destruct (String.eqb a b); reflexivity.
  - rewrite string_ltb_irrefl, String.eqb_refl. exact IH.
Qed.

Lemma cparts_parent_name (x : Path) :
  parts x <> [] ->
  PathLib.cparts x = (PathLib.cparts (PathLib.parent x) ++ [PathLib.name x])%list.
Proof.
  intros H. unfold PathLib.cparts, PathLib.parent, PathLib.name. simpl.
  destruct (Py.is_empty (root x)); simpl;
    [|f_equal]; apply app_removelast_last; exact H.
Qed.

Lemma siblings_ltb (x y : Path) :
  PathLib.parent x = PathLib.parent y -> parts x <> [] -> parts y <> [] ->
  PathLib.ltb x y = String.ltb (PathLib.name x) (PathLib.name y).
Proof.
  intros Hp Hx Hy. unfold PathLib.ltb.
  rewrite (cparts_parent_name x Hx), (cparts_parent_name y Hy), Hp.
  apply list_ltb_common_prefix.
Qed.

(** ** Further properties: the latest run *)

(** X15. The run that resume-last picks is the entry of the results
    directory matching [run_*] whose name is greatest in the order of
    strings by code points: no other such entry has a greater name. *)
Theorem latest_run_greatest_name (l : list (Path * node)) (results_path run : Path) :
  latest_run l results_path = Ok run ->
  run ∈ FS.glob l results_path "run_*"
  /\ Forall (fun x => String.ltb (PathLib.name run) (PathLib.name x) = false)
       (FS.glob l results_path "run_*").
Proof.
  unfold latest_run. intros H.
  destruct (FS.glob l results_path "run_*") as [|x0 xs] eqn:Eg.
  { simpl in H. rewrite index_nil in H. discriminate. }
  destruct (sorted_last_greatest PathLib.ltb path_ltb_irrefl path_ltb_trans
              path_ltb_equiv (x0 :: xs)) as (m & Hi & Hm & Hall); [discriminate|].
  rewrite Hi in H. inversion H; subst m. split; [exact Hm|].
  apply Forall_forall. intros x Hx.
  rewrite Forall_forall in Hall. specialize (Hall x Hx).
  rewrite <- Eg in Hm, Hx.
  apply elem_of_glob in Hm as (Hp1 & Hn1 & _).
  apply elem_of_glob in Hx as (Hp2 & Hn2 & _).
  rewrite <- (siblings_ltb run x); [exact Hall | congruence | exact Hn1 | exact Hn2].
Qed.

Lemma latest_run_greatest_name_witness :
  PathLib.of_string run_b ∈ FS.glob (fs (world_runs ledger_full)) results0 "run_*"
  /\ Forall (fun x => String.ltb (PathLib.name (PathLib.of_string run_b))
                        (PathLib.name x) = false)
       (FS.glob (fs (world_runs ledger_full)) results0 "run_*").
Proof.
  apply (latest_run_greatest_name (fs (world_runs ledger_full)) results0
           (PathLib.of_string run_b)).
  vm_compute. reflexivity.
Defined.

(** X16. The latest run does not depend on the order in which the file
    system enumerates the results directory: two listings that hold the same
    [run_*] entries in different orders give the same latest run, or both
    give [IndexError]. *)
Theorem latest_run_listing_order (l l' : list (Path * node)) (results_path : Path) :
  FS.glob l results_path "run_*" ≡ₚ FS.glob l' results_path "run_*" ->
  latest_run l results_path = latest_run l' results_path.
Proof.
  intros Hp. unfold latest_run.
  destruct (FS.glob l results_path "run_*") as [|x0 xs] eqn:Eg.
  { apply Permutation_nil_l in Hp. rewrite Hp. reflexivity. }
  destruct (FS.glob l' results_path "run_*") as [|y0 ys] eqn:Eg'.
  { apply Permutation_nil_r in Hp. discriminate. }
  destruct (sorted_last_greatest PathLib.ltb path_ltb_irrefl path_ltb_trans
              path_ltb_equiv (x0 :: xs)) as (m & Hi & Hm & Hall); [discriminate|].
  destruct (sorted_last_greatest PathLib.ltb path_ltb_irrefl path_ltb_trans
              path_ltb_equiv (y0 :: ys)) as (m' & Hi' & Hm' & Hall'); [discriminate|].
  rewrite Hi, Hi'. f_equal.
  rewrite Forall_forall in Hall, Hall'.
  assert (H1 : PathLib.ltb m m' = false) by (apply Hall; rewrite Hp; exact Hm').
  assert (H2 : PathLib.ltb m' m = false) by (apply Hall'; rewrite <- Hp; exact Hm).
  rewrite <- Eg in Hm. rewrite <- Eg' in Hm'.
  apply elem_of_glob in Hm as (Hq1 & Hn1 & _).
  apply elem_of_glob in Hm' as (Hq2 & Hn2 & _).
  apply siblings_equal; congruence.
Qed.

Lemma latest_run_listing_order_witness :
  latest_run (fs (world_runs ledger_full)) results0
  = latest_run [(results0, Dir); (PathLib.of_string run_a, Dir);
                (PathLib.of_string run_b, Dir)] results0.
Proof.
  apply (latest_run_listing_order (fs (world_runs ledger_full))
           [(results0, Dir); (PathLib.of_string run_a, Dir);
            (PathLib.of_string run_b, Dir)] results0).
  replace (FS.glob (fs (world_runs ledger_full)) results0 "run_*")
    with [PathLib.of_string run_b; PathLib.of_string run_a]
    by (vm_compute; reflexivity).
  replace (FS.glob [(results0, Dir); (PathLib.of_string run_a, Dir);
                    (PathLib.of_string run_b, Dir)] results0 "run_*")
    with [PathLib.of_string run_a; PathLib.of_string run_b]
    by (vm_compute; reflexivity).
  apply Permutation_swap.
Defined.

(** ** Facts about the directories of [main] *)

Lemma not_sep_first (c : ascii) (s : string) :
  Ascii.eqb c "/" = false ->
  PathLib.splitroot (String c s) = EmptyString
  /\ PathLib.lstrip_sep (String c s) = String c s.
Proof.
  destruct c as [[] [] [] [] [] [] [] []]; intros H; try discriminate H;
    split; reflexivity.
Qed.

Lemma digit_char_not_dot (n : nat) : Ascii.eqb (digit_char n) "." = false.
Proof.
  unfold digit_char.
  pose proof (Nat.mod_upper_bound n 10 ltac:(lia)) as H.
  destruct (n mod 10)%nat as [|k]; [reflexivity|].
  do 9 (destruct k as [|k]; [reflexivity|]). lia.
Qed.

(** [Path] of a time stamp has the time stamp as its one component. *)
Lemma of_string_strftime (d : datetime) :
  PathLib.of_string (strftime d)
  = {| root := EmptyString; parts := [strftime d] |}.
Proof.
  pose proof (strftime_lacks_sep d) as Hl.
  unfold PathLib.of_string.
  assert (E : exists c r, strftime d = String c r /\ c = digit_char (year d / 1000)).
  { unfold strftime, four_digits. cbn [String.append]. eauto. }
  destruct E as (c & r & E & Hc). rewrite E in *.
  destruct (not_sep_first c r) as [-> ->].
  { subst c. apply digit_char_not_sep. }
  rewrite (split_lacks "/" _ Hl). cbn [List.filter].
  unfold PathLib.keep_part. cbn [Py.is_empty negb andb String.eqb].
  subst c. rewrite digit_char_not_dot. reflexivity.
Qed.

Lemma parts_results (m : model) (d : datetime) :
  parts (PathLib.of_string "logs" // model_str m // strftime d)
  = ["logs"; model_str m; strftime d].
Proof.
  unfold PathLib.joinpath at 1. rewrite of_string_strftime. cbn [root Py.is_empty parts].
  destruct m; reflexivity.
Qed.

Lemma mkdir_parents_err (n : nat) (l : list (Path * node)) (p : Path) (e : exn) :
  FS.mkdir_parents n l p = Err e ->
  e = FileExistsError \/ e = NotADirectoryError \/ e = FileNotFoundError.
Proof.
  assert (Hos : forall l p e, FS.os_mkdir l p = Err e ->
            e = FileExistsError \/ e = NotADirectoryError \/ e = FileNotFoundError).
  { intros l0 p0 e0. unfold FS.os_mkdir.
    destruct (FS.lookup l0 p0); [intros H; inversion H; auto|].
    destruct (FS.lookup l0 (PathLib.parent p0)) as [[|c]|]; intros H; inversion H; auto. }
  revert l p e. induction n as [|k IH]; intros l p e H; simpl in H.
  - destruct (FS.os_mkdir l p) as [l1|e1] eqn:E; [discriminate|].
    pose proof (Hos _ _ _ E) as Hk.
    destruct e1; try (destruct (FS.is_dir l p); [discriminate|]; inversion H; subst; exact Hk).
    inversion H. auto.
  - destruct (FS.os_mkdir l p) as [l1|e1] eqn:E; [discriminate|].
    pose proof (Hos _ _ _ E) as Hk.
    destruct e1; try (destruct (FS.is_dir l p); [discriminate|]; inversion H; subst; exact Hk).
    destruct (FS.mkdir_parents k l (PathLib.parent p)) as [l1|e1] eqn:Ep; simpl in H.
    + unfold FS.mkdir_exist_ok in H.
      destruct (FS.os_mkdir l1 p) as [l2|e2] eqn:E2; [discriminate|].
      destruct (FS.is_dir l1 p); [discriminate|]. inversion H; subst.
      exact (Hos _ _ _ E2).
    + inversion H; subst. exact (IH _ _ _ Ep).
Qed.

(** Entries no deeper than a directory are not its children. *)
Lemma length_removelast_cons {A} (x : A) (l : list A) :
  List.length (removelast (x :: l)) = List.length l.
Proof.
  revert x. induction l as [|y l IH]; intros x; [reflexivity|].
  change (removelast (x :: y :: l)) with (x :: removelast (y :: l)).
  cbn [List.length]. rewrite IH. reflexivity.
Qed.

Lemma not_child_shallow (dir : Path) (pat : string) (e : Path * node) :
  (List.length (parts (fst e)) <= List.length (parts dir))%nat ->
  FS.is_child dir pat e = false.
Proof.
  destruct e as [p n]. cbn [fst]. intros H. unfold FS.is_child. cbn [fst].
  destruct (parts p) as [|x l] eqn:Ep; [reflexivity|].
  rewrite bool_decide_eq_false_2; [rewrite andb_false_r; reflexivity|].
  intros Hpar. apply (f_equal (fun q => List.length (parts q))) in Hpar.
  unfold PathLib.parent in Hpar. cbn [parts] in Hpar. rewrite Ep in Hpar.
  rewrite length_removelast_cons in Hpar. cbn [List.length] in H. lia.
Qed.

Lemma glob_nil_of_filter (l : list (Path * node)) (dir : Path) (pat : string) :
  List.filter (FS.is_child dir pat) l = [] -> FS.glob l dir pat = [].
Proof. intros H. unfold FS.glob. rewrite H. destruct (FS.is_dir l dir); reflexivity. Qed.

Lemma filter_nil_app_shallow (l added : list (Path * node)) (dir : Path) (pat : string) :
  List.filter (FS.is_child dir pat) l = [] ->
  Forall (fun e => (List.length (parts (fst e)) <= List.length (parts dir))%nat) added ->
  List.filter (FS.is_child dir pat) (l ++ added) = [].
Proof.
  intros Hl Ha. rewrite List.filter_app, Hl. simpl.
  induction Ha as [|e added He _ IH]; [reflexivity|].
  simpl. rewrite (not_child_shallow dir pat e He). exact IH.
Qed.

Lemma glob_no_runs_after_mkdir (l l' : list (Path * node)) (dir p : Path)
    (pat : string) :
  List.filter (FS.is_child dir pat) l = [] ->
  (List.length (parts p) <= List.length (parts dir))%nat ->
  FS.mkdir l p = Ok l' ->
  List.filter (FS.is_child dir pat) l' = [].
Proof.
  intros Hl Hp Hm. unfold FS.mkdir in Hm.
  apply mkdir_parents_ok in Hm as (added & -> & Ha & _).
  apply filter_nil_app_shallow; [exact Hl|].
  eapply Forall_impl; [exact Ha|]. intros e [_ He]. simpl. lia.
Qed.

Lemma check_img_size_err (img_size : option (list string)) (e : exn) :
  check_img_size img_size = Err e -> e = SystemExit 1.
Proof.
  unfold check_img_size. destruct img_size as [l|]; [|discriminate].
  destruct (map_int l); [discriminate|]. intros H. inversion H. reflexivity.
Qed.

Section MainExtras.

Context {F : Type} (float : string -> option F) (tables : result unit).

(** X17. Without a work directory the prefix is the time stamp of the
    present second, so [--resume last] can only find runs that already lie
    under [logs/<model>/<time stamp>]: when the file system holds no such
    [run_*] entry, [main] never gets to a plan.  It ends in [IndexError],
    unless it has failed before on the image size, on a directory it could
    not create or on the class tables. *)
Theorem main_resume_last_needs_work_dir (img_size : option (list string))
    (a : args) (later : datetime) (w : world) :
  train a = true ->
  resume a = Some "last" ->
  List.filter
    (FS.is_child
       (PathLib.of_string "logs" // model_str (model_name a) // strftime (now w))
       "run_*") (fs w) = [] ->
  exists e,
    fst (main float tables None img_size a later w) = Err e
    /\ (e = IndexError \/ e = SystemExit 1 \/ tables = Err e
        \/ e = FileExistsError \/ e = NotADirectoryError \/ e = FileNotFoundError).
Proof.
  intros Ht Hr Hno. unfold main. rewrite Ht. cbn [negb andb].
  destruct (check_img_size img_size) as [sz|e] eqn:Ei.
  2:{ exists e. split; [reflexivity|]. apply check_img_size_err in Ei. auto. }
  set (results := PathLib.of_string "logs" // model_str (model_name a)
                  // strftime (now w)) in *.
  assert (Hparts : List.length (parts results) = 3%nat).
  { unfold results. rewrite parts_results. reflexivity. }
  destruct (FS.mkdir (fs w) (PathLib.of_string "logs")) as [l1|e] eqn:E1.
  2:{ exists e. split; [reflexivity|].
      apply mkdir_parents_err in E1. tauto. }
  assert (H1 : List.filter (FS.is_child results "run_*") l1 = []).
  { apply (glob_no_runs_after_mkdir (fs w) l1 results (PathLib.of_string "logs")
             "run_*" Hno); [|exact E1].
    rewrite Hparts. vm_compute. lia. }
  destruct (FS.mkdir l1 (PathLib.of_string "logs" // "loaders")) as [l2|e] eqn:E2.
  2:{ exists e. split; [reflexivity|].
      apply mkdir_parents_err in E2. tauto. }
  assert (H2 : List.filter (FS.is_child results "run_*") l2 = []).
  { apply (glob_no_runs_after_mkdir l1 l2 results
             (PathLib.of_string "logs" // "loaders") "run_*" H1); [|exact E2].
    rewrite Hparts. vm_compute. lia. }
  destruct tables as [u|e] eqn:Etab.
  2:{ exists e. split; [reflexivity|]. auto. }
  unfold main_prefix, create_model_log_path. cbn [fs now].
  fold results.
  destruct (FS.mkdir l2 results) as [l3|e] eqn:E3.
  2:{ exists e. split; [reflexivity|].
      apply mkdir_parents_err in E3. tauto. }
  assert (H3 : List.filter (FS.is_child results "run_*") l3 = []).
  { apply (glob_no_runs_after_mkdir l2 l3 results results "run_*" H2);
      [lia | exact E3]. }
  exists IndexError. split; [|auto].
  rewrite Hr. cbn [fs]. rewrite resume_or_start_last. cbn [fs fst].
  unfold latest_run. rewrite (glob_nil_of_filter _ _ _ H3).
  reflexivity.
Qed.

End MainExtras.

Lemma main_resume_last_needs_work_dir_witness :
  exists e,
    fst (main float_text (Ok tt) None None (args0 unet true (Some "last") None)
           clock0 (world_runs ledger_full)) = Err e
    /\ (e = IndexError \/ e = SystemExit 1 \/ Ok tt = Err e
        \/ e = FileExistsError \/ e = NotADirectoryError \/ e = FileNotFoundError).
Proof.
  apply (main_resume_last_needs_work_dir float_text (Ok tt) None
           (args0 unet true (Some "last") None) clock0 (world_runs ledger_full)).
  - reflexivity.
  - reflexivity.
  - vm_compute. reflexivity.
Defined.

(** ** When [mkdir] succeeds *)









Section MainFresh.

Context {F : Type} (float : string -> option F) (tables : result unit).


End MainFresh.


(** ** Further properties: the data module *)

Section DataModuleFacts.

Context {E I D L X : Type}.
Context (NpyPADDataset : DataModule.dataset_args -> X + D).
Context (DataLoader : DataModule.loader_args D -> X + L).


Lemma setup_fit_inv (s s1 : DataModule.state E I D) :
  DataModule.setup NpyPADDataset (Some "fit") s = (DataModule.Done tt, s1) ->
  exists d1 d2,
    NpyPADDataset (DataModule.args_for s "train" false) = inr d1
    /\ NpyPADDataset (DataModule.args_for s "val" false) = inr d2
    /\ s1 = DataModule.set_eval (DataModule.set_train s d1) d2.
Proof.
  unfold DataModule.setup. rewrite bool_decide_eq_true_2 by reflexivity.
  destruct (NpyPADDataset (DataModule.args_for s "train" false)) as [x|d1] eqn:E1; [discriminate|].
  change (DataModule.args_for (DataModule.set_train s d1) "val" false)
    with (DataModule.args_for s "val" false).
  destruct (NpyPADDataset (DataModule.args_for s "val" false)) as [x|d2] eqn:E2; [discriminate|].
  intros H. inversion H. eauto.
Qed.

Lemma setup_test_inv (s s1 : DataModule.state E I D) :
  DataModule.setup NpyPADDataset (Some "test") s = (DataModule.Done tt, s1) ->
  exists d,
    NpyPADDataset (DataModule.args_for s "test" true) = inr d
    /\ s1 = DataModule.set_test s d.
Proof.
  unfold DataModule.setup. rewrite bool_decide_eq_false_2 by discriminate.
  rewrite bool_decide_eq_true_2 by reflexivity.
  destruct (NpyPADDataset (DataModule.args_for s "test" true)) as [x|d] eqn:E1; [discriminate|].
  intros H. inversion H. eauto.
Qed.

(** X20. [setup] accepts the stages [fit] and [test] only: it raises
    [AssertionError] exactly when the stage is neither, the default [None]
    among the others, and it does so before building any dataset, leaving
    the module as it is.  With one of the two stages, what [setup] raises, if
    anything, is what the dataset raised. *)
Theorem setup_asserts_stage (stage : option string) (s : DataModule.state E I D) :
  (fst (DataModule.setup NpyPADDataset stage s)
   = DataModule.Raise DataModule.AssertionError
   <-> stage <> Some "fit" /\ stage <> Some "test")
  /\ (fst (DataModule.setup NpyPADDataset stage s)
      = DataModule.Raise DataModule.AssertionError ->
      snd (DataModule.setup NpyPADDataset stage s) = s)
  /\ (forall e, fst (DataModule.setup NpyPADDataset stage s) = DataModule.Raise e ->
        e = DataModule.AssertionError
        \/ exists x m o,
             e = DataModule.Raised x
             /\ NpyPADDataset (DataModule.args_for s m o) = inl x).
Proof.
  unfold DataModule.setup.
  destruct (decide (stage = Some "fit")) as [->|Hf].
  - rewrite bool_decide_eq_true_2 by reflexivity.
    destruct (NpyPADDataset (DataModule.args_for s "train" false)) as [x|d1] eqn:E1.
    + cbn [fst snd]. split; [|split].
      * split; [discriminate | intros [H _]; congruence].
      * discriminate.
      * intros e He. inversion He. right. eauto.
    + change (DataModule.args_for (DataModule.set_train s d1) "val" false)
        with (DataModule.args_for s "val" false).
      destruct (NpyPADDataset (DataModule.args_for s "val" false)) as [x|d2] eqn:E2;
        cbn [fst snd]; (split; [|split]);
        try (split; [discriminate | intros [H _]; congruence]);
        try discriminate.
      intros e He. inversion He. right. eauto.
  - rewrite (bool_decide_eq_false_2 _ Hf).
    destruct (decide (stage = Some "test")) as [->|Ht].
    + rewrite bool_decide_eq_true_2 by reflexivity.
      destruct (NpyPADDataset (DataModule.args_for s "test" true)) as [x|d] eqn:E1;
        cbn [fst snd]; (split; [|split]);
        try (split; [discriminate | intros [_ H]; congruence]);
        try discriminate.
      intros e He. inversion He. right. eauto.
    + rewrite (bool_decide_eq_false_2 _ Ht). cbn [fst snd]. split; [|split].
      * split; auto.
      * reflexivity.
      * intros e He. inversion He. left. reflexivity.
Qed.

(** X21. Each loader needs the setup of its own stage: a module that has not
    been set up has no loader at all, [setup('fit')] provides the train and
    validation datasets but leaves the test loader raising
    [AttributeError], and [setup('test')] provides the test dataset but
    leaves the train and validation loaders raising [AttributeError]. *)
Theorem loaders_need_their_setup (s s1 : DataModule.state E I D) :
  DataModule.dataset_train s = None ->
  DataModule.dataset_eval s = None ->
  DataModule.dataset_test s = None ->
  (DataModule.train_dataloader DataLoader s = DataModule.Raise (DataModule.AttributeError "dataset_train")
   /\ DataModule.val_dataloader DataLoader s = DataModule.Raise (DataModule.AttributeError "dataset_eval")
   /\ DataModule.test_dataloader DataLoader s = DataModule.Raise (DataModule.AttributeError "dataset_test"))
  /\ (DataModule.setup NpyPADDataset (Some "fit") s = (DataModule.Done tt, s1) ->
      DataModule.test_dataloader DataLoader s1 = DataModule.Raise (DataModule.AttributeError "dataset_test")
      /\ DataModule.dataset_train s1 <> None
      /\ DataModule.dataset_eval s1 <> None)
  /\ (DataModule.setup NpyPADDataset (Some "test") s = (DataModule.Done tt, s1) ->
      DataModule.train_dataloader DataLoader s1 = DataModule.Raise (DataModule.AttributeError "dataset_train")
      /\ DataModule.val_dataloader DataLoader s1 = DataModule.Raise (DataModule.AttributeError "dataset_eval")
      /\ DataModule.dataset_test s1 <> None).
Proof.
  intros Ht He Hs. split; [|split].
  - unfold DataModule.train_dataloader, DataModule.val_dataloader,
      DataModule.test_dataloader. rewrite Ht, He, Hs. auto.
  - intros H. apply setup_fit_inv in H as (d1 & d2 & _ & _ & ->).
    unfold DataModule.test_dataloader. simpl. rewrite Hs. repeat split; discriminate.
  - intros H. apply setup_test_inv in H as (d & _ & ->).
    unfold DataModule.train_dataloader, DataModule.val_dataloader. simpl.
    rewrite Ht, He. repeat split; discriminate.
Qed.

(** X22. The training path of [main] calls [setup('fit')] and later
    [setup('test')]: when both succeed the module holds all three datasets,
    the second call having kept the first two, and the loaders are built
    from the train dataset with shuffling and from the validation and test
    datasets without, all with the batch size and the number of workers of
    the module and pinned memory. *)
Theorem fit_then_test_keeps_datasets (s s1 s2 : DataModule.state E I D) :
  DataModule.setup NpyPADDataset (Some "fit") s = (DataModule.Done tt, s1) ->
  DataModule.setup NpyPADDataset (Some "test") s1 = (DataModule.Done tt, s2) ->
  exists d1 d2 d3,
    NpyPADDataset (DataModule.args_for s "train" false) = inr d1
    /\ NpyPADDataset (DataModule.args_for s "val" false) = inr d2
    /\ NpyPADDataset (DataModule.args_for s "test" true) = inr d3
    /\ DataModule.dataset_train s2 = Some d1
    /\ DataModule.dataset_eval s2 = Some d2
    /\ DataModule.dataset_test s2 = Some d3
    /\ DataModule.train_dataloader DataLoader s2
       = DataModule.load DataLoader d1 (DataModule.batch_size s) true (DataModule.num_workers s)
    /\ DataModule.val_dataloader DataLoader s2
       = DataModule.load DataLoader d2 (DataModule.batch_size s) false (DataModule.num_workers s)
    /\ DataModule.test_dataloader DataLoader s2
       = DataModule.load DataLoader d3 (DataModule.batch_size s) false (DataModule.num_workers s).
Proof.
  intros H1 H2.
  apply setup_fit_inv in H1 as (d1 & d2 & E1 & E2 & ->).
  apply setup_test_inv in H2 as (d3 & E3 & ->).
  exists d1, d2, d3. repeat split; try assumption; reflexivity.
Qed.

(** X23. A [setup('fit')] that fails on the validation dataset has already
    assigned the train dataset: the exception of the dataset is passed on,
    the train loader can be built afterwards and the validation loader
    cannot. *)
Theorem setup_fit_partial (s : DataModule.state E I D) (d : D) (x : X) :
  DataModule.dataset_eval s = None ->
  NpyPADDataset (DataModule.args_for s "train" false) = inr d ->
  NpyPADDataset (DataModule.args_for s "val" false) = inl x ->
  exists s1,
    DataModule.setup NpyPADDataset (Some "fit") s = (DataModule.Raise (DataModule.Raised x), s1)
    /\ DataModule.dataset_train s1 = Some d
    /\ DataModule.train_dataloader DataLoader s1
       = DataModule.load DataLoader d (DataModule.batch_size s) true (DataModule.num_workers s)
    /\ DataModule.val_dataloader DataLoader s1 = DataModule.Raise (DataModule.AttributeError "dataset_eval").
Proof.
  intros He E1 E2. exists (DataModule.set_train s d).
  unfold DataModule.setup. rewrite bool_decide_eq_true_2 by reflexivity.
  rewrite E1.
  change (DataModule.args_for (DataModule.set_train s d) "val" false)
    with (DataModule.args_for s "val" false).
  rewrite E2. repeat split.
  unfold DataModule.val_dataloader. simpl. rewrite He. reflexivity.
Qed.

(** X24. The datasets do not depend on the label options: two modules that
    agree on the root directory, the band mode, the months, the parcel flag
    and the scenario get the same outcome and the same datasets from
    [setup], whatever their [binary_labels], [linear_encoder], [batch_size]
    and [num_workers] are. *)
Theorem datasets_ignore_label_options (stage : option string)
    (s s' : DataModule.state E I D) :
  DataModule.root_dir s = DataModule.root_dir s' ->
  DataModule.band_mode s = DataModule.band_mode s' ->
  DataModule.start_month s = DataModule.start_month s' ->
  DataModule.end_month s = DataModule.end_month s' ->
  DataModule.return_parcels s = DataModule.return_parcels s' ->
  DataModule.scenario s = DataModule.scenario s' ->
  DataModule.dataset_train s = DataModule.dataset_train s' ->
  DataModule.dataset_eval s = DataModule.dataset_eval s' ->
  DataModule.dataset_test s = DataModule.dataset_test s' ->
  fst (DataModule.setup NpyPADDataset stage s) = fst (DataModule.setup NpyPADDataset stage s')
  /\ DataModule.dataset_train (snd (DataModule.setup NpyPADDataset stage s))
     = DataModule.dataset_train (snd (DataModule.setup NpyPADDataset stage s'))
  /\ DataModule.dataset_eval (snd (DataModule.setup NpyPADDataset stage s))
     = DataModule.dataset_eval (snd (DataModule.setup NpyPADDataset stage s'))
  /\ DataModule.dataset_test (snd (DataModule.setup NpyPADDataset stage s))
     = DataModule.dataset_test (snd (DataModule.setup NpyPADDataset stage s')).
Proof.
  intros H1 H2 H3 H4 H5 H6 Ht He Hs.
  assert (Ha : forall m o, DataModule.args_for s m o = DataModule.args_for s' m o).
  { intros m o. unfold DataModule.args_for. congruence. }
  unfold DataModule.setup.
  destruct (bool_decide (stage = Some "fit")).
  - rewrite (Ha "train" false).
    destruct (NpyPADDataset (DataModule.args_for s' "train" false)) as [x|d1]; [simpl; auto|].
    change (DataModule.args_for (DataModule.set_train s d1) "val" false)
      with (DataModule.args_for s "val" false).
    change (DataModule.args_for (DataModule.set_train s' d1) "val" false)
      with (DataModule.args_for s' "val" false).
    rewrite (Ha "val" false).
    destruct (NpyPADDataset (DataModule.args_for s' "val" false)) as [x|d2]; simpl; auto.
  - destruct (bool_decide (stage = Some "test")); [|simpl; auto].
    rewrite (Ha "test" true).
    destruct (NpyPADDataset (DataModule.args_for s' "test" true)) as [x|d]; simpl; auto.
Qed.

End DataModuleFacts.

Lemma loaders_need_their_setup_witness :
  let s := module0 false in
  let s1 := snd (DataModule.setup (dataset_or_fail "none") (Some "fit") s) in
  (DataModule.train_dataloader loader_of s
     = DataModule.Raise (DataModule.AttributeError "dataset_train")
   /\ DataModule.val_dataloader loader_of s
      = DataModule.Raise (DataModule.AttributeError "dataset_eval")
   /\ DataModule.test_dataloader loader_of s
      = DataModule.Raise (DataModule.AttributeError "dataset_test"))
  /\ (DataModule.setup (dataset_or_fail "none") (Some "fit") s = (DataModule.Done tt, s1) ->
      DataModule.test_dataloader loader_of s1
        = DataModule.Raise (DataModule.AttributeError "dataset_test")
      /\ DataModule.dataset_train s1 <> None
      /\ DataModule.dataset_eval s1 <> None)
  /\ (DataModule.setup (dataset_or_fail "none") (Some "test") s = (DataModule.Done tt, s1) ->
      DataModule.train_dataloader loader_of s1
        = DataModule.Raise (DataModule.AttributeError "dataset_train")
      /\ DataModule.val_dataloader loader_of s1
         = DataModule.Raise (DataModule.AttributeError "dataset_eval")
      /\ DataModule.dataset_test s1 <> None).
Proof.
  apply (loaders_need_their_setup (dataset_or_fail "none") loader_of (module0 false)
           (snd (DataModule.setup (dataset_or_fail "none") (Some "fit") (module0 false))));
    reflexivity.
Defined.

Lemma fit_then_test_keeps_datasets_witness :
  let s := module0 false in
  let s1 := snd (DataModule.setup (dataset_or_fail "none") (Some "fit") s) in
  let s2 := snd (DataModule.setup (dataset_or_fail "none") (Some "test") s1) in
  exists d1 d2 d3,
    dataset_or_fail "none" (DataModule.args_for s "train" false) = inr d1
    /\ dataset_or_fail "none" (DataModule.args_for s "val" false) = inr d2
    /\ dataset_or_fail "none" (DataModule.args_for s "test" true) = inr d3
    /\ DataModule.dataset_train s2 = Some d1
    /\ DataModule.dataset_eval s2 = Some d2
    /\ DataModule.dataset_test s2 = Some d3
    /\ DataModule.train_dataloader loader_of s2
       = DataModule.load loader_of d1 (DataModule.batch_size s) true
           (DataModule.num_workers s)
    /\ DataModule.val_dataloader loader_of s2
       = DataModule.load loader_of d2 (DataModule.batch_size s) false
           (DataModule.num_workers s)
    /\ DataModule.test_dataloader loader_of s2
       = DataModule.load loader_of d3 (DataModule.batch_size s) false
           (DataModule.num_workers s).
Proof.
  apply (fit_then_test_keeps_datasets (dataset_or_fail "none") loader_of
           (module0 false)
           (snd (DataModule.setup (dataset_or_fail "none") (Some "fit") (module0 false))));
    reflexivity.
Defined.

Lemma setup_fit_partial_witness :
  let s := module0 false in
  exists s1,
    DataModule.setup (dataset_or_fail "val") (Some "fit") s
    = (DataModule.Raise (DataModule.Raised tt), s1)
    /\ DataModule.dataset_train s1 = Some (DataModule.args_for s "train" false)
    /\ DataModule.train_dataloader loader_of s1
       = DataModule.load loader_of (DataModule.args_for s "train" false)
           (DataModule.batch_size s) true (DataModule.num_workers s)
    /\ DataModule.val_dataloader loader_of s1
       = DataModule.Raise (DataModule.AttributeError "dataset_eval").
Proof.
  apply (setup_fit_partial (dataset_or_fail "val") loader_of (module0 false)
           (DataModule.args_for (module0 false) "train" false) tt);
    reflexivity.
Defined.

Lemma datasets_ignore_label_options_witness :
  let f := dataset_or_fail "none" in
  fst (DataModule.setup f (Some "fit") (module0 false))
  = fst (DataModule.setup f (Some "fit") (module0 true))
  /\ DataModule.dataset_train (snd (DataModule.setup f (Some "fit") (module0 false)))
     = DataModule.dataset_train (snd (DataModule.setup f (Some "fit") (module0 true)))
  /\ DataModule.dataset_eval (snd (DataModule.setup f (Some "fit") (module0 false)))
     = DataModule.dataset_eval (snd (DataModule.setup f (Some "fit") (module0 true)))
  /\ DataModule.dataset_test (snd (DataModule.setup f (Some "fit") (module0 false)))
     = DataModule.dataset_test (snd (DataModule.setup f (Some "fit") (module0 true))).
Proof.
  apply (datasets_ignore_label_options (dataset_or_fail "none") (Some "fit")
           (module0 false) (module0 true));
    reflexivity.
Defined.

(** ** Further properties: [main] and the file system *)

(** [resume_or_start] adds directories to the file system and nothing else. *)
Lemma resume_or_start_adds (results_path : Path) (resume : option string)
    (train : bool) (n : Z) (c : option string) (w : world) :
  exists added,
    fs (snd (resume_or_start results_path resume train n c w))
    = (fs w ++ added)%list
    /\ Forall (fun e => snd e = Dir) added.
Proof.
  destruct train; [destruct resume as [s|]|].
  - rewrite resume_or_start_world by (right; discriminate).
    exists []. rewrite app_nil_r. split; [reflexivity | constructor].
  - rewrite resume_or_start_fresh.
    destruct (FS.mkdir (fs w) _) as [l'|e] eqn:E; cbn [snd fs].
    + destruct (mkdir_parents_ok _ _ _ _ E) as (added & -> & Ha & _).
      exists added. split; [reflexivity|].
      eapply Forall_impl; [exact Ha|]. intros x [? _]. assumption.
    + exists []. rewrite app_nil_r. split; [reflexivity | constructor].
  - rewrite resume_or_start_world by (left; reflexivity).
    exists []. rewrite app_nil_r. split; [reflexivity | constructor].
Qed.

Lemma mkdir_adds (l : list (Path * node)) (p : Path) :
  exists added,
    match FS.mkdir l p with Ok l' => l' | Err _ => l end = (l ++ added)%list
    /\ Forall (fun e => snd e = Dir) added.
Proof.
  destruct (FS.mkdir l p) as [l'|e] eqn:E.
  - destruct (mkdir_parents_ok _ _ _ _ E) as (added & -> & Ha & _).
    exists added. split; [reflexivity|].
    eapply Forall_impl; [exact Ha|]. intros x [? _]. assumption.
  - exists []. rewrite app_nil_r. split; [reflexivity | constructor].
Qed.

Section MainWorld.

Context {F : Type} (float : string -> option F) (tables : result unit).

(** X25. Whatever its arguments and however it ends, [main] up to the plan
    only ever appends directories to the file system: no entry is removed or
    replaced and no regular file is created. *)
Theorem main_only_adds_directories (work_dir : option string)
    (img_size : option (list string)) (a : args) (later : datetime) (w : world) :
  exists added,
    fs (snd (main float tables work_dir img_size a later w)) = (fs w ++ added)%list
    /\ Forall (fun e => snd e = Dir) added
    /\ (forall q m, FS.lookup (fs w) q = Some m ->
          FS.lookup (fs (snd (main float tables work_dir img_size a later w))) q
          = Some m).
Proof.
  assert (Hgoal : exists added,
    fs (snd (main float tables work_dir img_size a later w)) = (fs w ++ added)%list
    /\ Forall (fun e => snd e = Dir) added).
  { assert (Hnil : exists added : list (Path * node),
               fs w = (fs w ++ added)%list /\ Forall (fun e => snd e = Dir) added).
    { exists []. rewrite app_nil_r. split; [reflexivity | constructor]. }
    unfold main.
    destruct (negb (train a) && is_none (load_checkpoint a)); [exact Hnil|].
    destruct (check_img_size img_size) as [sz|e]; [|exact Hnil].
    pose proof (mkdir_adds (fs w) (PathLib.of_string "logs")) as (a1 & E1 & Ha1).
    destruct (FS.mkdir (fs w) (PathLib.of_string "logs")) as [l1|e]; [|exact Hnil].
    subst l1.
    pose proof (mkdir_adds (fs w ++ a1) (PathLib.of_string "logs" // "loaders"))
      as (a2 & E2 & Ha2).
    destruct (FS.mkdir (fs w ++ a1) (PathLib.of_string "logs" // "loaders")) as [l2|e].
    2:{ cbn [snd fs]. exists a1. auto. }
    subst l2.
    destruct tables as [u|e].
    2:{ cbn [snd fs]. exists (a1 ++ a2)%list. rewrite app_assoc.
        split; [reflexivity | apply Forall_app; auto]. }
    unfold create_model_log_path. cbn [fs now].
    set (results := PathLib.of_string "logs" // model_str (model_name a) // _).
    pose proof (mkdir_adds ((fs w ++ a1) ++ a2) results) as (a3 & E3 & Ha3).
    destruct (FS.mkdir ((fs w ++ a1) ++ a2) results) as [l3|e].
    2:{ cbn [snd fs]. exists (a1 ++ a2)%list. rewrite app_assoc.
        split; [reflexivity | apply Forall_app; auto]. }
    subst l3. cbn [fs].
    pose proof (resume_or_start_adds results (resume a) (train a) (num_epochs a)
                  (load_checkpoint a)
                  {| fs := ((fs w ++ a1) ++ a2) ++ a3; now := later |})
      as (a4 & E4 & Ha4).
    destruct (resume_or_start results (resume a) (train a) (num_epochs a)
                (load_checkpoint a) _) as [r w4].
    cbn [snd fs] in E4 |- *. rewrite E4.
    exists (a1 ++ a2 ++ a3 ++ a4)%list. rewrite !app_assoc.
    split; [reflexivity|]. repeat (apply Forall_app; split); assumption. }
  destruct Hgoal as (added & E & Ha). exists added.
  split; [exact E|]. split; [exact Ha|].
  intros q m Hq. rewrite E. apply lookup_app_old, Hq.
Qed.

(** X26. In prepared directories [main] is the resolution alone: when
    [logs], [logs/loaders] and the results directory of the model are
    directories already, the arguments pass the checks and the class tables
    are built, [main] creates nothing on the way and ends as the resolution
    does on the results directory [logs/<model>/<prefix>]. *)
Theorem main_in_prepared_directories (work_dir : option string)
    (img_size : option (list string)) (a : args) (later : datetime) (w : world) :
  let results := PathLib.of_string "logs" // model_str (model_name a)
                 // main_prefix work_dir w in
  negb (train a) && is_none (load_checkpoint a) = false ->
  is_ok (check_img_size img_size) = true ->
  is_ok tables = true ->
  FS.is_dir (fs w) (PathLib.of_string "logs") = true ->
  FS.is_dir (fs w) (PathLib.of_string "logs" // "loaders") = true ->
  FS.is_dir (fs w) results = true ->
  main float tables work_dir img_size a later w
  = main_resolve float results a {| fs := fs w; now := later |}.
Proof.
  intros results Hc Hi Htab H1 H2 H3. unfold main, main_resolve. rewrite Hc.
  destruct (check_img_size img_size) as [sz|e]; [clear Hi | discriminate Hi].
  destruct tables as [u|e]; [clear Htab | discriminate Htab].
  unfold FS.mkdir at 1. rewrite (mkdir_parents_existing _ _ _ H1).
  unfold FS.mkdir at 1. rewrite (mkdir_parents_existing _ _ _ H2).
  unfold create_model_log_path. cbn [fs now].
  change (main_prefix work_dir {| fs := fs w; now := now w |})
    with (main_prefix work_dir w).
  fold results.
  unfold FS.mkdir at 1. rewrite (mkdir_parents_existing _ _ _ H3).
  cbn [fs]. reflexivity.
Qed.

End MainWorld.

Lemma main_in_prepared_directories_witness :
  main float_text (Ok tt) (Some "exp") None (args0 unet true (Some "last") None)
    clock0
    {| fs := (fs (world_runs ledger_full)
              ++ [(PathLib.of_string "logs/loaders", Dir)])%list;
       now := clock0 |}
  = main_resolve float_text
      (PathLib.of_string "logs" // model_str unet
       // main_prefix (Some "exp")
            {| fs := (fs (world_runs ledger_full)
                      ++ [(PathLib.of_string "logs/loaders", Dir)])%list;
               now := clock0 |})
      (args0 unet true (Some "last") None)
      {| fs := (fs (world_runs ledger_full)
                ++ [(PathLib.of_string "logs/loaders", Dir)])%list;
         now := clock0 |}.
Proof.
  apply (main_in_prepared_directories float_text (Ok tt) (Some "exp") None
           (args0 unet true (Some "last") None) clock0
           {| fs := (fs (world_runs ledger_full)
                     ++ [(PathLib.of_string "logs/loaders", Dir)])%list;
              now := clock0 |});
    vm_compute; reflexivity.
Defined.

(** ** Further properties: the name of a checkpoint *)

(** X27. The epoch of a checkpoint that the caller names is read off its
    file name: with a stem [epoch=<digits>], alone or followed by a dash and
    anything else, the evaluate-only branch and the explicit-resume branch
    both start at the number [<digits>], in every world and without touching
    it; the step after the dash plays no part. *)
Theorem named_checkpoint_epoch (s ds rest : string) :
  PathLib.stem (PathLib.of_string s) = "epoch=" +:+ ds +:+ rest ->
  all_digits ds = true -> ds <> EmptyString ->
  (rest = EmptyString \/ exists r, rest = String "-" r) ->
  let ckpt := PathLib.of_string s in
  let N := digits_value 0 ds in
  (forall results_path resume n w,
      resume_or_start results_path resume false n (Some s) w
      = (Ok (PathLib.parent (PathLib.parent ckpt), Some ckpt, N + 1, N), w))
  /\ (forall results_path n c w,
        resume_or_start results_path (Some s) true n c w
        = (Ok (PathLib.parent (PathLib.parent ckpt), Some ckpt, N + n, N), w)).
Proof.
  intros Hs Hd Hne Hrest ckpt N.
  pose proof (epoch_of_name_token ckpt ds rest Hs Hd Hne Hrest) as He.
  split.
  - intros. rewrite resume_or_start_evaluate. fold ckpt. rewrite He. reflexivity.
  - intros. rewrite resume_or_start_named.
    + fold ckpt. rewrite He. reflexivity.
    + intros ->. vm_compute in Hs. discriminate Hs.
Qed.

Lemma named_checkpoint_epoch_witness :
  let ckpt := PathLib.of_string (run_b +:+ "/checkpoints/epoch=07-step=99.ckpt") in
  (forall results_path resume n w,
      resume_or_start results_path resume false n
        (Some (run_b +:+ "/checkpoints/epoch=07-step=99.ckpt")) w
      = (Ok (PathLib.parent (PathLib.parent ckpt), Some ckpt, 7 + 1, 7), w))
  /\ (forall results_path n c w,
        resume_or_start results_path
          (Some (run_b +:+ "/checkpoints/epoch=07-step=99.ckpt")) true n c w
        = (Ok (PathLib.parent (PathLib.parent ckpt), Some ckpt, 7 + n, 7), w)).
Proof.
  apply (named_checkpoint_epoch (run_b +:+ "/checkpoints/epoch=07-step=99.ckpt")
           "07" "-step=99").
  - vm_compute. reflexivity.
  - reflexivity.
  - discriminate.
  - right. eexists. reflexivity.
Defined.

(** ** Facts about time stamps *)

Lemma digit_char_compare (a b : nat) :
  (a < 10)%nat -> (b < 10)%nat ->
  Ascii.compare (digit_char a) (digit_char b) = Nat.compare a b.
Proof.
  intros Ha Hb.
  do 10 (destruct a as [|a];
         [do 10 (destruct b as [|b]; [reflexivity|]); lia |]).
  lia.
Qed.

Lemma append_String (c : ascii) (s t : string) :
  String c s +:+ t = String c (s +:+ t).
Proof. reflexivity. Qed.

Lemma append_empty_l (t : string) : EmptyString +:+ t = t.
Proof. reflexivity. Qed.

Lemma digit_char_mod (n : nat) : digit_char n = digit_char (n mod 10).
Proof. unfold digit_char. rewrite Nat.Div0.mod_mod. reflexivity. Qed.

(** Two digits in front compare as the numbers they write. *)
Lemma two_digits_compare (n m : nat) (s t : string) :
  (n < 100)%nat -> (m < 100)%nat ->
  String.compare (two_digits n +:+ s) (two_digits m +:+ t)
  = match Nat.compare n m with Eq => String.compare s t | o => o end.
Proof.
  intros Hn Hm. unfold two_digits.
  rewrite (digit_char_mod n), (digit_char_mod m).
  rewrite !append_String, !append_empty_l. cbn [String.compare].
  pose proof (Nat.div_mod_eq n 10) as En. pose proof (Nat.div_mod_eq m 10) as Em.
  pose proof (Nat.mod_upper_bound n 10 ltac:(lia)) as Bn.
  pose proof (Nat.mod_upper_bound m 10 ltac:(lia)) as Bm.
  rewrite !digit_char_compare by lia.
  destruct (Nat.compare_spec (n / 10) (m / 10));
    destruct (Nat.compare_spec (n mod 10) (m mod 10));
    destruct (Nat.compare_spec n m); try reflexivity; lia.
Qed.

(** So do four. *)
Lemma four_digits_compare (n m : nat) (s t : string) :
  (n < 10 * 1000)%nat -> (m < 10 * 1000)%nat ->
  String.compare (four_digits n +:+ s) (four_digits m +:+ t)
  = match Nat.compare n m with Eq => String.compare s t | o => o end.
Proof.
  intros Hn Hm. unfold four_digits.
  rewrite (digit_char_mod n), (digit_char_mod m).
  rewrite (digit_char_mod (n / 10)), (digit_char_mod (m / 10)).
  rewrite (digit_char_mod (n / 100)), (digit_char_mod (m / 100)).
  rewrite !append_String, !append_empty_l. cbn [String.compare].
  assert (D : forall k, (k < 10 * 1000)%nat ->
            (k = 1000 * (k / 1000) + 100 * ((k / 100) mod 10)
                 + 10 * ((k / 10) mod 10) + k mod 10
             /\ k / 1000 < 10 /\ (k / 100) mod 10 < 10
             /\ (k / 10) mod 10 < 10 /\ k mod 10 < 10)%nat).
  { intros k Hk.
    pose proof (Nat.div_mod_eq k 10) as E1.
    pose proof (Nat.div_mod_eq (k / 10) 10) as E2.
    pose proof (Nat.div_mod_eq (k / 100) 10) as E3.
    rewrite (Nat.Div0.div_div k 10 10) in E2. change (10 * 10)%nat with 100%nat in E2.
    rewrite (Nat.Div0.div_div k 100 10) in E3. change (100 * 10)%nat with 1000%nat in E3.
    pose proof (Nat.mod_upper_bound k 10 ltac:(lia)).
    pose proof (Nat.mod_upper_bound (k / 10) 10 ltac:(lia)).
    pose proof (Nat.mod_upper_bound (k / 100) 10 ltac:(lia)).
    repeat split; lia. }
  destruct (D n Hn) as (En & ? & ? & ? & ?).
  destruct (D m Hm) as (Em & ? & ? & ? & ?).
  rewrite !digit_char_compare by assumption.
  destruct (Nat.compare_spec (n / 1000) (m / 1000));
    destruct (Nat.compare_spec ((n / 100) mod 10) ((m / 100) mod 10));
    destruct (Nat.compare_spec ((n / 10) mod 10) ((m / 10) mod 10));
    destruct (Nat.compare_spec (n mod 10) (m mod 10));
    destruct (Nat.compare_spec n m); try reflexivity; lia.
Qed.

(** Time stamps compare as the times they write. *)
Lemma strftime_ltb (d1 d2 : datetime) :
  datetime_valid d1 -> datetime_valid d2 ->
  datetime_ltb d1 d2 = true ->
  String.ltb (strftime d1) (strftime d2) = true.
Proof.
  intros V1 V2 H. unfold datetime_valid in V1, V2.
  unfold String.ltb, strftime.
  rewrite four_digits_compare by lia.
  rewrite !two_digits_compare by lia.
  rewrite <- (append_empty_r (two_digits (second d1))).
  rewrite <- (append_empty_r (two_digits (second d2))).
  rewrite two_digits_compare by lia.
  unfold datetime_ltb, datetime_fields in H. cbn [fields_ltb] in H.
  repeat match type of H with
  | context [(?a <? ?b)%nat] =>
      destruct (Nat.ltb_spec a b);
        [destruct (Nat.compare_spec a b); try lia; reflexivity|];
      destruct (Nat.eqb_spec a b); [|discriminate H];
      destruct (Nat.compare_spec a b); try lia
  end.
Qed.

Lemma string_ltb_run (a b : string) :
  String.ltb ("run_" +:+ a) ("run_" +:+ b) = String.ltb a b.
Proof. reflexivity. Qed.

Lemma string_ltb_asym (a b : string) :
  String.ltb a b = true -> String.ltb b a = false.
Proof.
  intros H. destruct (String.ltb b a) eqn:E; [|reflexivity].
  pose proof (string_ltb_trans _ _ _ H E) as Hc.
  rewrite string_ltb_irrefl in Hc. discriminate.
Qed.

(** Run directories of one results directory compare as their times. *)
Lemma run_ltb (results_path : Path) (d1 d2 : datetime) :
  datetime_valid d1 -> datetime_valid d2 ->
  datetime_ltb d1 d2 = true ->
  PathLib.ltb (results_path // ("run_" +:+ strftime d1))
    (results_path // ("run_" +:+ strftime d2)) = true.
Proof.
  intros V1 V2 H. rewrite siblings_ltb.
  - rewrite !joinpath_run, !name_snoc, string_ltb_run. apply strftime_ltb; assumption.
  - rewrite !parent_run. reflexivity.
  - rewrite parts_run. destruct (parts results_path); discriminate.
  - rewrite parts_run. destruct (parts results_path); discriminate.
Qed.

Lemma path_ltb_asym (p q : Path) :
  PathLib.ltb p q = true -> PathLib.ltb q p = false.
Proof.
  intros H. destruct (PathLib.ltb q p) eqn:E; [|reflexivity].
  pose proof (path_ltb_trans _ _ _ H E) as Hc.
  rewrite path_ltb_irrefl in Hc. discriminate.
Qed.

Lemma lookup_in_glob (l : list (Path * node)) (dir p : Path) (pat : string)
    (n : node) :
  FS.is_dir l dir = true -> parts p <> [] -> PathLib.parent p = dir ->
  Py.fnmatch pat (PathLib.name p) = true ->
  FS.lookup l p = Some n -> p ∈ FS.glob l dir pat.
Proof.
  intros Hd Hp Hpar Hf Hl. unfold FS.glob. rewrite Hd.
  unfold FS.lookup in Hl. destruct (parts p) as [|x r] eqn:Ep; [contradiction|].
  apply list_elem_of_In, in_map_iff.
  assert (Hin : exists m, In (p, m) l).
  { clear -Hl. induction l as [|[q m] l IH]; simpl in Hl; [discriminate|].
    destruct (decide (q = p)) as [->|]; [exists m; left; reflexivity|].
    destruct (IH Hl) as (m' & ?). exists m'. right. assumption. }
  destruct Hin as (m & Hin). exists (p, m). split; [reflexivity|].
  apply filter_In. split; [exact Hin|].
  unfold FS.is_child. cbn [fst]. rewrite Ep, Hf.
  rewrite bool_decide_eq_true_2 by exact Hpar. reflexivity.
Qed.

(** ** Further properties: the most recent run *)

(** X28. Resume-last picks the most recent run.  Run directories are named
    by the second at which they were created, zero padded, so that the order
    of their names is the order of time: after a fresh start in a results
    directory whose [run_*] entries were all created by earlier fresh
    starts, the latest run is the one just created. *)
Theorem resume_last_picks_most_recent_run (results_path : Path) (n : Z)
    (c : option string) (w : world) :
  datetime_valid (now w) ->
  FS.is_dir (fs w) results_path = true ->
  Forall (fun x => exists d,
            datetime_valid d /\ datetime_ltb d (now w) = true
            /\ x = results_path // ("run_" +:+ strftime d))
    (FS.glob (fs w) results_path "run_*") ->
  latest_run (fs (snd (resume_or_start results_path None true n c w))) results_path
  = Ok (results_path // ("run_" +:+ strftime (now w))).
Proof.
  intros V Hd Hall.
  assert (Hlt : Forall (fun x => PathLib.ltb x
                          (results_path // ("run_" +:+ strftime (now w))) = true)
                  (FS.glob (fs w) results_path "run_*")).
  { eapply Forall_impl; [exact Hall|]. intros x (d & Vd & Hlt & ->).
    apply run_ltb; assumption. }
  assert (Hnew : FS.lookup (fs w) (results_path // ("run_" +:+ strftime (now w)))
                 = None).
  { destruct (FS.lookup (fs w) _) as [m|] eqn:El; [|reflexivity]. exfalso.
    apply (lookup_in_glob _ results_path _ "run_*") in El.
    - rewrite Forall_forall in Hlt. specialize (Hlt _ El).
      rewrite path_ltb_irrefl in Hlt. discriminate.
    - exact Hd.
    - rewrite parts_run. destruct (parts results_path); discriminate.
    - apply parent_run.
    - rewrite joinpath_run, name_snoc. apply fnmatch_run. }
  rewrite (fresh_start_new_run _ _ _ _ Hd Hnew). cbn [snd fs].
  apply latest_run_after_fresh; [exact Hd|].
  eapply Forall_impl; [exact Hlt|]. intros x Hx. apply path_ltb_asym, Hx.
Qed.

Lemma resume_last_picks_most_recent_run_witness :
  latest_run
    (fs (snd (resume_or_start results0 None true 10 None (world_runs ledger_full))))
    results0
  = Ok (results0 // ("run_" +:+ strftime (now (world_runs ledger_full)))).
Proof.
  apply (resume_last_picks_most_recent_run results0 10 None (world_runs ledger_full)).
  - unfold datetime_valid. cbn [world_runs now clock0 year month day hour minute second].
    lia.
  - vm_compute. reflexivity.
  - replace (FS.glob (fs (world_runs ledger_full)) results0 "run_*")
      with [PathLib.of_string run_b; PathLib.of_string run_a]
      by (vm_compute; reflexivity).
    constructor; [|constructor; [|constructor]].
    + exists {| year := 2024; month := 1; day := 2; hour := 12; minute := 0;
                second := 0 |}.
      split; [unfold datetime_valid; cbn [year month day hour minute second]; lia|].
      split; vm_compute; reflexivity.
    + exists {| year := 2024; month := 1; day := 1; hour := 0; minute := 0;
                second := 0 |}.
      split; [unfold datetime_valid; cbn [year month day hour minute second]; lia|].
      split; vm_compute; reflexivity.
Defined.
